(** * NASA C compliance checker: a shallow embedding and its properties

    The development follows [tools/compliance_checker.py] (the intrinsic
    rule engine and its scoring) and [tools/static_analysis_integration.py]
    (the external analyser adapters).

    Python text is modelled by [string]; a character is a code point below
    256, classified the way CPython classifies it ([str.isspace], the [re]
    classes [\s], [\w], [\d], [str.lower]).  Python integers are [Z] or
    [nat] (line numbers and counters never go negative where [nat] is
    used).  Exceptions are values of [exn], carried by the result type
    [exc]. *)

From Stdlib Require Import Bool Arith ZArith List Ascii String Lia.
From Stdlib Require Import Permutation DecimalString.
Import ListNotations.

Set Warnings "-register-all".

Open Scope string_scope.
Open Scope list_scope.
Open Scope bool_scope.
Open Scope nat_scope.

(** ** Exceptions and fallible results *)

Inductive exn : Type :=
| IndexError
| KeyError
| TypeError
| AttributeError
| ValueError
| JSONDecodeError
| TimeoutExpired
| FileNotFoundError
| OSError
| RecursionError.

Inductive exc (A : Type) : Type :=
| Ok (a : A)
| Raise (e : exn).

Arguments Ok {A} a.
Arguments Raise {A} e.

Definition bind {A B : Type} (m : exc A) (k : A -> exc B) : exc B :=
  match m with
  | Ok a => k a
  | Raise e => Raise e
  end.

Notation "x <- m ;; k" := (bind m (fun x => k))
  (at level 61, m at next level, right associativity).

Definition raises {A : Type} (m : exc A) : bool :=
  match m with
  | Ok _ => false
  | Raise _ => true
  end.

(** ** Python strings *)

Module Py.

(** [str.isspace] on one character; also the class [\s] of [re]. *)
Definition isspace (c : ascii) : bool :=
  let n := nat_of_ascii c in
  ((9 <=? n) && (n <=? 13)) || ((28 <=? n) && (n <=? 32))
  || (n =? 133) || (n =? 160).

(** The class [\d] of [re]. *)
Definition isdecimal (c : ascii) : bool :=
  let n := nat_of_ascii c in (48 <=? n) && (n <=? 57).

(** The class [\w] of [re]: alphanumeric characters and the underscore. *)
Definition isword (c : ascii) : bool :=
  let n := nat_of_ascii c in
  ((48 <=? n) && (n <=? 57)) || ((65 <=? n) && (n <=? 90)) || (n =? 95)
  || ((97 <=? n) && (n <=? 122))
  || (n =? 170) || (n =? 178) || (n =? 179) || (n =? 181) || (n =? 185)
  || (n =? 186) || ((188 <=? n) && (n <=? 190))
  || ((192 <=? n) && (n <=? 214)) || ((216 <=? n) && (n <=? 246))
  || (248 <=? n).

Definition lower_char (c : ascii) : ascii :=
  let n := nat_of_ascii c in
  if ((65 <=? n) && (n <=? 90))
     || ((192 <=? n) && (n <=? 222) && negb (n =? 215))
  then ascii_of_nat (n + 32) else c.

(** [s.lower()] *)
Fixpoint lower (s : string) : string :=
  match s with
  | EmptyString => EmptyString
  | String c s' => String (lower_char c) (lower s')
  end.

(** [s.startswith(p)] *)
Fixpoint startswith (s p : string) {struct p} : bool :=
  match p with
  | EmptyString => true
  | String a p' =>
      match s with
      | EmptyString => false
      | String b s' => Ascii.eqb a b && startswith s' p'
      end
  end.

(** [sub in s] *)
Fixpoint contains (sub s : string) : bool :=
  startswith s sub ||
  match s with
  | EmptyString => false
  | String _ s' => contains sub s'
  end.

(** [s.lstrip()] *)
Fixpoint lstrip (s : string) : string :=
  match s with
  | EmptyString => EmptyString
  | String c s' => if isspace c then lstrip s' else s
  end.

(** [s.rstrip()] *)
Fixpoint rstrip (s : string) : string :=
  match s with
  | EmptyString => EmptyString
  | String c s' =>
      match rstrip s' with
      | EmptyString => if isspace c then EmptyString else String c EmptyString
      | t => String c t
      end
  end.

(** [s.strip()] *)
Definition strip (s : string) : string := rstrip (lstrip s).

(** [s[n:]] *)
Fixpoint drop (n : nat) (s : string) : string :=
  match n, s with
  | S n', String _ s' => drop n' s'
  | _, _ => s
  end.

(** [s.count(c)] for a one-character argument. *)
Fixpoint count_char (c : ascii) (s : string) : nat :=
  match s with
  | EmptyString => 0
  | String a s' => (if Ascii.eqb a c then 1 else 0) + count_char c s'
  end.

(** [s.split(sep)] for a one-character separator: the result is never
    empty, and the empty string splits into one empty piece. *)
Fixpoint split (sep : ascii) (s : string) : list string :=
  match s with
  | EmptyString => [EmptyString]
  | String c s' =>
      if Ascii.eqb c sep then EmptyString :: split sep s'
      else match split sep s' with
           | [] => [String c EmptyString]
           | p :: ps => String c p :: ps
           end
  end.

(** [sep.join(l)] *)
Fixpoint join (sep : string) (l : list string) : string :=
  match l with
  | [] => EmptyString
  | [x] => x
  | x :: rest => (x ++ sep ++ join sep rest)%string
  end.

(** [str(n)] for a non-negative integer. *)
Definition str_of_nat (n : nat) : string :=
  NilZero.string_of_uint (Nat.to_uint n).

(** [l[z]]: negative indices count from the end, anything out of range
    raises [IndexError]. *)
Definition index {A : Type} (l : list A) (z : Z) : exc A :=
  let len := Z.of_nat (List.length l) in
  let z' := if (z <? 0)%Z then (z + len)%Z else z in
  if (z' <? 0)%Z then Raise IndexError
  else match nth_error l (Z.to_nat z') with
       | Some a => Ok a
       | None => Raise IndexError
       end.

(** [enumerate(l, start)] *)
Fixpoint enumerate {A : Type} (start : nat) (l : list A) : list (nat * A) :=
  match l with
  | [] => []
  | a :: l' => (start, a) :: enumerate (S start) l'
  end.

(** [range(lo, hi)] *)
Definition range (lo hi : nat) : list nat := seq lo (hi - lo).

(** [any(p in s for p in patterns)] *)
Definition any_in (patterns : list string) (s : string) : bool :=
  existsb (fun p => contains p s) patterns.

End Py.

(** ** Loops

    A [for] loop over a list threads the state through its body; the body
    says whether the loop goes on ([Next], also the effect of [continue])
    or stops ([Break]). *)

Inductive flow : Type := Next | Break.

Fixpoint for_each {A S : Type} (body : A -> S -> exc (S * flow))
         (l : list A) (st : S) : exc S :=
  match l with
  | [] => Ok st
  | a :: l' =>
      r <- body a st ;;
      match snd r with
      | Next => for_each body l' (fst r)
      | Break => Ok (fst r)
      end
  end.

(** ** Data model of the intrinsic checker *)

Inductive Severity : Type := MINOR | MODERATE | MAJOR | CRITICAL.

Definition Severity_eqb (a b : Severity) : bool :=
  match a, b with
  | MINOR, MINOR | MODERATE, MODERATE | MAJOR, MAJOR | CRITICAL, CRITICAL => true
  | _, _ => false
  end.

Definition Severity_value (s : Severity) : string :=
  match s with
  | MINOR => "minor"
  | MODERATE => "moderate"
  | MAJOR => "major"
  | CRITICAL => "critical"
  end.

Record Violation : Type := mkViolation {
  rule_id : string;
  rule_name : string;
  description : string;
  severity : Severity;
  line_number : nat;
  suggestion : string;
  code_snippet : string
}.

Record NASAComplianceChecker : Type := mkChecker {
  violations : list Violation;
  code_lines : list string
}.

Definition init : NASAComplianceChecker :=
  {| violations := []; code_lines := [] |}.

Definition newline : ascii := ascii_of_nat 10.

Definition load_code (code : string) (self : NASAComplianceChecker)
  : NASAComplianceChecker :=
  {| violations := []; code_lines := Py.split newline code |}.

(** [self.violations.append(v)] *)
Definition append (v : Violation) (self : NASAComplianceChecker)
  : NASAComplianceChecker :=
  {| violations := violations self ++ [v]; code_lines := code_lines self |}.

(** ** Scoring and classification *)

Definition severity_penalties : list (Severity * Z) :=
  [(MINOR, 2%Z); (MODERATE, 5%Z); (MAJOR, 10%Z); (CRITICAL, 15%Z)].

(** [d.get(key, default)] on the penalty table. *)
Fixpoint penalties_get (d : list (Severity * Z)) (key : Severity)
         (default : Z) : Z :=
  match d with
  | [] => default
  | (k, v) :: d' => if Severity_eqb k key then v else penalties_get d' key default
  end.

Definition penalty (s : Severity) : Z := penalties_get severity_penalties s 5%Z.

(** The loop of [calculate_compliance_score]: [base_score -= penalty]. *)
Fixpoint subtract_penalties (vs : list Violation) (base_score : Z) : Z :=
  match vs with
  | [] => base_score
  | v :: vs' => subtract_penalties vs' (base_score - penalty (severity v))%Z
  end.

Definition calculate_compliance_score (self : NASAComplianceChecker) : Z :=
  match violations self with
  | [] => 100%Z
  | _ => Z.max 0 (subtract_penalties (violations self) 100)
  end.

Definition get_compliance_level (self : NASAComplianceChecker) : string :=
  let score := calculate_compliance_score self in
  if (score >=? 90)%Z then "fully_compliant"
  else if (score >=? 80)%Z then "minor_issues"
  else if (score >=? 70)%Z then "moderate_issues"
  else if (score >=? 60)%Z then "major_issues"
  else "non_compliant".

(** The sum of the penalties of a violation list. *)
Definition total_penalty (vs : list Violation) : Z :=
  fold_right (fun v acc => (penalty (severity v) + acc)%Z) 0%Z vs.

(** ** Regular expressions

    The patterns of the sources use literals, character classes, greedy
    repetition of a class, an optional part, alternation, groups and the
    word boundary.  [run] is the backtracking matcher of [re]: a greedy
    repetition takes as many characters as it can and gives them back one
    at a time, an alternation tries its branches from left to right, and
    the first way to reach the end of the pattern is the match. *)

Module Re.

Inductive regex : Type :=
| Eps
| Cls (p : ascii -> bool)
| Star (p : ascii -> bool)
| Opt (r : regex)
| Seq (r1 r2 : regex)
| Alt (r1 r2 : regex)
| Group (n : nat) (r : regex)
| WordB.

Definition captures : Type := list (nat * string).

(** The first [n] characters of [s]. *)
Fixpoint take (n : nat) (s : string) : string :=
  match n, s with
  | S n', String c s' => String c (take n' s')
  | _, _ => EmptyString
  end.

(** The text consumed between the suffix [s] and its suffix [s']. *)
Definition consumed (s s' : string) : string :=
  take (String.length s - String.length s') s.

Definition at_boundary (prev : option ascii) (s : string) : bool :=
  xorb (match prev with Some c => Py.isword c | None => false end)
       (match s with String c _ => Py.isword c | EmptyString => false end).

Section Matcher.

Variable R : Type.

Definition cont : Type := option ascii -> string -> captures -> option R.

Fixpoint star (p : ascii -> bool) (k : cont) (prev : option ascii)
         (s : string) (cs : captures) : option R :=
  match s with
  | String c s' =>
      if p c then
        match star p k (Some c) s' cs with
        | Some r => Some r
        | None => k prev s cs
        end
      else k prev s cs
  | EmptyString => k prev s cs
  end.

Fixpoint run (r : regex) (prev : option ascii) (s : string) (cs : captures)
         (k : cont) : option R :=
  match r with
  | Eps => k prev s cs
  | Cls p =>
      match s with
      | String c s' => if p c then k (Some c) s' cs else None
      | EmptyString => None
      end
  | Star p => star p k prev s cs
  | Opt r1 =>
      match run r1 prev s cs k with
      | Some x => Some x
      | None => k prev s cs
      end
  | Seq r1 r2 =>
      run r1 prev s cs (fun prev' s' cs' => run r2 prev' s' cs' k)
  | Alt r1 r2 =>
      match run r1 prev s cs k with
      | Some x => Some x
      | None => run r2 prev s cs k
      end
  | Group n r1 =>
      run r1 prev s cs
          (fun prev' s' cs' => k prev' s' ((n, consumed s s') :: cs'))
  | WordB => if at_boundary prev s then k prev s cs else None
  end.

End Matcher.

Arguments star {R} p k prev s cs.
Arguments run {R} r prev s cs k.

(** A match object: its span and its groups. *)
Record match_obj : Type := mkMatch {
  m_start : nat;
  m_end : nat;
  m_groups : captures
}.

(** [m.group(n)]: [None] when the group took no part in the match. *)
Fixpoint group (n : nat) (cs : captures) : option string :=
  match cs with
  | [] => None
  | (k, v) :: cs' => if k =? n then Some v else group n cs'
  end.

Definition match_at (r : regex) (prev : option ascii) (s : string)
           (pos : nat) : option match_obj :=
  run r prev s []
      (fun _ s' cs =>
         Some {| m_start := pos;
                 m_end := pos + (String.length s - String.length s');
                 m_groups := cs |}).

(** [re.match(r, s)] *)
Definition rmatch (r : regex) (s : string) : option match_obj :=
  match_at r None s 0.

Fixpoint search_from (r : regex) (prev : option ascii) (s : string)
         (pos : nat) : option match_obj :=
  match match_at r prev s pos with
  | Some m => Some m
  | None =>
      match s with
      | EmptyString => None
      | String c s' => search_from r (Some c) s' (S pos)
      end
  end.

(** [re.search(r, s)]: the match at the leftmost position that has one. *)
Definition search (r : regex) (s : string) : option match_obj :=
  search_from r None s 0.

(** Pattern syntax. *)
Definition chr (c : ascii) : regex := Cls (Ascii.eqb c).

Fixpoint lit (s : string) : regex :=
  match s with
  | EmptyString => Eps
  | String c EmptyString => chr c
  | String c s' => Seq (chr c) (lit s')
  end.

Definition plus (p : ascii -> bool) : regex := Seq (Cls p) (Star p).

Definition not_chr (c : ascii) : ascii -> bool := fun a => negb (Ascii.eqb a c).

Fixpoint seqs (rs : list regex) : regex :=
  match rs with
  | [] => Eps
  | [r] => r
  | r :: rs' => Seq r (seqs rs')
  end.

Fixpoint alts (rs : list regex) : regex :=
  match rs with
  | [] => Eps
  | [r] => r
  | r :: rs' => Alt r (alts rs')
  end.

(** [re.finditer(r, s)] for a pattern that matches no empty text: the
    matches from left to right, each search starting where the match
    before it ended.  [skip] counts the characters of the last match that
    are still to be passed. *)
Fixpoint finditer_from (r : regex) (prev : option ascii) (s : string)
         (pos skip : nat) : list match_obj :=
  match skip with
  | S k =>
      match s with
      | EmptyString => []
      | String c s' => finditer_from r (Some c) s' (S pos) k
      end
  | 0 =>
      match match_at r prev s pos with
      | Some m =>
          m :: match s with
               | EmptyString => []
               | String c s' =>
                   finditer_from r (Some c) s' (S pos) (m_end m - pos - 1)
               end
      | None =>
          match s with
          | EmptyString => []
          | String c s' => finditer_from r (Some c) s' (S pos) 0
          end
      end
  end.

Definition finditer (r : regex) (s : string) : list match_obj :=
  finditer_from r None s 0 0.

Definition is_some {A : Type} (o : option A) : bool :=
  match o with Some _ => true | None => false end.

End Re.

(** ** The patterns of the intrinsic rules *)

Module Pat.
Import Re.

Definition ws : regex := Star Py.isspace.
Definition ws1 : regex := plus Py.isspace.
Definition word : regex := plus Py.isword.
Definition not_rparen : regex := Star (not_chr ")").

(** [\w+\s*\([^)]*\)\s*\{] *)
Definition call_block : regex :=
  seqs [word; ws; chr "("; not_rparen; chr ")"; ws; chr "{"].

(** [(\w+)\s*\([^)]*\)\s*\{] *)
Definition call_block_name : regex :=
  seqs [Group 1 word; ws; chr "("; not_rparen; chr ")"; ws; chr "{"].

(** [\s*while\s*\(] *)
Definition while_open : regex := seqs [ws; lit "while"; ws; chr "("].

(** [\w+\s+\w+\s*\(] then the group [([^)]* )] then [\)\s*\{?] *)
Definition signature_params : regex :=
  seqs [word; ws1; word; ws; chr "("; Group 1 not_rparen; chr ")"; ws;
        Opt (chr "{")].

(** [\w+\s+\w+\s*\([^)]*\)\s*\{] *)
Definition function_start : regex :=
  seqs [word; ws1; word; ws; chr "("; not_rparen; chr ")"; ws; chr "{"].

(** [\s*(int|char|float|double|long|short|unsigned|signed)\s+\w+] *)
Definition declaration : regex :=
  seqs [ws;
        Group 1 (alts [lit "int"; lit "char"; lit "float"; lit "double";
                       lit "long"; lit "short"; lit "unsigned"; lit "signed"]);
        ws1; word].

(** [(while|if)\s*\([^)]*=\s*[^)]*\)] *)
Definition condition_assignment : regex :=
  seqs [Group 1 (Alt (lit "while") (lit "if")); ws; chr "("; not_rparen;
        chr "="; ws; not_rparen; chr ")"].

Definition is_a_z (c : ascii) : bool :=
  let n := nat_of_ascii c in (97 <=? n) && (n <=? 122).

(** [\b(int|char|float|double)\s+([a-z]{1,2})\b] *)
Definition short_name : regex :=
  seqs [WordB;
        Group 1 (alts [lit "int"; lit "char"; lit "float"; lit "double"]);
        ws1; Group 2 (Seq (Cls is_a_z) (Opt (Cls is_a_z))); WordB].

(** [\w+\s+\w+\s*\([^)]*\)\s*\{?] *)
Definition signature : regex :=
  seqs [word; ws1; word; ws; chr "("; not_rparen; chr ")"; ws; Opt (chr "{")].

(** [void\s+\w+\s*\([^)]*\)\s*\{?] *)
Definition void_signature : regex :=
  seqs [lit "void"; ws1; word; ws; chr "("; not_rparen; chr ")"; ws;
        Opt (chr "{")].

(** [\bint\s+\w+] *)
Definition int_declaration : regex := seqs [WordB; lit "int"; ws1; word].

End Pat.

(** ** The intrinsic rules *)

Definition is_comment (line : string) : bool :=
  Py.startswith (Py.strip line) "//".

Definition lines_loop (self : NASAComplianceChecker)
           (body : nat * string -> NASAComplianceChecker
                   -> exc (NASAComplianceChecker * flow))
  : exc NASAComplianceChecker :=
  for_each body (Py.enumerate 1 (code_lines self)) self.

Definition when (c : bool) (v : Violation) (self : NASAComplianceChecker)
  : NASAComplianceChecker :=
  if c then append v self else self.

Definition goto_violation (i : nat) (line : string) : Violation :=
  {| rule_id := "rule_1";
     rule_name := "Avoid Complex Flow Control";
     description := "Use of goto statement detected";
     severity := CRITICAL;
     line_number := i;
     suggestion := "Replace goto with structured control flow";
     code_snippet := Py.strip line |}.

Definition setjmp_violation (i : nat) (line : string) : Violation :=
  {| rule_id := "rule_1";
     rule_name := "Avoid Complex Flow Control";
     description := "Use of setjmp/longjmp detected";
     severity := CRITICAL;
     line_number := i;
     suggestion := "Use structured error handling instead";
     code_snippet := Py.strip line |}.

Definition recursion_violation (i : nat) (line : string) : Violation :=
  {| rule_id := "rule_1";
     rule_name := "Avoid Complex Flow Control";
     description := "Recursive function call detected";
     severity := CRITICAL;
     line_number := i;
     suggestion := "Use iterative approach instead of recursion";
     code_snippet := Py.strip line |}.

(** The inner loop of rule 1: the lines after line [i], to the end of
    the file, are searched for [func_name(]. *)
Definition recursion_scan (i : nat) (line func_name : string)
           (self : NASAComplianceChecker) : exc NASAComplianceChecker :=
  for_each
    (fun (jl : nat * string) self =>
       let check_line := snd jl in
       if Py.contains (func_name ++ "(")%string check_line
          && negb (is_comment check_line)
       then Ok (append (recursion_violation i line) self, Break)
       else Ok (self, Next))
    (Py.enumerate (i + 1) (skipn i (code_lines self))) self.

Definition _check_rule_1_flow_control (self : NASAComplianceChecker)
  : exc NASAComplianceChecker :=
  lines_loop self
    (fun il self =>
       let i := fst il in
       let line := snd il in
       let self :=
         when (Py.contains "goto" line && negb (is_comment line))
              (goto_violation i line) self in
       let self :=
         when ((Py.contains "setjmp" line || Py.contains "longjmp" line)
               && negb (is_comment line))
              (setjmp_violation i line) self in
       self <-
         match Re.search Pat.call_block line with
         | Some _ =>
             match Re.search Pat.call_block_name line with
             | Some m =>
                 let func_name :=
                   match Re.group 1 (Re.m_groups m) with
                   | Some g => g
                   | None => "None"
                   end in
                 recursion_scan i line func_name self
             | None => Ok self
             end
         | None => Ok self
         end ;;
       Ok (self, Next)).

Definition unbounded_violation (i : nat) (line : string) : Violation :=
  {| rule_id := "rule_2";
     rule_name := "Fixed Loop Bounds";
     description := "Loop without clear upper bound detected";
     severity := MAJOR;
     line_number := i;
     suggestion := "Add compile-time determinable upper bound";
     code_snippet := Py.strip line |}.

Definition infinite_violation (i : nat) (line : string) : Violation :=
  {| rule_id := "rule_2";
     rule_name := "Fixed Loop Bounds";
     description := "Potential infinite loop detected";
     severity := MAJOR;
     line_number := i;
     suggestion := "Add explicit loop counter and bounds checking";
     code_snippet := Py.strip line |}.

Definition bound_patterns : list string := ["MAX_"; "count"; "size"; "length"].
Definition infinite_patterns : list string := ["true"; "1"; "!0"].

Definition _check_rule_2_loop_bounds (self : NASAComplianceChecker)
  : exc NASAComplianceChecker :=
  lines_loop self
    (fun il self =>
       let i := fst il in
       let line := snd il in
       let self :=
         if Re.is_some (Re.rmatch Pat.while_open line) then
           when (negb (Py.any_in bound_patterns line))
                (unbounded_violation i line) self
         else self in
       let self :=
         when (Py.contains "while" line && Py.any_in infinite_patterns line)
              (infinite_violation i line) self in
       Ok (self, Next)).

Definition memory_violation (i : nat) (line : string) : Violation :=
  {| rule_id := "rule_3";
     rule_name := "No Dynamic Memory";
     description := "Dynamic memory allocation detected";
     severity := CRITICAL;
     line_number := i;
     suggestion := "Use static allocation or stack-based allocation";
     code_snippet := Py.strip line |}.

Definition _check_rule_3_dynamic_memory (self : NASAComplianceChecker)
  : exc NASAComplianceChecker :=
  lines_loop self
    (fun il self =>
       let i := fst il in
       let line := snd il in
       let self :=
         if Py.any_in ["malloc"; "calloc"; "realloc"; "free"] line then
           when (negb (is_comment line)) (memory_violation i line) self
         else self in
       Ok (self, Next)).

Definition parameters_violation (i : nat) (line : string) (param_count : nat)
  : Violation :=
  {| rule_id := "rule_4";
     rule_name := "Function Parameters";
     description :=
       ("Function with " ++ Py.str_of_nat param_count
          ++ " parameters detected")%string;
     severity := MAJOR;
     line_number := i;
     suggestion := "Use structure to group related parameters";
     code_snippet := Py.strip line |}.

Definition nonempty (s : string) : bool :=
  match s with EmptyString => false | String _ _ => true end.

(** [len(p.strip() for p in params.split(',') if p.strip())] *)
Definition count_params (params : string) : nat :=
  List.length
    (map Py.strip (filter (fun p => nonempty (Py.strip p)) (Py.split "," params))).

Definition _check_rule_4_function_parameters (self : NASAComplianceChecker)
  : exc NASAComplianceChecker :=
  lines_loop self
    (fun il self =>
       let i := fst il in
       let line := snd il in
       match Re.search Pat.signature_params line with
       | Some func_match =>
           match Re.group 1 (Re.m_groups func_match) with
           | Some params =>
               let param_count := count_params params in
               Ok (when (2 <? param_count)
                        (parameters_violation i line param_count) self, Next)
           | None => Raise AttributeError
           end
       | None => Ok (self, Next)
       end).

Definition pointer_violation (i : nat) (line : string) : Violation :=
  {| rule_id := "rule_5";
     rule_name := "Pointer Dereferencing";
     description := "More than 2 levels of pointer indirection detected";
     severity := MAJOR;
     line_number := i;
     suggestion := "Limit pointer indirection to 2 levels maximum";
     code_snippet := Py.strip line |}.

Definition _check_rule_5_pointer_dereferencing (self : NASAComplianceChecker)
  : exc NASAComplianceChecker :=
  lines_loop self
    (fun il self =>
       Ok (when (Py.contains "***" (snd il))
                (pointer_violation (fst il) (snd il)) self, Next)).

Definition declaration_violation (i : nat) (line : string) : Violation :=
  {| rule_id := "rule_6";
     rule_name := "Variable Declarations";
     description := "Variable declaration may not be at scope beginning";
     severity := MINOR;
     line_number := i;
     suggestion := "Move all variable declarations to beginning of scope";
     code_snippet := Py.strip line |}.

(** The local variables of the rules that follow function boundaries. *)
Record scan : Type := mkScan {
  in_function : bool;
  function_start : nat;
  counter : nat
}.

Definition scan0 : scan :=
  {| in_function := false; function_start := 0; counter := 0 |}.

Definition is_closing_brace (line : string) : bool :=
  String.eqb (Py.strip line) "}".

Definition _check_rule_6_variable_declarations (self : NASAComplianceChecker)
  : exc NASAComplianceChecker :=
  r <- for_each
         (fun (il : nat * string) (st : NASAComplianceChecker * scan) =>
            let i := fst il in
            let line := snd il in
            let self := fst st in
            let loc := snd st in
            if Re.is_some (Re.rmatch Pat.function_start line) then
              Ok ((self, {| in_function := true; function_start := i;
                            counter := counter loc |}), Next)
            else
              let self :=
                if in_function loc
                   && Re.is_some (Re.rmatch Pat.declaration line)
                then when (function_start loc + 2 <? i)
                          (declaration_violation i line) self
                else self in
              let loc :=
                if is_closing_brace line && in_function loc
                then {| in_function := false;
                        function_start := function_start loc;
                        counter := counter loc |}
                else loc in
              Ok ((self, loc), Next))
         (Py.enumerate 1 (code_lines self)) (self, scan0) ;;
  Ok (fst r).

Definition returns_violation (start return_count : nat) (snippet : string)
  : Violation :=
  {| rule_id := "rule_7";
     rule_name := "Single Return Point";
     description :=
       ("Function with " ++ Py.str_of_nat return_count
          ++ " return statements detected")%string;
     severity := MODERATE;
     line_number := start;
     suggestion := "Use single return point with result variable";
     code_snippet := snippet |}.

Definition _check_rule_7_single_return (self : NASAComplianceChecker)
  : exc NASAComplianceChecker :=
  r <- for_each
         (fun (il : nat * string) (st : NASAComplianceChecker * scan) =>
            let i := fst il in
            let line := snd il in
            let self := fst st in
            let loc := snd st in
            if Re.is_some (Re.rmatch Pat.function_start line) then
              Ok ((self, {| in_function := true; function_start := i;
                            counter := 0 |}), Next)
            else
              let loc :=
                if in_function loc && Py.contains "return" line
                   && negb (is_comment line)
                then {| in_function := in_function loc;
                        function_start := function_start loc;
                        counter := counter loc + 1 |}
                else loc in
              if is_closing_brace line && in_function loc then
                self <-
                  (if 1 <? counter loc then
                     first <- Py.index (code_lines self)
                                (Z.of_nat (function_start loc) - 1) ;;
                     Ok (append (returns_violation (function_start loc)
                                   (counter loc) (Py.strip first)) self)
                   else Ok self) ;;
                Ok ((self, {| in_function := false;
                              function_start := function_start loc;
                              counter := counter loc |}), Next)
              else Ok ((self, loc), Next))
         (Py.enumerate 1 (code_lines self)) (self, scan0) ;;
  Ok (fst r).

Definition preprocessor_violation (i : nat) (line : string) : Violation :=
  {| rule_id := "rule_8";
     rule_name := "Preprocessor Usage";
     description := "Preprocessor directive other than #include detected";
     severity := MINOR;
     line_number := i;
     suggestion := "Use const declarations instead of #define";
     code_snippet := Py.strip line |}.

Definition _check_rule_8_preprocessor (self : NASAComplianceChecker)
  : exc NASAComplianceChecker :=
  lines_loop self
    (fun il self =>
       let line := snd il in
       Ok (when (Py.startswith (Py.strip line) "#"
                 && negb (Py.startswith (Py.strip line) "#include"))
                (preprocessor_violation (fst il) line) self, Next)).

Definition assignment_violation (i : nat) (line : string) : Violation :=
  {| rule_id := "rule_9";
     rule_name := "Assignment in Expressions";
     description := "Assignment in conditional expression detected";
     severity := MODERATE;
     line_number := i;
     suggestion := "Separate assignment from condition checking";
     code_snippet := Py.strip line |}.

Definition _check_rule_9_assignment_expressions (self : NASAComplianceChecker)
  : exc NASAComplianceChecker :=
  lines_loop self
    (fun il self =>
       let line := snd il in
       Ok (when (Re.is_some (Re.search Pat.condition_assignment line))
                (assignment_violation (fst il) line) self, Next)).

Definition multiple_violation (i : nat) (line : string) : Violation :=
  {| rule_id := "rule_10";
     rule_name := "Multiple Assignments";
     description := "Multiple assignments in single statement detected";
     severity := MINOR;
     line_number := i;
     suggestion := "Use separate assignment statements";
     code_snippet := Py.strip line |}.

Definition _check_rule_10_multiple_assignments (self : NASAComplianceChecker)
  : exc NASAComplianceChecker :=
  lines_loop self
    (fun il self =>
       let line := snd il in
       Ok (when ((1 <? Py.count_char "=" line) && negb (Py.contains "==" line))
                (multiple_violation (fst il) line) self, Next)).

(** ** The extended style rules *)

Definition quote : string := String (ascii_of_nat 39) EmptyString.

Definition naming_violation (i : nat) (line var_name : string) : Violation :=
  {| rule_id := "style_naming";
     rule_name := "Naming Conventions";
     description :=
       ("Variable name " ++ quote ++ var_name ++ quote ++ " is too short")%string;
     severity := MINOR;
     line_number := i;
     suggestion := "Use descriptive variable names";
     code_snippet := Py.strip line |}.

Definition _check_naming_conventions (self : NASAComplianceChecker)
  : exc NASAComplianceChecker :=
  lines_loop self
    (fun il self =>
       let i := fst il in
       let line := snd il in
       match Re.search Pat.short_name line with
       | Some var_match =>
           match Re.group 2 (Re.m_groups var_match) with
           | Some var_name =>
               Ok (when (String.length var_name <? 3)
                        (naming_violation i line var_name) self, Next)
           | None => Raise TypeError
           end
       | None => Ok (self, Next)
       end).

Definition length_violation (start line_count : nat) (snippet : string)
  : Violation :=
  {| rule_id := "style_function_length";
     rule_name := "Function Length";
     description :=
       ("Function is " ++ Py.str_of_nat line_count
          ++ " lines long (exceeds 50 line limit)")%string;
     severity := MODERATE;
     line_number := start;
     suggestion := "Break function into smaller functions";
     code_snippet := snippet |}.

Definition _check_function_length (self : NASAComplianceChecker)
  : exc NASAComplianceChecker :=
  r <- for_each
         (fun (il : nat * string) (st : NASAComplianceChecker * scan) =>
            let i := fst il in
            let line := snd il in
            let self := fst st in
            let loc := snd st in
            if Re.is_some (Re.rmatch Pat.function_start line) then
              Ok ((self, {| in_function := true; function_start := i;
                            counter := 0 |}), Next)
            else
              let loc :=
                if in_function loc
                then {| in_function := in_function loc;
                        function_start := function_start loc;
                        counter := counter loc + 1 |}
                else loc in
              if is_closing_brace line && in_function loc then
                self <-
                  (if 50 <? counter loc then
                     first <- Py.index (code_lines self)
                                (Z.of_nat (function_start loc) - 1) ;;
                     Ok (append (length_violation (function_start loc)
                                   (counter loc) (Py.strip first)) self)
                   else Ok self) ;;
                Ok ((self, {| in_function := false;
                              function_start := function_start loc;
                              counter := counter loc |}), Next)
              else Ok ((self, loc), Next))
         (Py.enumerate 1 (code_lines self)) (self, scan0) ;;
  Ok (fst r).

Definition comment_violation (i : nat) (line : string) : Violation :=
  {| rule_id := "style_comments";
     rule_name := "Comment Coverage";
     description := "Function without header comment detected";
     severity := MINOR;
     line_number := i;
     suggestion :=
       "Add function header comment explaining purpose and parameters";
     code_snippet := Py.strip line |}.

(** The inner loop of the comment rule, over [range(max(0, i-3), i)]. *)
Definition comment_above (lines : list string) (i : nat) : exc bool :=
  for_each
    (fun (j : nat) (has_comment : bool) =>
       l <- Py.index lines (Z.of_nat j) ;;
       if Py.startswith (Py.strip l) "//" || Py.startswith (Py.strip l) "/*"
       then Ok (true, Break)
       else Ok (has_comment, Next))
    (Py.range (Nat.max 0 (i - 3)) i) false.

Definition _check_comment_coverage (self : NASAComplianceChecker)
  : exc NASAComplianceChecker :=
  lines_loop self
    (fun il self =>
       let i := fst il in
       let line := snd il in
       if Re.is_some (Re.rmatch Pat.signature line) then
         has_comment <- comment_above (code_lines self) i ;;
         Ok (when (negb has_comment) (comment_violation i line) self, Next)
       else Ok (self, Next)).

Definition error_handling_violation (i : nat) (line : string) : Violation :=
  {| rule_id := "style_error_handling";
     rule_name := "Error Handling";
     description := "Void function without apparent error handling";
     severity := MINOR;
     line_number := i;
     suggestion :=
       "Consider returning error codes or implementing error handling";
     code_snippet := Py.strip line |}.

(** The inner loop of the error-handling rule, over
    [range(i, min(i+20, len(self.code_lines)))]. *)
Definition error_handling_below (lines : list string) (i : nat) : exc bool :=
  for_each
    (fun (j : nat) (has_error_handling : bool) =>
       l <- Py.index lines (Z.of_nat j) ;;
       if Py.contains "error" (Py.lower l) || Py.contains "return" l
       then Ok (true, Break)
       else Ok (has_error_handling, Next))
    (Py.range i (Nat.min (i + 20) (List.length lines))) false.

Definition _check_error_handling (self : NASAComplianceChecker)
  : exc NASAComplianceChecker :=
  lines_loop self
    (fun il self =>
       let i := fst il in
       let line := snd il in
       if Re.is_some (Re.rmatch Pat.void_signature line) then
         has <- error_handling_below (code_lines self) i ;;
         Ok (when (negb has) (error_handling_violation i line) self, Next)
       else Ok (self, Next)).

Definition type_safety_violation (i : nat) (line : string) : Violation :=
  {| rule_id := "style_type_safety";
     rule_name := "Type Safety";
     description := "Use of implicit integer type " ++ quote ++ "int" ++ quote;
     severity := MINOR;
     line_number := i;
     suggestion := "Use explicit integer types from stdint.h";
     code_snippet := Py.strip line |}.

Definition newline_str : string := String newline EmptyString.

Definition _check_type_safety (self : NASAComplianceChecker)
  : exc NASAComplianceChecker :=
  lines_loop self
    (fun il self =>
       let i := fst il in
       let line := snd il in
       Ok (when (Re.is_some (Re.search Pat.int_declaration line)
                 && negb (Py.contains "stdint.h"
                            (Py.join newline_str (firstn i (code_lines self)))))
                (type_safety_violation i line) self, Next)).

(** ** The engine *)

Definition reset (self : NASAComplianceChecker) : NASAComplianceChecker :=
  {| violations := []; code_lines := code_lines self |}.

Definition run_rules (self : NASAComplianceChecker)
  : exc NASAComplianceChecker :=
  self <- _check_rule_1_flow_control self ;;
  self <- _check_rule_2_loop_bounds self ;;
  self <- _check_rule_3_dynamic_memory self ;;
  self <- _check_rule_4_function_parameters self ;;
  self <- _check_rule_5_pointer_dereferencing self ;;
  self <- _check_rule_6_variable_declarations self ;;
  self <- _check_rule_7_single_return self ;;
  self <- _check_rule_8_preprocessor self ;;
  self <- _check_rule_9_assignment_expressions self ;;
  self <- _check_rule_10_multiple_assignments self ;;
  self <- _check_naming_conventions self ;;
  self <- _check_function_length self ;;
  self <- _check_comment_coverage self ;;
  self <- _check_error_handling self ;;
  _check_type_safety self.

(** [check_all_rules] returns the violation list and leaves it in the
    checker. *)
Definition check_all_rules (self : NASAComplianceChecker)
  : exc (list Violation * NASAComplianceChecker) :=
  self <- run_rules (reset self) ;;
  Ok (violations self, self).

(** The checker as [main] drives it: load, then check. *)
Definition check_code (code : string)
  : exc (list Violation * NASAComplianceChecker) :=
  check_all_rules (load_code code init).

(** ** Python values decoded from JSON

    The text of a decoded string is a list of code points, since a
    [\uXXXX] escape can name any of them.  A float keeps its lexeme; nothing
    in the adapters computes with one.  The decoder itself, [json.loads],
    is not code of the program: what it returns or raises on a text
    depends on the interpreter (its recursion limit, its limit on the
    digits of an integer literal) and is a parameter of the parser, as
    [subprocess.run] is a parameter of the adapters. *)

Definition text : Type := list N.

Definition code_of (c : ascii) : N := N_of_ascii c.

Fixpoint codes (s : string) : text :=
  match s with
  | EmptyString => []
  | String c s' => code_of c :: codes s'
  end.

Inductive pyval : Type :=
| PNone
| PBool (b : bool)
| PInt (z : Z)
| PFloat (lexeme : string)
| PStr (s : text)
| PList (l : list pyval)
| PDict (d : list (text * pyval)).

Definition text_eqb (a b : text) : bool :=
  if list_eq_dec N.eq_dec a b then true else false.

Fixpoint text_startswith (s p : text) {struct p} : bool :=
  match p with
  | [] => true
  | a :: p' =>
      match s with
      | [] => false
      | b :: s' => N.eqb a b && text_startswith s' p'
      end
  end.

(** [sub in s] on decoded text *)
Fixpoint text_contains (sub s : text) : bool :=
  text_startswith s sub ||
  match s with
  | [] => false
  | _ :: s' => text_contains sub s'
  end.

(** [d.get(key)] on a dictionary in insertion order. *)
Fixpoint dict_lookup {V : Type} (d : list (text * V)) (key : text) : option V :=
  match d with
  | [] => None
  | (k, v) :: d' => if text_eqb k key then Some v else dict_lookup d' key
  end.

(** [d[key] = v]: an existing key keeps its place. *)
Fixpoint dict_set {V : Type} (d : list (text * V)) (key : text) (v : V)
  : list (text * V) :=
  match d with
  | [] => [(key, v)]
  | (k, w) :: d' =>
      if text_eqb k key then (k, v) :: d' else (k, w) :: dict_set d' key v
  end.

(** ** Quotes and integer literals *)

Module Json.

Definition dquote : ascii := ascii_of_nat 34.

Fixpoint digits (s : string) : string * string :=
  match s with
  | String c s' =>
      if Py.isdecimal c then
        let r := digits s' in (String c (fst r), snd r)
      else (EmptyString, s)
  | EmptyString => (EmptyString, s)
  end.

(** The number a text of decimal digits writes. *)
Fixpoint digits_value (s : string) (acc : Z) : Z :=
  match s with
  | String c s' => digits_value s' (acc * 10 + Z.of_nat (nat_of_ascii c - 48))%Z
  | EmptyString => acc
  end.

(** [sys.get_int_max_str_digits()]: the default of CPython, which the
    program leaves as it is. *)
Definition int_max_str_digits : Z := 4300.

(** [int(s)] for a text of decimal digits: with more digits than the
    limit it raises [ValueError]. *)
Definition int_of_digits (s : string) : exc Z :=
  if (int_max_str_digits <? Z.of_nat (String.length s))%Z
  then Raise ValueError
  else Ok (digits_value s 0).

End Json.

(** ** The external world of the adapters

    [subprocess.run] either completes or raises; the trace records what
    the integrator does that an observer can see or that the properties
    below talk about: the processes it launches, the methods it enters and
    the log records it writes. *)

Record CompletedProcess : Type := mkCompleted {
  returncode : Z;
  stdout : string
}.

Inductive event : Type :=
| Launch (cmd : list string) (timeout : nat)
| Call (method : string)
| Log (level : string) (message : string)
| LogException (level : string) (message : string) (e : exn).

Definition trace : Type := list event.

Definition io (A : Type) : Type := trace -> exc A * trace.

Definition ret {A : Type} (a : A) : io A := fun tr => (Ok a, tr).

Definition throw {A : Type} (e : exn) : io A := fun tr => (Raise e, tr).

Definition lift {A : Type} (m : exc A) : io A := fun tr => (m, tr).

Definition iobind {A B : Type} (m : io A) (k : A -> io B) : io B :=
  fun tr =>
    match m tr with
    | (Ok a, tr') => k a tr'
    | (Raise e, tr') => (Raise e, tr')
    end.

Notation "x <~ m ;; k" := (iobind m (fun x => k))
  (at level 61, m at next level, right associativity).

Definition emit (ev : event) : io unit := fun tr => (Ok tt, tr ++ [ev]).

(** [try: m  except ...: handler] *)
Definition try_except {A : Type} (m : io A) (handler : exn -> io A) : io A :=
  fun tr =>
    match m tr with
    | (Raise e, tr') => handler e tr'
    | r => r
    end.

(** A dictionary with text keys of the sources, in insertion order. *)
Module Dict.

Fixpoint get {V : Type} (d : list (string * V)) (key : string) : option V :=
  match d with
  | [] => None
  | (k, v) :: d' => if String.eqb k key then Some v else get d' key
  end.

(** [d[key]] *)
Definition item {V : Type} (d : list (string * V)) (key : string) : exc V :=
  match get d key with
  | Some v => Ok v
  | None => Raise KeyError
  end.

(** [d[key] = v] *)
Fixpoint set {V : Type} (d : list (string * V)) (key : string) (v : V)
  : list (string * V) :=
  match d with
  | [] => [(key, v)]
  | (k, w) :: d' =>
      if String.eqb k key then (k, v) :: d' else (k, w) :: set d' key v
  end.

End Dict.

(** ** Results of the external tools *)

(** A confidence is one of the decimal constants of the source, kept as
    hundredths. *)
Record StaticAnalysisResult : Type := mkResult {
  tool_name : string;
  file_path : string;
  sa_line_number : pyval;
  sa_severity : pyval;
  message : pyval;
  sa_rule_id : pyval;
  category : string;
  confidence : nat
}.

Record StaticAnalysisIntegrator : Type := mkIntegrator {
  config : pyval;
  tools : list (string * bool)
}.

(** Text of the sources as a decoded value. *)
Definition pstr (s : string) : pyval := PStr (codes s).

(** [m.group(n)] as a value: [None] for a group that took no part. *)
Definition group_value (n : nat) (m : Re.match_obj) : pyval :=
  match Re.group n (Re.m_groups m) with
  | Some s => pstr s
  | None => PNone
  end.

(** [int(m.group(n))] for a group of decimal digits; more digits than
    the interpreter converts raise [ValueError]. *)
Definition group_int (n : nat) (m : Re.match_obj) : exc Z :=
  match Re.group n (Re.m_groups m) with
  | Some s =>
      match s with
      | EmptyString => Raise ValueError
      | _ =>
          if nonempty (snd (Json.digits s)) then Raise ValueError
          else Json.int_of_digits s
      end
  | None => Raise TypeError
  end.

(** A lookup table of the category maps, searched by a hashable key. *)
Definition table_get (mapping : list (string * string)) (key : pyval)
           (default : string) : exc string :=
  match key with
  | PList _ | PDict _ => Raise TypeError
  | PStr s =>
      match find (fun kv => text_eqb (codes (fst kv)) s) mapping with
      | Some kv => Ok (snd kv)
      | None => Ok default
      end
  | _ => Ok default
  end.

Definition cppcheck_mapping : list (string * string) :=
  [("unusedFunction", "style_unused_code");
   ("missingInclude", "style_includes");
   ("unusedVariable", "style_unused_code");
   ("unreadVariable", "style_unused_code");
   ("unassignedVariable", "rule_6");
   ("nullPointer", "rule_5");
   ("arrayIndexOutOfBounds", "style_bounds_checking");
   ("memoryLeak", "rule_3");
   ("resourceLeak", "rule_3");
   ("useInitializationList", "rule_6");
   ("variableScope", "rule_6");
   ("redundantAssignment", "rule_10");
   ("redundantCondition", "style_logic");
   ("redundantPointerOp", "rule_5");
   ("stlSize", "style_containers");
   ("stlBoundaries", "style_bounds_checking");
   ("stlStrFind", "style_strings");
   ("stlStrVar", "style_strings");
   ("stlStrConcat", "style_strings");
   ("stlStrSize", "style_strings")].

Definition _map_cppcheck_to_nasa (rule : pyval) : exc string :=
  table_get cppcheck_mapping rule "style_general".

Definition clang_tidy_mapping : list (string * string) :=
  [("bugprone-assignment-in-if-condition", "rule_9");
   ("bugprone-branch-clone", "style_logic");
   ("bugprone-dangling-handle", "rule_5");
   ("bugprone-dynamic-static-initializers", "rule_3");
   ("bugprone-exception-escape", "rule_1");
   ("bugprone-fold-init-type", "style_types");
   ("bugprone-forward-declaration-namespace", "style_includes");
   ("bugprone-forwarding-reference-overload", "style_functions");
   ("bugprone-inaccurate-erase", "style_containers");
   ("bugprone-infinite-loop", "rule_2");
   ("bugprone-integer-division", "style_arithmetic");
   ("bugprone-lambda-function-name", "style_functions");
   ("bugprone-macro-parentheses", "rule_8");
   ("bugprone-macro-repeated-side-effects", "rule_8");
   ("bugprone-misplaced-operator-new", "rule_3");
   ("bugprone-misplaced-pointer-arithmetic-in-alloc", "rule_3");
   ("bugprone-misplaced-widening-cast", "style_types");
   ("bugprone-move-forwarding-reference", "style_functions");
   ("bugprone-multiple-statement-macro", "rule_8");
   ("bugprone-no-escape", "style_security");
   ("bugprone-not-null-terminated-result", "style_strings");
   ("bugprone-parent-virtual-call", "style_inheritance");
   ("bugprone-posix-return", "style_functions");
   ("bugprone-reserved-identifier", "style_naming");
   ("bugprone-sizeof-container", "style_containers");
   ("bugprone-sizeof-expression", "style_types");
   ("bugprone-spuriously-missing-initialization", "rule_6");
   ("bugprone-string-constructor", "style_strings");
   ("bugprone-string-integer-assignment", "style_types");
   ("bugprone-string-literal-with-embedded-nul", "style_strings");
   ("bugprone-suspicious-enum-usage", "style_enums");
   ("bugprone-suspicious-missing-comma", "style_syntax");
   ("bugprone-suspicious-semicolon", "style_syntax");
   ("bugprone-suspicious-string-compare", "style_strings");
   ("bugprone-swapped-arguments", "style_functions");
   ("bugprone-terminating-continue", "rule_1");
   ("bugprone-throw-keyword-missing", "style_exceptions");
   ("bugprone-too-small-loop-variable", "style_types");
   ("bugprone-undefined-behavior", "style_undefined");
   ("bugprone-undelegated-constructor", "style_classes");
   ("bugprone-unhandled-self-move", "style_moves");
   ("bugprone-unused-raii", "style_resources");
   ("bugprone-unused-return-value", "style_functions");
   ("bugprone-use-after-move", "style_moves");
   ("bugprone-virtual-near-miss", "style_inheritance")].

Definition _map_clang_tidy_to_nasa (rule : pyval) : exc string :=
  table_get clang_tidy_mapping rule "style_general".

Definition _map_splint_to_nasa (msg : string) : string :=
  let message_lower := Py.lower msg in
  if Py.contains "uninitialized" message_lower then "rule_6"
  else if Py.contains "null pointer" message_lower then "rule_5"
  else if Py.contains "memory leak" message_lower then "rule_3"
  else if Py.contains "array bounds" message_lower then "style_bounds_checking"
  else if Py.contains "unused" message_lower then "style_unused_code"
  else if Py.contains "type" message_lower then "style_types"
  else "style_general".

Definition _map_flawfinder_to_nasa (desc : string) : string :=
  let desc_lower := Py.lower desc in
  if Py.contains "buffer overflow" desc_lower then "style_bounds_checking"
  else if Py.contains "format string" desc_lower then "style_security"
  else if Py.contains "race condition" desc_lower then "style_concurrency"
  else if Py.contains "command injection" desc_lower then "style_security"
  else "style_security".

(** ** The patterns of the adapters *)

Module ToolPat.
Import Re.

Definition dq : regex := chr Json.dquote.
Definition not_dq1 : regex := plus (not_chr Json.dquote).
Definition not_dq : regex := Star (not_chr Json.dquote).
Definition digits1 : regex := plus Py.isdecimal.

(** The [<error ...>] element of the XML report, with the groups [id],
    [severity] and [msg]. *)
Definition error_pattern : regex :=
  seqs [lit "<error id="; dq; Group 1 not_dq1; dq;
        lit " severity="; dq; Group 2 not_dq1; dq;
        lit " msg="; dq; Group 3 not_dq1; dq;
        lit " verbose="; dq; not_dq; dq;
        lit " cwe="; dq; not_dq; dq; chr ">"].

(** The [<location ...] element, with the group [line]. *)
Definition location_pattern : regex :=
  seqs [lit "<location file="; dq; not_dq; dq;
        lit " line="; dq; Group 1 digits1; dq;
        lit " column="; dq; not_dq; dq].

(** [([^:]+):(\d+):\s*(.+)] *)
Definition line_pattern : regex :=
  seqs [Group 1 (plus (not_chr ":")); chr ":"; Group 2 digits1; chr ":";
        Star Py.isspace; Group 3 (plus (not_chr newline))].

(** [Risk level (\d+):\s*([^<]+)] *)
Definition risk_pattern : regex :=
  seqs [lit "Risk level "; Group 1 digits1; chr ":"; Star Py.isspace;
        Group 2 (plus (not_chr "<"))].

End ToolPat.

(** ** The parsers of the adapters *)

Fixpoint collect {A B : Type} (f : A -> exc B) (l : list A) : exc (list B) :=
  match l with
  | [] => Ok []
  | a :: l' =>
      b <- f a ;;
      bs <- collect f l' ;;
      Ok (b :: bs)
  end.

Definition cppcheck_findings (xml_output path : string)
  : exc (list StaticAnalysisResult) :=
  collect
    (fun m =>
       let rule := group_value 1 m in
       let sev := group_value 2 m in
       let msg := group_value 3 m in
       line <-
         match Re.search ToolPat.location_pattern
                         (Py.drop (Re.m_start m) xml_output) with
         | Some location_match => group_int 1 location_match
         | None => Ok 0%Z
         end ;;
       nasa_rule <- _map_cppcheck_to_nasa rule ;;
       Ok {| tool_name := "cppcheck";
             file_path := path;
             sa_line_number := PInt line;
             sa_severity := sev;
             message := msg;
             sa_rule_id := rule;
             category := nasa_rule;
             confidence := 90 |})
    (Re.finditer ToolPat.error_pattern xml_output).

(** [m.group(n)] where a string method is then called on it. *)
Definition group_text (n : nat) (m : Re.match_obj) : exc string :=
  match Re.group n (Re.m_groups m) with
  | Some s => Ok s
  | None => Raise AttributeError
  end.

Definition splint_findings (text_output path : string)
  : exc (list StaticAnalysisResult) :=
  collect
    (fun m =>
       line <- group_int 2 m ;;
       msg <- group_text 3 m ;;
       let nasa_rule := _map_splint_to_nasa msg in
       Ok {| tool_name := "splint";
             file_path := path;
             sa_line_number := PInt line;
             sa_severity := pstr "warning";
             message := pstr msg;
             sa_rule_id := pstr "splint";
             category := nasa_rule;
             confidence := 80 |})
    (Re.finditer ToolPat.line_pattern text_output).

Definition str_of_Z (z : Z) : string := NilZero.string_of_int (Z.to_int z).

Definition flawfinder_findings (html_output path : string)
  : exc (list StaticAnalysisResult) :=
  collect
    (fun m =>
       risk_level <- group_int 1 m ;;
       desc <- group_text 2 m ;;
       let nasa_rule := _map_flawfinder_to_nasa desc in
       Ok {| tool_name := "flawfinder";
             file_path := path;
             sa_line_number := PInt 0;
             sa_severity := pstr ("risk_level_" ++ str_of_Z risk_level);
             message := pstr desc;
             sa_rule_id := pstr "flawfinder";
             category := nasa_rule;
             confidence := 75 |})
    (Re.finditer ToolPat.risk_pattern html_output).

(** *** The clang-tidy parser *)

(** [for x in v]: the items a value yields, or [TypeError]. *)
Definition iterate (v : pyval) : exc (list pyval) :=
  match v with
  | PList l => Ok l
  | PDict d => Ok (map (fun kv => PStr (fst kv)) d)
  | PStr s => Ok (map (fun c => PStr [c]) s)
  | _ => Raise TypeError
  end.

Definition pyval_is_text (t : text) (v : pyval) : bool :=
  match v with
  | PStr s => text_eqb s t
  | _ => false
  end.

(** [key in v] for a text [key] *)
Definition contains_key (key : text) (v : pyval) : exc bool :=
  match v with
  | PDict d => Ok (match dict_lookup d key with Some _ => true | None => false end)
  | PList l => Ok (existsb (pyval_is_text key) l)
  | PStr s => Ok (text_contains key s)
  | _ => Raise TypeError
  end.

(** [v[key]] for a text [key] *)
Definition subscript (v : pyval) (key : text) : exc pyval :=
  match v with
  | PDict d =>
      match dict_lookup d key with
      | Some x => Ok x
      | None => Raise KeyError
      end
  | _ => Raise TypeError
  end.

(** [v.get(key, default)] *)
Definition get_method (v : pyval) (key : text) (default : pyval) : exc pyval :=
  match v with
  | PDict d =>
      match dict_lookup d key with
      | Some x => Ok x
      | None => Ok default
      end
  | _ => Raise AttributeError
  end.

Definition clang_tidy_result (path : string) (diag : pyval)
  : exc StaticAnalysisResult :=
  check <- get_method diag (codes "check_name") (pstr EmptyString) ;;
  nasa_rule <- _map_clang_tidy_to_nasa check ;;
  line <- get_method diag (codes "line") (PInt 0) ;;
  level <- get_method diag (codes "level") (pstr "warning") ;;
  msg <- get_method diag (codes "message") (pstr EmptyString) ;;
  rule <- get_method diag (codes "check_name") (pstr EmptyString) ;;
  Ok {| tool_name := "clang-tidy";
        file_path := path;
        sa_line_number := line;
        sa_severity := level;
        message := msg;
        sa_rule_id := rule;
        category := nasa_rule;
        confidence := 85 |}.

(** The two loops append to [results]; when one raises, the list is left
    as it then stands, next to the exception. *)
Fixpoint diag_loop (path : string) (diags : list pyval)
         (results : list StaticAnalysisResult)
  : list StaticAnalysisResult * option exn :=
  match diags with
  | [] => (results, None)
  | diag :: rest =>
      match clang_tidy_result path diag with
      | Ok r => diag_loop path rest (results ++ [r])
      | Raise e => (results, Some e)
      end
  end.

Definition diagnostic_step (path : string) (diagnostic : pyval)
           (results : list StaticAnalysisResult)
  : list StaticAnalysisResult * option exn :=
  match contains_key (codes "diagnostics") diagnostic with
  | Ok true =>
      match subscript diagnostic (codes "diagnostics") with
      | Ok ds =>
          match iterate ds with
          | Ok diags => diag_loop path diags results
          | Raise e => (results, Some e)
          end
      | Raise e => (results, Some e)
      end
  | Ok false => (results, None)
  | Raise e => (results, Some e)
  end.

Fixpoint diagnostic_loop (path : string) (data : list pyval)
         (results : list StaticAnalysisResult)
  : list StaticAnalysisResult * option exn :=
  match data with
  | [] => (results, None)
  | diagnostic :: rest =>
      match diagnostic_step path diagnostic results with
      | (results', None) => diagnostic_loop path rest results'
      | (results', Some e) => (results', Some e)
      end
  end.

(** The body of the [try] block; [json_loads] is what [json.loads]
    returns or raises on a text. *)
Definition clang_tidy_try (json_loads : string -> exc pyval)
           (json_output path : string)
  : list StaticAnalysisResult * option exn :=
  match json_loads json_output with
  | Ok data =>
      match iterate data with
      | Ok items => diagnostic_loop path items []
      | Raise e => ([], Some e)
      end
  | Raise e => ([], Some e)
  end.

Definition _parse_clang_tidy_json (json_loads : string -> exc pyval)
           (json_output path : string) : io (list StaticAnalysisResult) :=
  _ <~ emit (Call "_parse_clang_tidy_json") ;;
  match clang_tidy_try json_loads json_output path with
  | (results, None) => ret results
  | (results, Some JSONDecodeError) =>
      _ <~ emit (Log "warning"
                     ("Failed to parse clang-tidy JSON output for " ++ path)) ;;
      ret results
  | (_, Some e) => throw e
  end.

Definition _parse_cppcheck_xml (xml_output path : string)
  : io (list StaticAnalysisResult) :=
  _ <~ emit (Call "_parse_cppcheck_xml") ;;
  lift (cppcheck_findings xml_output path).

Definition _parse_splint_output (text_output path : string)
  : io (list StaticAnalysisResult) :=
  _ <~ emit (Call "_parse_splint_output") ;;
  lift (splint_findings text_output path).

Definition _parse_flawfinder_html (html_output path : string)
  : io (list StaticAnalysisResult) :=
  _ <~ emit (Call "_parse_flawfinder_html") ;;
  lift (flawfinder_findings html_output path).

(** ** The integrator *)

Section Integrator.

(** What the operating system answers to [subprocess.run(cmd, timeout=t)]. *)
Variable subprocess_run : list string -> nat -> exc CompletedProcess.

(** What [json.loads] returns or raises on a text. *)
Variable json_loads : string -> exc pyval.

Definition run_process (cmd : list string) (timeout : nat)
  : io CompletedProcess :=
  _ <~ emit (Launch cmd timeout) ;;
  lift (subprocess_run cmd timeout).

(** The probe shared by the four [_check_*_available] methods. *)
Definition version_check (binary : string) : io bool :=
  try_except
    (result <~ run_process [binary; "--version"] 5 ;;
     ret (returncode result =? 0)%Z)
    (fun e =>
       match e with
       | TimeoutExpired | FileNotFoundError => ret false
       | _ => throw e
       end).

Definition _check_cppcheck_available : io bool :=
  _ <~ emit (Call "_check_cppcheck_available") ;; version_check "cppcheck".

Definition _check_clang_tidy_available : io bool :=
  _ <~ emit (Call "_check_clang_tidy_available") ;; version_check "clang-tidy".

Definition _check_splint_available : io bool :=
  _ <~ emit (Call "_check_splint_available") ;; version_check "splint".

Definition _check_flawfinder_available : io bool :=
  _ <~ emit (Call "_check_flawfinder_available") ;; version_check "flawfinder".

Definition tool_keys : string :=
  "[" ++ quote ++ "cppcheck" ++ quote ++ ", " ++ quote ++ "clang_tidy" ++ quote
      ++ ", " ++ quote ++ "splint" ++ quote ++ ", " ++ quote ++ "flawfinder"
      ++ quote ++ "]".

Definition __init__ (cfg : pyval) : io StaticAnalysisIntegrator :=
  cppcheck <~ _check_cppcheck_available ;;
  clang_tidy <~ _check_clang_tidy_available ;;
  splint <~ _check_splint_available ;;
  flawfinder <~ _check_flawfinder_available ;;
  _ <~ emit (Log "info" ("Available static analysis tools: " ++ tool_keys)) ;;
  ret {| config := cfg;
         tools := [("cppcheck", cppcheck); ("clang_tidy", clang_tidy);
                   ("splint", splint); ("flawfinder", flawfinder)] |}.

(** The common shape of the four [run_*] methods: the gate on the probe,
    the bounded invocation, the parse on an accepted return code, and the
    two handlers. *)
Definition run_tool (self : StaticAnalysisIntegrator)
           (method key name : string) (cmd : list string)
           (accepted : Z -> bool)
           (parse : string -> string -> io (list StaticAnalysisResult))
           (path : string) : io (list StaticAnalysisResult) :=
  _ <~ emit (Call method) ;;
  available <~ lift (Dict.item (tools self) key) ;;
  if negb available then
    _ <~ emit (Log "warning" (name ++ " not available")) ;;
    ret []
  else
    try_except
      (result <~ run_process cmd 60 ;;
       if accepted (returncode result) then parse (stdout result) path
       else ret [])
      (fun e =>
         match e with
         | TimeoutExpired =>
             _ <~ emit (Log "error" (name ++ " timed out for " ++ path)) ;;
             ret []
         | _ =>
             _ <~ emit (LogException "error" (name ++ " error for " ++ path) e) ;;
             ret []
         end).

Definition zero_or_one (rc : Z) : bool := ((rc =? 0) || (rc =? 1))%Z.

Definition run_cppcheck (self : StaticAnalysisIntegrator) (path : string)
  : io (list StaticAnalysisResult) :=
  run_tool self "run_cppcheck" "cppcheck" "cppcheck"
    ["cppcheck"; "--enable=all"; "--xml"; "--xml-version=2";
     "--suppress=missingIncludeSystem"; "--suppress=unusedFunction"; path]
    zero_or_one _parse_cppcheck_xml path.

Definition run_clang_tidy (self : StaticAnalysisIntegrator) (path : string)
  : io (list StaticAnalysisResult) :=
  run_tool self "run_clang_tidy" "clang_tidy" "clang-tidy"
    ["clang-tidy"; "--checks=*"; "--warnings-as-errors=*";
     "--format-style=json"; path]
    zero_or_one (_parse_clang_tidy_json json_loads) path.

Definition run_splint (self : StaticAnalysisIntegrator) (path : string)
  : io (list StaticAnalysisResult) :=
  run_tool self "run_splint" "splint" "splint"
    ["splint"; "+all"; "+bounds"; "+strict"; "+unrecog"; path]
    zero_or_one _parse_splint_output path.

Definition run_flawfinder (self : StaticAnalysisIntegrator) (path : string)
  : io (list StaticAnalysisResult) :=
  run_tool self "run_flawfinder" "flawfinder" "flawfinder"
    ["flawfinder"; "--html"; "--context"; "--minlevel"; "1"; path]
    (fun rc => (rc =? 0)%Z) _parse_flawfinder_html path.

Definition results_dict : Type := list (string * list StaticAnalysisResult).

(** One [if self.tools[key]: results[key] = run(file_path)] of
    [run_all_tools]. *)
Definition run_if_available (self : StaticAnalysisIntegrator) (key : string)
           (run : StaticAnalysisIntegrator -> string
                  -> io (list StaticAnalysisResult))
           (path : string) (results : results_dict) : io results_dict :=
  available <~ lift (Dict.item (tools self) key) ;;
  if available then
    found <~ run self path ;;
    ret (Dict.set results key found)
  else ret results.

Definition run_all_tools (self : StaticAnalysisIntegrator) (path : string)
  : io results_dict :=
  _ <~ emit (Call "run_all_tools") ;;
  results <~ run_if_available self "cppcheck" run_cppcheck path [] ;;
  results <~ run_if_available self "clang_tidy" run_clang_tidy path results ;;
  results <~ run_if_available self "splint" run_splint path results ;;
  run_if_available self "flawfinder" run_flawfinder path results.

End Integrator.

(** ** Views of the engine's output used by the properties *)

(** The checker after [out] was appended to its violation list. *)
Definition extend (out : list Violation) (self : NASAComplianceChecker)
  : NASAComplianceChecker :=
  {| violations := violations self ++ out; code_lines := code_lines self |}.

(** The violations reported for line [n]. *)
Definition on_line (n : nat) (vs : list Violation) : list Violation :=
  filter (fun v => line_number v =? n) vs.

(** The violations of rule [id]. *)
Definition with_rule (id : string) (vs : list Violation) : list Violation :=
  filter (fun v => String.eqb (rule_id v) id) vs.

(** The rule ids in the order [check_all_rules] runs the rules. *)
Definition rule_order : list string :=
  ["rule_1"; "rule_2"; "rule_3"; "rule_4"; "rule_5"; "rule_6"; "rule_7";
   "rule_8"; "rule_9"; "rule_10"; "style_naming"; "style_function_length";
   "style_comments"; "style_error_handling"; "style_type_safety"].

(** The two tests of rule 2 on one line, as its loop body makes them. *)
Definition while_unbounded (line : string) : bool :=
  Re.is_some (Re.rmatch Pat.while_open line)
  && negb (Py.any_in bound_patterns line).

Definition while_infinite (line : string) : bool :=
  Py.contains "while" line && Py.any_in infinite_patterns line.

(** What rule 2 appends for line [i]. *)
Definition rule_2_line (il : nat * string) : list Violation :=
  (if while_unbounded (snd il) then [unbounded_violation (fst il) (snd il)]
   else [])
  ++ (if while_infinite (snd il) then [infinite_violation (fst il) (snd il)]
      else []).

(** The test of rule 10 on one line, and what the rule appends for it. *)
Definition multiple_equals (line : string) : bool :=
  (1 <? Py.count_char "=" line) && negb (Py.contains "==" line).

Definition rule_10_line (il : nat * string) : list Violation :=
  if multiple_equals (snd il) then [multiple_violation (fst il) (snd il)]
  else [].

(** A line that starts, after optional white space, with [while (]. *)
Definition starts_with_while_paren (line : string) : bool :=
  Py.startswith (Py.lstrip line) "while (".

(** *** The loop-bound rule as the specification words it

    The specification's second trigger is a [while] line that has [true],
    [1] or [!0] as the condition.  The condition of a line is the text
    between the first parenthesis after the first [while] and the next
    closing parenthesis. *)

(** The text after the first occurrence of [sub]. *)
Fixpoint text_after (sub s : string) : option string :=
  if Py.startswith s sub then Some (Py.drop (String.length sub) s)
  else match s with
       | EmptyString => None
       | String _ s' => text_after sub s'
       end.

(** The text before the first occurrence of the character [c]. *)
Fixpoint text_before (c : ascii) (s : string) : string :=
  match s with
  | EmptyString => EmptyString
  | String a s' => if Ascii.eqb a c then EmptyString else String a (text_before c s')
  end.

Definition spec_while_condition (line : string) : option string :=
  match text_after "while" line with
  | Some rest =>
      match text_after "(" rest with
      | Some inside => Some (text_before ")" inside)
      | None => None
      end
  | None => None
  end.

Definition spec_infinite_condition (line : string) : bool :=
  match spec_while_condition line with
  | Some cond => Py.any_in infinite_patterns cond
  | None => false
  end.

Definition spec_rule_2_trigger (line : string) : bool :=
  while_unbounded line || spec_infinite_condition line.

(** *** The recursion check as the specification words it

    The body of the function opened on line [i] (counted from 1) runs from
    the line after it to the first line that is a closing brace alone, the
    way rules 6 and 7 close a function. *)
Fixpoint body_lines (lines : list string) : list string :=
  match lines with
  | [] => []
  | l :: rest => if is_closing_brace l then [l] else l :: body_lines rest
  end.

Definition spec_calls_itself (lines : list string) (i : nat) (name : string)
  : bool :=
  existsb (fun l => Py.contains (name ++ "(") l && negb (is_comment l))
          (body_lines (skipn i lines)).

(** ** Events of one tool *)

Definition head_is (bin : string) (cmd : list string) : bool :=
  match cmd with
  | b :: _ => String.eqb b bin
  | [] => false
  end.

(** The methods that invoke and parse for the tool of dictionary key
    [key]. *)
Definition tool_methods (key : string) : list string :=
  if String.eqb key "cppcheck" then ["run_cppcheck"; "_parse_cppcheck_xml"]
  else if String.eqb key "clang_tidy"
       then ["run_clang_tidy"; "_parse_clang_tidy_json"]
  else if String.eqb key "splint" then ["run_splint"; "_parse_splint_output"]
  else if String.eqb key "flawfinder"
       then ["run_flawfinder"; "_parse_flawfinder_html"]
  else [].

(** The binary of the tool of dictionary key [key]. *)
Definition tool_binary (key : string) : string :=
  if String.eqb key "clang_tidy" then "clang-tidy" else key.

(** An invocation of the tool, or an entry into its [run_*] or parse
    method. *)
Definition uses_tool (key : string) (ev : event) : bool :=
  match ev with
  | Launch cmd _ => head_is (tool_binary key) cmd
  | Call method => existsb (String.eqb method) (tool_methods key)
  | _ => false
  end.

Definition the_keys : list string :=
  ["cppcheck"; "clang_tidy"; "splint"; "flawfinder"].

(** ** Sample data for the properties *)

(** The sum of the penalties of a list of severities. *)
Definition severity_sum (ss : list Severity) : Z :=
  fold_right (fun s acc => (penalty s + acc)%Z) 0%Z ss.

Definition sample_goto : Violation := goto_violation 3 "goto done;".
Definition sample_equals : Violation := multiple_violation 7 "a = b = 0;".

(** [self'] is [self] with violations of rule [id] appended. *)
Definition grows (id : string) (self self' : NASAComplianceChecker) : Prop :=
  code_lines self' = code_lines self
  /\ exists out, violations self' = violations self ++ out
                 /\ Forall (fun v => rule_id v = id) out.

(** The groups a pattern binds in every match. *)
Fixpoint binds (n : nat) (r : Re.regex) : bool :=
  match r with
  | Re.Seq a b => binds n a || binds n b
  | Re.Alt a b => binds n a && binds n b
  | Re.Group m a => (m =? n) || binds n a
  | _ => false
  end.

(** The invariant of the rules that index [code_lines] by the start of
    the open function: the start is a line of the file. *)
Definition scan_inv (id : string) (self : NASAComplianceChecker)
           (st : NASAComplianceChecker * scan) : Prop :=
  grows id self (fst st)
  /\ (in_function (snd st) = true ->
      1 <= function_start (snd st) <= List.length (code_lines self)).

(** Two functions, the second calling the first. *)
Definition caller_sample : string :=
  Py.join newline_str
    ["int f(int a) {"; "  return a;"; "}";
     "int g(int b) {"; "  return f(b);"; "}"].

Definition while_one_sample : string := "while (1) { x++; }".

Definition bounded_while_sample : string := "while (i < count) { total += 1; }".

Definition not_equal_sample : string := "if (a != b && c != d)".

(** Outputs of clang-tidy that are valid JSON of another shape than a
    list of records: a number, and an object with a [diagnostics] key. *)
Definition number_output : string := "1".

Definition object_output : string :=
  "{" ++ String Json.dquote "diagnostics" ++ String Json.dquote ": []}".

Definition truncated_output : string := "[{".

Definition clang_tidy_cmd (path : string) : list string :=
  ["clang-tidy"; "--checks=*"; "--warnings-as-errors=*";
   "--format-style=json"; path].

(** An event a tool's own adapter may produce: a launch of its binary,
    an entry into its methods, or a log record. *)
Definition own_event (key : string) (ev : event) : bool :=
  match ev with
  | Launch cmd _ => head_is (tool_binary key) cmd
  | Call method => existsb (String.eqb method) (tool_methods key)
  | _ => true
  end.

(** What a probe returns, from what the operating system answers to the
    version check. *)
Definition probe_value
           (subprocess_run : list string -> nat -> exc CompletedProcess)
           (binary : string) : exc bool :=
  match subprocess_run [binary; "--version"] 5 with
  | Ok result => Ok (returncode result =? 0)%Z
  | Raise TimeoutExpired | Raise FileNotFoundError => Ok false
  | Raise e => Raise e
  end.

(** The [run_*] method behind a key of [self.tools]. *)
Definition run_of_key
           (subprocess_run : list string -> nat -> exc CompletedProcess)
           (json_loads : string -> exc pyval) (key : string)
  : StaticAnalysisIntegrator -> string -> io (list StaticAnalysisResult) :=
  if String.eqb key "cppcheck" then run_cppcheck subprocess_run
  else if String.eqb key "clang_tidy"
       then run_clang_tidy subprocess_run json_loads
  else if String.eqb key "splint" then run_splint subprocess_run
  else run_flawfinder subprocess_run.

(** The list an adapter returns when it is run on its own. *)
Definition adapter_value
           (subprocess_run : list string -> nat -> exc CompletedProcess)
           (json_loads : string -> exc pyval)
           (key : string) (self : StaticAnalysisIntegrator) (path : string)
  : list StaticAnalysisResult :=
  match fst (run_of_key subprocess_run json_loads key self path []) with
  | Ok results => results
  | Raise _ => []
  end.

Definition available (self : StaticAnalysisIntegrator) (key : string) : bool :=
  match Dict.get (tools self) key with
  | Some b => b
  | None => false
  end.

(** A machine with splint installed and nothing else. *)
Definition splint_only (cmd : list string) (timeout : nat)
  : exc CompletedProcess :=
  match cmd with
  | binary :: arg :: _ =>
      if String.eqb binary "splint" then
        if String.eqb arg "--version"
        then Ok {| returncode := 0; stdout := "Splint 3.1.2" |}
        else Ok {| returncode := 1;
                   stdout := "a.c:3: Variable x used before definition" |}
      else Raise FileNotFoundError
  | _ => Raise FileNotFoundError
  end.

(** The integrator [__init__] builds on that machine. *)
Definition splint_only_integrator : StaticAnalysisIntegrator :=
  {| config := PDict [];
     tools := [("cppcheck", false); ("clang_tidy", false);
               ("splint", true); ("flawfinder", false)] |}.

(** What the other line-by-line rules append for line [i]: rules 3, 5,
    8 and 9 decide on the text of the line alone, like rules 2 and 10. *)
Definition rule_3_line (il : nat * string) : list Violation :=
  if Py.any_in ["malloc"; "calloc"; "realloc"; "free"] (snd il)
     && negb (is_comment (snd il))
  then [memory_violation (fst il) (snd il)] else [].

Definition rule_5_line (il : nat * string) : list Violation :=
  if Py.contains "***" (snd il) then [pointer_violation (fst il) (snd il)]
  else [].

Definition rule_8_line (il : nat * string) : list Violation :=
  if Py.startswith (Py.strip (snd il)) "#"
     && negb (Py.startswith (Py.strip (snd il)) "#include")
  then [preprocessor_violation (fst il) (snd il)] else [].

Definition rule_9_line (il : nat * string) : list Violation :=
  if Re.is_some (Re.search Pat.condition_assignment (snd il))
  then [assignment_violation (fst il) (snd il)] else [].

(** The rules that decide line by line, with what they append for a
    line. *)
Definition line_local (id : string)
  : option (nat * string -> list Violation) :=
  if String.eqb id "rule_2" then Some rule_2_line
  else if String.eqb id "rule_3" then Some rule_3_line
  else if String.eqb id "rule_5" then Some rule_5_line
  else if String.eqb id "rule_8" then Some rule_8_line
  else if String.eqb id "rule_9" then Some rule_9_line
  else if String.eqb id "rule_10" then Some rule_10_line
  else None.

(** ** Further views of the checker *)

(** The number of violations of severity [s]. *)
Definition count_severity (s : Severity) (vs : list Violation) : nat :=
  List.length (filter (fun v => Severity_eqb (severity v) s) vs).

(** The level as a function of the sum of the penalties. *)
Definition level_of_penalty (p : Z) : string :=
  if (p <=? 10)%Z then "fully_compliant"
  else if (p <=? 20)%Z then "minor_issues"
  else if (p <=? 30)%Z then "moderate_issues"
  else if (p <=? 40)%Z then "major_issues"
  else "non_compliant".

Definition seven_gotos : list Violation :=
  repeat (goto_violation 1 "goto done;") 7.

(** A checker that holds the lines and no violation yet. *)
Definition fresh (lines : list string) : NASAComplianceChecker :=
  {| violations := []; code_lines := lines |}.

(** The checker with [o] put before its violations. *)
Definition prepend (o : list Violation) (self : NASAComplianceChecker)
  : NASAComplianceChecker :=
  {| violations := o ++ violations self; code_lines := code_lines self |}.

Definition map_exc {A B : Type} (f : A -> B) (m : exc A) : exc B :=
  match m with
  | Ok a => Ok (f a)
  | Raise e => Raise e
  end.

(** What one rule reports when it runs alone on the lines. *)
Definition rule_alone
           (rule : NASAComplianceChecker -> exc NASAComplianceChecker)
           (lines : list string) : exc (list Violation) :=
  map_exc violations (rule (fresh lines)).

(** The rules in the order [check_all_rules] calls them. *)
Definition rules : list (NASAComplianceChecker -> exc NASAComplianceChecker) :=
  [_check_rule_1_flow_control; _check_rule_2_loop_bounds;
   _check_rule_3_dynamic_memory; _check_rule_4_function_parameters;
   _check_rule_5_pointer_dereferencing; _check_rule_6_variable_declarations;
   _check_rule_7_single_return; _check_rule_8_preprocessor;
   _check_rule_9_assignment_expressions; _check_rule_10_multiple_assignments;
   _check_naming_conventions; _check_function_length;
   _check_comment_coverage; _check_error_handling; _check_type_safety].

(** The name and the severity each rule gives its violations. *)
Definition rule_table : list (string * (string * Severity)) :=
  [("rule_1", ("Avoid Complex Flow Control", CRITICAL));
   ("rule_2", ("Fixed Loop Bounds", MAJOR));
   ("rule_3", ("No Dynamic Memory", CRITICAL));
   ("rule_4", ("Function Parameters", MAJOR));
   ("rule_5", ("Pointer Dereferencing", MAJOR));
   ("rule_6", ("Variable Declarations", MINOR));
   ("rule_7", ("Single Return Point", MODERATE));
   ("rule_8", ("Preprocessor Usage", MINOR));
   ("rule_9", ("Assignment in Expressions", MODERATE));
   ("rule_10", ("Multiple Assignments", MINOR));
   ("style_naming", ("Naming Conventions", MINOR));
   ("style_function_length", ("Function Length", MODERATE));
   ("style_comments", ("Comment Coverage", MINOR));
   ("style_error_handling", ("Error Handling", MINOR));
   ("style_type_safety", ("Type Safety", MINOR))].

(** A violation that cites a line of [lines]: its number is the number of
    a line, counted from 1, and its snippet is that line stripped. *)
Definition cites (lines : list string) (v : Violation) : Prop :=
  1 <= line_number v
  /\ exists l, nth_error lines (line_number v - 1) = Some l
               /\ code_snippet v = Py.strip l.

(** A violation as a rule of the table makes it. *)
Definition tabled (v : Violation) : Prop :=
  Dict.get rule_table (rule_id v) = Some (rule_name v, severity v).

(** [self'] is [self] with violations appended that satisfy [P]. *)
Definition grows_with (P : Violation -> Prop)
           (self self' : NASAComplianceChecker) : Prop :=
  code_lines self' = code_lines self
  /\ exists out, violations self' = violations self ++ out /\ Forall P out.

Definition well_formed (lines : list string) (v : Violation) : Prop :=
  cites lines v /\ tabled v.

(** The invariant of the scanning rules, with what the violations look
    like. *)
Definition scan_wf (self : NASAComplianceChecker)
           (st : NASAComplianceChecker * scan) : Prop :=
  grows_with (well_formed (code_lines self)) self (fst st)
  /\ (in_function (snd st) = true ->
      1 <= function_start (snd st) <= List.length (code_lines self)).

Definition memory_names : list string := ["malloc"; "calloc"; "realloc"; "free"].

Definition commented_free_sample : string := "  // free(ptr);".
Definition spaced_include_sample : string := "# include <stdio.h>".
Definition many_stars_sample : string := "int ******p;".

(** The test of the inner loop of rule 1 on one later line. *)
Definition calls_name (func_name : string) (check_line : string) : bool :=
  Py.contains (func_name ++ "(") check_line && negb (is_comment check_line).

(** What rule 1 appends for line [i]: the [goto] violation, the
    [setjmp]/[longjmp] violation, then what the recursion check gives. *)
Definition rule_1_recursion (lines : list string) (il : nat * string)
  : list Violation :=
  match Re.search Pat.call_block (snd il) with
  | Some _ =>
      match Re.search Pat.call_block_name (snd il) with
      | Some m =>
          let func_name :=
            match Re.group 1 (Re.m_groups m) with
            | Some g => g
            | None => "None"
            end in
          if existsb (calls_name func_name) (skipn (fst il) lines)
          then [recursion_violation (fst il) (snd il)] else []
      | None => []
      end
  | None => []
  end.

Definition rule_1_line (lines : list string) (il : nat * string)
  : list Violation :=
  (if Py.contains "goto" (snd il) && negb (is_comment (snd il))
   then [goto_violation (fst il) (snd il)] else [])
  ++ (if (Py.contains "setjmp" (snd il) || Py.contains "longjmp" (snd il))
         && negb (is_comment (snd il))
      then [setjmp_violation (fst il) (snd il)] else [])
  ++ rule_1_recursion lines il.

(** What the type-safety rule appends for line [i]. *)
Definition type_safety_line (lines : list string) (il : nat * string)
  : list Violation :=
  if Re.is_some (Re.search Pat.int_declaration (snd il))
     && negb (Py.contains "stdint.h"
                (Py.join newline_str (firstn (fst il) lines)))
  then [type_safety_violation (fst il) (snd il)] else [].

Definition goto_and_longjmp_sample : string := "if (e) { longjmp(env, 1); goto out; }".

Definition stdint_sample : string :=
  Py.join newline_str ["int early;"; "#include <stdint.h>"; "int late;"].

(** Every character of the text is in the class. *)
Fixpoint all_chars (p : ascii -> bool) (s : string) : bool :=
  match s with
  | EmptyString => true
  | String c s' => p c && all_chars p s'
  end.

Definition equality_test_sample : string := "  if (a == b) {".

(** A line that starts, after white space, with [//] or [/*]. *)
Definition comment_start (l : string) : bool :=
  Py.startswith (Py.strip l) "//" || Py.startswith (Py.strip l) "/*".

(** The two lines right above the line of index [n] (fewer at the top of
    the file). *)
Definition two_above (lines : list string) (n : nat) : list string :=
  skipn (n - 2) (firstn n lines).

(** The comment rule on line [fst il]. *)
Definition comment_coverage_line (lines : list string) (il : nat * string)
  : list Violation :=
  if Re.is_some (Re.rmatch Pat.signature (snd il))
     && negb (existsb comment_start (two_above lines (fst il - 1)))
  then [comment_violation (fst il) (snd il)] else [].

(** A line that holds [error] in any case, or [return]. *)
Definition mentions_error (l : string) : bool :=
  Py.contains "error" (Py.lower l) || Py.contains "return" l.

(** The error-handling rule on line [fst il]. *)
Definition error_handling_line (lines : list string) (il : nat * string)
  : list Violation :=
  if Re.is_some (Re.rmatch Pat.void_signature (snd il))
     && negb (existsb mentions_error (firstn 20 (skipn (fst il) lines)))
  then [error_handling_violation (fst il) (snd il)] else [].

Definition far_comment_sample : string :=
  Py.join newline_str ["// adds one"; ""; ""; "int inc(int v) {"].

Definition one_line_void_sample : string := "void stop(void) { return; }".

(** The binaries [__init__] probes, in the order it probes them. *)
Definition the_binaries : list string :=
  ["cppcheck"; "clang-tidy"; "splint"; "flawfinder"].

(** The command line of the adapter behind a key of [self.tools]. *)
Definition tool_command (key path : string) : list string :=
  if String.eqb key "cppcheck"
  then ["cppcheck"; "--enable=all"; "--xml"; "--xml-version=2";
        "--suppress=missingIncludeSystem"; "--suppress=unusedFunction"; path]
  else if String.eqb key "clang_tidy" then clang_tidy_cmd path
  else if String.eqb key "splint"
       then ["splint"; "+all"; "+bounds"; "+strict"; "+unrecog"; path]
  else ["flawfinder"; "--html"; "--context"; "--minlevel"; "1"; path].

(** The return codes on which an adapter parses the output. *)
Definition accepted_code (key : string) (rc : Z) : bool :=
  if String.eqb key "flawfinder" then (rc =? 0)%Z else zero_or_one rc.

(** The [run_*] method of a key. *)
Definition run_method (key : string) : string :=
  if String.eqb key "cppcheck" then "run_cppcheck"
  else if String.eqb key "clang_tidy" then "run_clang_tidy"
  else if String.eqb key "splint" then "run_splint"
  else "run_flawfinder".

(** A machine where flawfinder is installed and ends with return code 1
    on every file. *)
Definition flawfinder_fails (cmd : list string) (timeout : nat)
  : exc CompletedProcess :=
  match cmd with
  | binary :: arg :: _ =>
      if String.eqb binary "flawfinder" then
        if String.eqb arg "--version"
        then Ok {| returncode := 0; stdout := "2.0.19" |}
        else Ok {| returncode := 1; stdout := "Risk level 4: strcpy" |}
      else Raise FileNotFoundError
  | _ => Raise FileNotFoundError
  end.

Definition flawfinder_only_integrator : StaticAnalysisIntegrator :=
  {| config := PDict [];
     tools := [("cppcheck", false); ("clang_tidy", false);
               ("splint", false); ("flawfinder", true)] |}.

(** ** The JSON export of the integrator *)

(** One finding as [export_results_json] writes it. *)
Record exported_result : Type := mkExported {
  x_line_number : pyval;
  x_severity : pyval;
  x_message : pyval;
  x_rule_id : pyval;
  x_category : string;
  x_confidence : nat
}.

(** The dictionary [export_data]. *)
Record export_data : Type := mkExport {
  x_file_path : string;
  analysis_timestamp : string;
  tools_used : list string;
  total_violations : nat;
  results_by_tool : list (string * list exported_result)
}.

Definition exported (result : StaticAnalysisResult) : exported_result :=
  {| x_line_number := sa_line_number result;
     x_severity := sa_severity result;
     x_message := message result;
     x_rule_id := sa_rule_id result;
     x_category := category result;
     x_confidence := confidence result |}.

(** The truth value of a list. *)
Definition truthy {A : Type} (l : list A) : bool :=
  match l with [] => false | _ :: _ => true end.

(** [list(results.values())[0][0].file_path if any(results.values())
    else ''] *)
Definition first_file_path
           (results : list (string * list StaticAnalysisResult)) : exc string :=
  if existsb truthy (map snd results) then
    first <- Py.index (map snd results) 0 ;;
    result <- Py.index first 0 ;;
    Ok (file_path result)
  else Ok EmptyString.

Section JsonExport.

(** [str(Path().absolute())], which asks the operating system for the
    working directory. *)
Variable working_directory : exc string.

(** [json.dumps(export_data, indent=2)] *)
Variable json_dumps : export_data -> string.

Definition export_results_json
           (results : list (string * list StaticAnalysisResult)) : exc string :=
  path <- first_file_path results ;;
  timestamp <- working_directory ;;
  let data :=
    {| x_file_path := path;
       analysis_timestamp := timestamp;
       tools_used := map fst results;
       total_violations :=
         list_sum (map (fun tool_results => List.length tool_results)
                       (map snd results));
       results_by_tool := [] |} in
  let data :=
    fold_left
      (fun data item =>
         {| x_file_path := x_file_path data;
            analysis_timestamp := analysis_timestamp data;
            tools_used := tools_used data;
            total_violations := total_violations data;
            results_by_tool :=
              Dict.set (results_by_tool data) (fst item)
                       (map exported (snd item)) |})
      results data in
  Ok (json_dumps data).

End JsonExport.

(** A finding of splint. *)
Definition splint_finding : StaticAnalysisResult :=
  {| tool_name := "splint";
     file_path := "a.c";
     sa_line_number := PInt 3;
     sa_severity := pstr "warning";
     message := pstr "Variable x used before definition";
     sa_rule_id := pstr "splint";
     category := "style_general";
     confidence := 80 |}.

(** What [run_all_tools] returns when cppcheck finds nothing and splint
    has a finding. *)
Definition clean_then_finding : list (string * list StaticAnalysisResult) :=
  [("cppcheck", []); ("splint", [splint_finding])].

(** ** Well-shaped output of clang-tidy *)

(** A value that can be a dictionary key. *)
Definition hashable (v : pyval) : bool :=
  match v with
  | PList _ | PDict _ => false
  | _ => true
  end.

(** A diagnostic: an object whose [check_name], when present, is
    hashable. *)
Definition shaped_diagnostic (diag : pyval) : bool :=
  match diag with
  | PDict fields =>
      match dict_lookup fields (codes "check_name") with
      | Some v => hashable v
      | None => true
      end
  | _ => false
  end.

(** A record of the output: an object whose [diagnostics], when present,
    is a list of diagnostics. *)
Definition shaped_record (item : pyval) : bool :=
  match item with
  | PDict d =>
      match dict_lookup d (codes "diagnostics") with
      | Some (PList diags) => forallb shaped_diagnostic diags
      | Some _ => false
      | None => true
      end
  | _ => false
  end.

(** The diagnostics of a record. *)
Definition record_diagnostics (item : pyval) : list pyval :=
  match item with
  | PDict d =>
      match dict_lookup d (codes "diagnostics") with
      | Some (PList diags) => diags
      | _ => []
      end
  | _ => []
  end.

(** Two records, the first with one diagnostic, the second with none. *)
Definition quoted (s : string) : string :=
  String Json.dquote (s ++ String Json.dquote EmptyString).

Definition two_records_output : string :=
  "[{" ++ quoted "diagnostics" ++ ": [{" ++ quoted "check_name" ++ ": "
       ++ quoted "bugprone-infinite-loop" ++ ", " ++ quoted "line"
       ++ ": 7}]}, {}]".

Definition two_records : list pyval :=
  [PDict [(codes "diagnostics",
           PList [PDict [(codes "check_name", pstr "bugprone-infinite-loop");
                         (codes "line", PInt 7)]])];
   PDict []].


(** A function whose opening brace stands on a line of its own, with a
    late declaration and two returns. *)
Definition brace_below_sample : string :=
  Py.join newline_str
    ["int sign(int v)"; "{"; "  if (v < 0) return -1;"; "  v = v + 0;";
     "  v = v + 0;"; "  int late;"; "  return 1;"; "}"].

(** What every finding of a parser carries whatever the tool wrote. *)
Definition attributed (tool path : string) (hundredths : nat)
           (r : StaticAnalysisResult) : Prop :=
  tool_name r = tool /\ file_path r = path /\ confidence r = hundredths.

(** A report of splint about a header the analysed file includes. *)
Definition header_report : string := "util.h:12: Variable x used before definition".

(** The greatest number of characters a pattern can match, when there is
    one. *)
Fixpoint width (r : Re.regex) : option nat :=
  match r with
  | Re.Eps | Re.WordB => Some 0
  | Re.Cls _ => Some 1
  | Re.Star _ => None
  | Re.Opt a => width a
  | Re.Seq a b =>
      match width a, width b with
      | Some x, Some y => Some (x + y)
      | _, _ => None
      end
  | Re.Alt a b =>
      match width a, width b with
      | Some x, Some y => Some (Nat.max x y)
      | _, _ => None
      end
  | Re.Group _ a => width a
  end.

(** Every group [n] of the pattern matches at most [bound n] characters. *)
Fixpoint groups_within (bound : nat -> nat) (r : Re.regex) : bool :=
  match r with
  | Re.Opt a => groups_within bound a
  | Re.Seq a b | Re.Alt a b => groups_within bound a && groups_within bound b
  | Re.Group n a =>
      match width a with
      | Some w => w <=? bound n
      | None => false
      end && groups_within bound a
  | _ => true
  end.

Definition short_groups (bound : nat -> nat) (cs : Re.captures) : Prop :=
  Forall (fun nv => String.length (snd nv) <= bound (fst nv)) cs.

(** The bounds of the two groups of the naming pattern: a type name, and
    one or two letters. *)
Definition short_name_bound (n : nat) : nat := if n =? 2 then 2 else 6.

(** The naming rule on line [fst il]. *)
Definition naming_line (il : nat * string) : list Violation :=
  match Re.search Pat.short_name (snd il) with
  | Some var_match =>
      match Re.group 2 (Re.m_groups var_match) with
      | Some var_name => [naming_violation (fst il) (snd il) var_name]
      | None => []
      end
  | None => []
  end.

Definition loop_counter_sample : string := "  for (int i = 0; i < n; i++) {".

(** Outputs on which [json.loads] raises something else than a decoding
    error: 262144 opening brackets, which no recursion limit of CPython
    lets through, and an integer literal of 4301 digits. *)
Fixpoint doubled (n : nat) (s : string) : string :=
  match n with
  | 0 => s
  | S n' => doubled n' (s ++ s)
  end.

Definition deep_output : string := doubled 18 "[".

Definition long_integer_output : string :=
  string_of_list_ascii (List.repeat "1"%char 4301).

Definition nan_output : string := "NaN".

(** What [json.loads] of CPython 3.11, with its limits as they are by
    default, answers on the sample outputs.  The samples give it no other
    text. *)
Definition sample_loads (s : string) : exc pyval :=
  if String.eqb s number_output then Ok (PInt 1)
  else if String.eqb s nan_output then Ok (PFloat "nan")
  else if String.eqb s object_output
       then Ok (PDict [(codes "diagnostics", PList [])])
  else if String.eqb s two_records_output then Ok (PList two_records)
  else if String.eqb s long_integer_output then Raise ValueError
  else if String.eqb s deep_output then Raise RecursionError
  else Raise JSONDecodeError.

(** ** The pattern of each rule

    What a line must hold for the rule to report that line: the outer
    test of the rule's loop body, before its refinements (comment lines,
    bound names, parameter counts, header comments and so on).  Rule 7
    and the function-length rule report the first line of a function,
    which is a line of the function-start pattern. *)
Definition rule_pattern (id line : string) : bool :=
  if String.eqb id "rule_1" then
    Py.contains "goto" line || Py.contains "setjmp" line
    || Py.contains "longjmp" line
    || Re.is_some (Re.search Pat.call_block line)
  else if String.eqb id "rule_2" then
    Re.is_some (Re.rmatch Pat.while_open line) || Py.contains "while" line
  else if String.eqb id "rule_3" then
    Py.any_in ["malloc"; "calloc"; "realloc"; "free"] line
  else if String.eqb id "rule_4" then
    Re.is_some (Re.search Pat.signature_params line)
  else if String.eqb id "rule_5" then Py.contains "***" line
  else if String.eqb id "rule_6" then
    Re.is_some (Re.rmatch Pat.declaration line)
  else if String.eqb id "rule_7" then
    Re.is_some (Re.rmatch Pat.function_start line)
  else if String.eqb id "rule_8" then Py.startswith (Py.strip line) "#"
  else if String.eqb id "rule_9" then
    Re.is_some (Re.search Pat.condition_assignment line)
  else if String.eqb id "rule_10" then 1 <? Py.count_char "=" line
  else if String.eqb id "style_naming" then
    Re.is_some (Re.search Pat.short_name line)
  else if String.eqb id "style_function_length" then
    Re.is_some (Re.rmatch Pat.function_start line)
  else if String.eqb id "style_comments" then
    Re.is_some (Re.rmatch Pat.signature line)
  else if String.eqb id "style_error_handling" then
    Re.is_some (Re.rmatch Pat.void_signature line)
  else if String.eqb id "style_type_safety" then
    Re.is_some (Re.search Pat.int_declaration line)
  else false.

(** A violation that cites a line which matches the pattern of its
    rule. *)
Definition matched (lines : list string) (v : Violation) : Prop :=
  1 <= line_number v
  /\ exists l, nth_error lines (line_number v - 1) = Some l
               /\ rule_pattern (rule_id v) l = true.

(** What a line-by-line rule appends for a line: violations of the line
    and of the rule, and none unless the line matches the pattern. *)
Definition of_line (id : string) (il : nat * string) (v : Violation) : Prop :=
  line_number v = fst il /\ rule_id v = id
  /\ rule_pattern id (snd il) = true.

(** What rule 4 appends for line [i]. *)
Definition rule_4_line (il : nat * string) : list Violation :=
  match Re.search Pat.signature_params (snd il) with
  | Some func_match =>
      match Re.group 1 (Re.m_groups func_match) with
      | Some params =>
          if 2 <? count_params params
          then [parameters_violation (fst il) (snd il) (count_params params)]
          else []
      | None => []
      end
  | None => []
  end.

(** The invariant of rule 7 and of the function-length rule: the
    violations so far, and the first line of the open function. *)
Definition scan_matched (lines : list string)
           (st : NASAComplianceChecker * scan) : Prop :=
  Forall (matched lines) (violations (fst st))
  /\ code_lines (fst st) = lines
  /\ (in_function (snd st) = true ->
      1 <= function_start (snd st)
      /\ exists l, nth_error lines (function_start (snd st) - 1) = Some l
                   /\ Re.is_some (Re.rmatch Pat.function_start l) = true).

(** The program [test_compliant_code] of the repository's test suite
    expects no violation for. *)
Definition compliant_code : string :=
  Py.join newline_str
    [""; "#include <stdint.h>"; ""; "int main(void) {";
     "    uint16_t counter;"; "    uint16_t result;"; "    ";
     "    counter = 0;"; "    result = 0;"; "    ";
     "    while (counter < 10) {"; "        result += counter;";
     "        counter++;"; "    }"; "    "; "    return (int)result;"; "}";
     ""].

Definition counter_loop : string := "    while (counter < 10) {".

(** The twelve rules whose loop body looks at one line at a time and
    keeps nothing from one line to the next, with what each appends for
    a line.  Four of them read other lines of the source as well: rule 1
    the lines below, the comment rule the two lines above, the
    error-handling rule the lines below, the type-safety rule the lines
    up to it.  Rules 6 and 7 and the function-length rule carry the open
    function from line to line and are not in the table. *)
Definition line_rule (lines : list string) (id : string)
  : option (nat * string -> list Violation) :=
  if String.eqb id "rule_1" then Some (rule_1_line lines)
  else if String.eqb id "rule_2" then Some rule_2_line
  else if String.eqb id "rule_3" then Some rule_3_line
  else if String.eqb id "rule_4" then Some rule_4_line
  else if String.eqb id "rule_5" then Some rule_5_line
  else if String.eqb id "rule_8" then Some rule_8_line
  else if String.eqb id "rule_9" then Some rule_9_line
  else if String.eqb id "rule_10" then Some rule_10_line
  else if String.eqb id "style_naming" then Some naming_line
  else if String.eqb id "style_comments"
       then Some (comment_coverage_line lines)
  else if String.eqb id "style_error_handling"
       then Some (error_handling_line lines)
  else if String.eqb id "style_type_safety"
       then Some (type_safety_line lines)
  else None.

(** * Properties *)

(** ** Scoring *)

Lemma penalty_nonneg (s : Severity) : (0 <= penalty s)%Z.
Proof. destruct s; vm_compute; discriminate. Qed.

Lemma total_penalty_nonneg (vs : list Violation) : (0 <= total_penalty vs)%Z.
Proof.
  induction vs as [|v vs IH]; simpl.
  - lia.
  - pose proof (penalty_nonneg (severity v)). lia.
Qed.

Lemma subtract_penalties_sum (vs : list Violation) (base : Z) :
  subtract_penalties vs base = (base - total_penalty vs)%Z.
Proof.
  revert base. induction vs as [|v vs IH]; intros base; simpl.
  - lia.
  - rewrite IH. lia.
Qed.

Lemma score_formula (self : NASAComplianceChecker) :
  calculate_compliance_score self
  = Z.max 0 (100 - total_penalty (violations self)).
Proof.
  unfold calculate_compliance_score.
  destruct (violations self) as [|v vs] eqn:E.
  - reflexivity.
  - now rewrite subtract_penalties_sum.
Qed.

(** C1. The score is [max(0, 100 - sum of the penalties)] of the violation
    list the checker holds, with the penalties minor 2, moderate 5, major
    10 and critical 15; so it lies between 0 and 100.  This holds for
    every checker state, in particular for the one [check_all_rules]
    leaves after any source text. *)
Theorem calculate_compliance_score_spec :
  (penalty MINOR = 2 /\ penalty MODERATE = 5
   /\ penalty MAJOR = 10 /\ penalty CRITICAL = 15)%Z
  /\ forall self : NASAComplianceChecker,
       calculate_compliance_score self
       = Z.max 0 (100 - total_penalty (violations self))
       /\ (0 <= calculate_compliance_score self <= 100)%Z.
Proof.
  split; [repeat split; reflexivity|].
  intros self. rewrite score_formula. split; [reflexivity|].
  pose proof (total_penalty_nonneg (violations self)). lia.
Qed.

Lemma total_penalty_severities (vs : list Violation) :
  total_penalty vs = severity_sum (map severity vs).
Proof. induction vs as [|v vs IH]; simpl; [reflexivity | now rewrite IH]. Qed.

Lemma severity_sum_perm (a b : list Severity) :
  Permutation a b -> severity_sum a = severity_sum b.
Proof.
  induction 1 as [|x l l' _ IH|x y l|l l' l'' _ IH1 _ IH2]; simpl.
  - reflexivity.
  - now rewrite IH.
  - lia.
  - now rewrite IH1.
Qed.

(** The score and the level depend on the multiset of severities only. *)
Lemma score_by_severities (self1 self2 : NASAComplianceChecker) :
  Permutation (map severity (violations self1))
              (map severity (violations self2)) ->
  calculate_compliance_score self1 = calculate_compliance_score self2.
Proof.
  intros H. rewrite !score_formula, !total_penalty_severities.
  now rewrite (severity_sum_perm _ _ H).
Qed.

(** C8. Whatever the order of the violation list, the score and the
    level are the same: for two checkers whose violation lists are
    permutations of one another, [calculate_compliance_score] and
    [get_compliance_level] agree.  Both are total functions of the checker
    (no result of them is an exception). *)
Theorem scoring_is_order_independent (self1 self2 : NASAComplianceChecker) :
  Permutation (violations self1) (violations self2) ->
  calculate_compliance_score self1 = calculate_compliance_score self2
  /\ get_compliance_level self1 = get_compliance_level self2.
Proof.
  intros H.
  assert (E : calculate_compliance_score self1
              = calculate_compliance_score self2).
  { apply score_by_severities. now apply Permutation_map. }
  split; [exact E|]. unfold get_compliance_level. now rewrite E.
Qed.

Lemma scoring_is_order_independent_witness :
  calculate_compliance_score
    {| violations := [sample_goto; sample_equals]; code_lines := [] |}
  = calculate_compliance_score
      {| violations := [sample_equals; sample_goto]; code_lines := [] |}
  /\ get_compliance_level
       {| violations := [sample_goto; sample_equals]; code_lines := [] |}
     = get_compliance_level
         {| violations := [sample_equals; sample_goto]; code_lines := [] |}.
Proof.
  apply (scoring_is_order_independent
           {| violations := [sample_goto; sample_equals]; code_lines := [] |}
           {| violations := [sample_equals; sample_goto]; code_lines := [] |}).
  simpl. apply perm_swap.
Defined.

(** ** The empty source *)

(** C7. On the empty source the checker finds no violation, the score is
    100 and the level is [fully_compliant]. *)
Theorem empty_source_is_fully_compliant :
  exists self : NASAComplianceChecker,
    check_code EmptyString = Ok ([], self)
    /\ calculate_compliance_score self = 100%Z
    /\ get_compliance_level self = "fully_compliant".
Proof.
  eexists. split; [vm_compute; reflexivity|].
  split; reflexivity.
Qed.

(** ** Loops and enumerations *)

Lemma enumerate_In {A : Type} (l : list A) (start i : nat) (a : A) :
  In (i, a) (Py.enumerate start l) ->
  start <= i < start + List.length l /\ nth_error l (i - start) = Some a.
Proof.
  revert start. induction l as [|b l IH]; intros start H; simpl in *.
  - contradiction.
  - destruct H as [H|H].
    + inversion H; subst. replace (i - i) with 0 by lia. split; [lia|reflexivity].
    + apply IH in H. destruct H as [Hr Hn]. split; [lia|].
      replace (i - start) with (S (i - S start)) by lia. exact Hn.
Qed.

Lemma range_In (lo hi j : nat) : In j (Py.range lo hi) -> lo <= j < hi.
Proof. unfold Py.range. rewrite in_seq. lia. Qed.

Lemma index_ok {A : Type} (l : list A) (j : nat) :
  j < List.length l -> exists a, Py.index l (Z.of_nat j) = Ok a.
Proof.
  intros H. unfold Py.index.
  assert (E : (Z.of_nat j <? 0)%Z = false) by (apply Z.ltb_ge; lia).
  rewrite E, E, Nat2Z.id.
  destruct (nth_error l j) as [a|] eqn:N.
  - now exists a.
  - apply nth_error_None in N. lia.
Qed.

Lemma index_pred_ok {A : Type} (l : list A) (j : nat) :
  1 <= j <= List.length l -> exists a, Py.index l (Z.of_nat j - 1) = Ok a.
Proof.
  intros H. replace (Z.of_nat j - 1)%Z with (Z.of_nat (j - 1)) by lia.
  apply index_ok. lia.
Qed.

(** A loop whose body keeps an invariant and never raises ends normally,
    with the invariant. *)
Lemma for_each_inv {A S : Type} (P : S -> Prop)
      (body : A -> S -> exc (S * flow)) (l : list A) (st : S) :
  P st ->
  (forall a s, In a l -> P s -> exists r, body a s = Ok r /\ P (fst r)) ->
  exists st', for_each body l st = Ok st' /\ P st'.
Proof.
  revert st. induction l as [|a l IH]; intros st HP Hbody; simpl.
  - now exists st.
  - destruct (Hbody a st (or_introl eq_refl) HP) as [[s' fl] [E HP']].
    rewrite E. simpl. destruct fl.
    + apply IH; [exact HP'|]. intros b s Hin. apply Hbody. now right.
    + now exists s'.
Qed.

(** A loop whose body only appends [f a] appends the concatenation. *)
Lemma for_each_extend {A : Type} (f : A -> list Violation)
      (body : A -> NASAComplianceChecker -> exc (NASAComplianceChecker * flow))
      (l : list A) (self : NASAComplianceChecker) :
  (forall a s, body a s = Ok (extend (f a) s, Next)) ->
  for_each body l self = Ok (extend (flat_map f l) self).
Proof.
  intros Hbody. revert self. induction l as [|a l IH]; intros self; simpl.
  - unfold extend. rewrite app_nil_r. now destruct self.
  - rewrite Hbody. simpl. rewrite IH. unfold extend. simpl.
    now rewrite app_assoc.
Qed.

(** ** Growth of the violation list *)

Lemma grows_refl (id : string) (self : NASAComplianceChecker) :
  grows id self self.
Proof. split; [reflexivity|]. exists []. now rewrite app_nil_r. Qed.

Lemma grows_trans (id : string) (a b c : NASAComplianceChecker) :
  grows id a b -> grows id b c -> grows id a c.
Proof.
  intros [L1 [o1 [E1 F1]]] [L2 [o2 [E2 F2]]]. split; [congruence|].
  exists (o1 ++ o2). split.
  - rewrite E2, E1. now rewrite app_assoc.
  - apply Forall_app. now split.
Qed.

Lemma grows_append (id : string) (v : Violation) (self : NASAComplianceChecker) :
  rule_id v = id -> grows id self (append v self).
Proof.
  intros H. split; [reflexivity|]. exists [v]. split; [reflexivity|].
  now constructor.
Qed.

Lemma grows_when (id : string) (c : bool) (v : Violation)
      (self : NASAComplianceChecker) :
  rule_id v = id -> grows id self (when c v self).
Proof.
  intros H. unfold when. destruct c; [now apply grows_append | apply grows_refl].
Qed.

Lemma grows_extend (id : string) (out : list Violation)
      (self : NASAComplianceChecker) :
  Forall (fun v => rule_id v = id) out -> grows id self (extend out self).
Proof. intros H. split; [reflexivity|]. now exists out. Qed.

Lemma when_extend (c : bool) (v : Violation) (self : NASAComplianceChecker) :
  when c v self = extend (if c then [v] else []) self.
Proof.
  unfold when, extend, append. destruct c; simpl; [reflexivity|].
  rewrite app_nil_r. now destruct self.
Qed.

Lemma extend_extend (a b : list Violation) (self : NASAComplianceChecker) :
  extend b (extend a self) = extend (a ++ b) self.
Proof. unfold extend. simpl. now rewrite app_assoc. Qed.

Lemma extend_nil (self : NASAComplianceChecker) : extend [] self = self.
Proof. unfold extend. rewrite app_nil_r. now destruct self. Qed.

(** ** Groups of a match *)

Lemma star_reaches {R : Type} (p : ascii -> bool) (k : Re.cont R)
      (prev : option ascii) (s : string) (cs : Re.captures) (x : R) :
  Re.star p k prev s cs = Some x -> exists prev' s', k prev' s' cs = Some x.
Proof.
  revert prev. induction s as [|c s IH]; intros prev H; simpl in H.
  - eauto.
  - destruct (p c).
    + destruct (Re.star p k (Some c) s cs) as [y|] eqn:E.
      * inversion H; subst. eapply IH. exact E.
      * eauto.
    + eauto.
Qed.

Lemma group_cons (n m : nat) (v : string) (cs : Re.captures) :
  Re.group n ((m, v) :: cs) = if m =? n then Some v else Re.group n cs.
Proof. reflexivity. Qed.

(** A successful run reaches its continuation with the groups it had,
    and with every group the pattern binds. *)
Lemma run_reaches {R : Type} (r : Re.regex) :
  forall (prev : option ascii) (s : string) (cs : Re.captures)
         (k : Re.cont R) (x : R),
    Re.run r prev s cs k = Some x ->
    exists prev' s' cs',
      k prev' s' cs' = Some x
      /\ (forall n, Re.group n cs <> None -> Re.group n cs' <> None)
      /\ (forall n, binds n r = true -> Re.group n cs' <> None).
Proof.
  induction r as [|p|p|r1 IH1|r1 IH1 r2 IH2|r1 IH1 r2 IH2|m r1 IH1|];
    intros prev s cs k x H; simpl in H.
  - exists prev, s, cs. repeat split; auto. discriminate.
  - destruct s as [|c s]; [discriminate|]. destruct (p c); [|discriminate].
    exists (Some c), s, cs. repeat split; auto. discriminate.
  - apply star_reaches in H. destruct H as [prev' [s' H]].
    exists prev', s', cs. repeat split; auto. discriminate.
  - destruct (Re.run r1 prev s cs k) as [y|] eqn:E.
    + inversion H; subst. apply IH1 in E.
      destruct E as [prev' [s' [cs' [Hk [Hm _]]]]].
      exists prev', s', cs'. repeat split; auto. discriminate.
    + exists prev, s, cs. repeat split; auto. discriminate.
  - apply IH1 in H. destruct H as [p1 [s1 [cs1 [H [Hm1 Hb1]]]]].
    apply IH2 in H. destruct H as [p2 [s2 [cs2 [H [Hm2 Hb2]]]]].
    exists p2, s2, cs2. repeat split; auto.
    intros n Hn. simpl in Hn. apply orb_true_iff in Hn. destruct Hn; auto.
  - destruct (Re.run r1 prev s cs k) as [y|] eqn:E.
    + inversion H; subst. apply IH1 in E.
      destruct E as [prev' [s' [cs' [Hk [Hm Hb]]]]].
      exists prev', s', cs'. repeat split; auto.
      intros n Hn. simpl in Hn. apply andb_true_iff in Hn. now apply Hb.
    + apply IH2 in H. destruct H as [prev' [s' [cs' [Hk [Hm Hb]]]]].
      exists prev', s', cs'. repeat split; auto.
      intros n Hn. simpl in Hn. apply andb_true_iff in Hn. now apply Hb.
  - apply IH1 in H. destruct H as [prev' [s' [cs' [Hk [Hm Hb]]]]].
    exists prev', s', ((m, Re.consumed s s') :: cs'). split; [exact Hk|].
    split; intros n Hn; rewrite group_cons; destruct (m =? n) eqn:E;
      try discriminate; auto.
    simpl in Hn. rewrite E in Hn. now apply Hb.
  - destruct (Re.at_boundary prev s); [|discriminate].
    exists prev, s, cs. repeat split; auto. discriminate.
Qed.

Lemma match_at_binds (r : Re.regex) (prev : option ascii) (s : string)
      (pos n : nat) (m : Re.match_obj) :
  Re.match_at r prev s pos = Some m -> binds n r = true ->
  Re.group n (Re.m_groups m) <> None.
Proof.
  unfold Re.match_at. intros H Hb. apply run_reaches in H.
  destruct H as [prev' [s' [cs' [Hk [_ Hbind]]]]].
  inversion Hk; subst. simpl. now apply Hbind.
Qed.

Lemma search_binds (r : Re.regex) (s : string) (n : nat) (m : Re.match_obj) :
  Re.search r s = Some m -> binds n r = true ->
  Re.group n (Re.m_groups m) <> None.
Proof.
  unfold Re.search. generalize (@None ascii) as prev. generalize 0 as pos.
  induction s as [|c s IH]; intros pos prev H Hb; simpl in H.
  - destruct (Re.match_at r prev EmptyString pos) as [y|] eqn:E;
      [|discriminate].
    inversion H; subst. eapply match_at_binds; eauto.
  - destruct (Re.match_at r prev (String c s) pos) as [y|] eqn:E.
    + inversion H; subst. eapply match_at_binds; eauto.
    + eapply IH; eauto.
Qed.

(** ** Every rule ends normally and appends violations of its own id *)

Lemma enumerate_lines_range (lines : list string) (i : nat) (line : string) :
  In (i, line) (Py.enumerate 1 lines) -> 1 <= i <= List.length lines.
Proof. intros H. apply enumerate_In in H. lia. Qed.

Ltac grow :=
  repeat first
    [ assumption
    | apply grows_refl
    | apply grows_when; reflexivity
    | apply grows_append; reflexivity
    | match goal with
      | |- grows _ _ (if ?c then _ else _) => destruct c
      | |- grows ?id ?a (when ?c ?v ?b) =>
          apply (grows_trans id a b); [|apply grows_when; reflexivity]
      | |- grows ?id ?a (append ?v ?b) =>
          apply (grows_trans id a b); [|apply grows_append; reflexivity]
      end ].

Ltac step_done :=
  eexists; split; [reflexivity|]; simpl; grow.

Lemma recursion_scan_ok (i : nat) (line func_name : string)
      (self : NASAComplianceChecker) :
  exists self', recursion_scan i line func_name self = Ok self'
                /\ grows "rule_1" self self'.
Proof.
  unfold recursion_scan. apply for_each_inv; [apply grows_refl|].
  intros [j check_line] s _ HP. simpl.
  destruct (Py.contains (func_name ++ "(") check_line
            && negb (is_comment check_line)); step_done.
Qed.

Lemma rule_1_ok (self : NASAComplianceChecker) :
  exists self', _check_rule_1_flow_control self = Ok self'
                /\ grows "rule_1" self self'.
Proof.
  unfold _check_rule_1_flow_control, lines_loop.
  apply for_each_inv; [apply grows_refl|].
  intros [i line] s _ HP. simpl.
  set (s2 := when _ (setjmp_violation i line) _).
  assert (G : grows "rule_1" self s2) by (unfold s2; grow).
  destruct (Re.search Pat.call_block line); [|step_done].
  destruct (Re.search Pat.call_block_name line); [|step_done].
  match goal with
  | |- context [recursion_scan ?a ?b ?c ?d] =>
      destruct (recursion_scan_ok a b c d) as [s3 [E G3]]
  end.
  rewrite E. simpl. eexists; split; [reflexivity|]. simpl.
  eapply grows_trans; eauto.
Qed.

Lemma rule_2_exact (self : NASAComplianceChecker) :
  _check_rule_2_loop_bounds self
  = Ok (extend (flat_map rule_2_line (Py.enumerate 1 (code_lines self))) self).
Proof.
  unfold _check_rule_2_loop_bounds, lines_loop. apply for_each_extend.
  intros [i line] s. cbn [fst snd].
  unfold rule_2_line, while_unbounded, while_infinite. cbn [fst snd].
  rewrite !when_extend.
  destruct (Re.is_some (Re.rmatch Pat.while_open line)); cbn [andb].
  - rewrite extend_extend. reflexivity.
  - reflexivity.
Qed.

Lemma rule_2_line_ids (il : nat * string) :
  Forall (fun v => rule_id v = "rule_2") (rule_2_line il).
Proof.
  unfold rule_2_line. apply Forall_app.
  split; match goal with |- context [if ?c then _ else _] => destruct c end;
    repeat constructor.
Qed.

Lemma Forall_flat_map {A B : Type} (P : B -> Prop) (f : A -> list B)
      (l : list A) :
  (forall a, Forall P (f a)) -> Forall P (flat_map f l).
Proof.
  intros H. induction l as [|a l IH]; simpl; [constructor|].
  apply Forall_app. split; auto.
Qed.

Lemma rule_2_ok (self : NASAComplianceChecker) :
  exists self', _check_rule_2_loop_bounds self = Ok self'
                /\ grows "rule_2" self self'.
Proof.
  eexists. split; [apply rule_2_exact|]. apply grows_extend.
  apply Forall_flat_map. apply rule_2_line_ids.
Qed.

Lemma rule_3_ok (self : NASAComplianceChecker) :
  exists self', _check_rule_3_dynamic_memory self = Ok self'
                /\ grows "rule_3" self self'.
Proof.
  unfold _check_rule_3_dynamic_memory, lines_loop.
  apply for_each_inv; [apply grows_refl|].
  intros [i line] s _ HP. simpl. step_done.
Qed.

Lemma rule_4_ok (self : NASAComplianceChecker) :
  exists self', _check_rule_4_function_parameters self = Ok self'
                /\ grows "rule_4" self self'.
Proof.
  unfold _check_rule_4_function_parameters, lines_loop.
  apply for_each_inv; [apply grows_refl|].
  intros [i line] s _ HP. simpl.
  destruct (Re.search Pat.signature_params line) as [m|] eqn:E; [|step_done].
  pose proof (search_binds _ _ 1 _ E eq_refl) as Hg.
  destruct (Re.group 1 (Re.m_groups m)); [|contradiction].
  step_done.
Qed.

Lemma rule_5_ok (self : NASAComplianceChecker) :
  exists self', _check_rule_5_pointer_dereferencing self = Ok self'
                /\ grows "rule_5" self self'.
Proof.
  unfold _check_rule_5_pointer_dereferencing, lines_loop.
  apply for_each_inv; [apply grows_refl|].
  intros [i line] s _ HP. simpl. step_done.
Qed.

Ltac loop_with P :=
  match goal with
  | |- context [for_each ?body ?l ?st] =>
      let st' := fresh "st" in
      let E := fresh "E" in
      let G := fresh "G" in
      destruct (for_each_inv P body l st) as [st' [E G]];
      [ | | rewrite E; simpl ]
  end.

Lemma rule_6_ok (self : NASAComplianceChecker) :
  exists self', _check_rule_6_variable_declarations self = Ok self'
                /\ grows "rule_6" self self'.
Proof.
  unfold _check_rule_6_variable_declarations.
  loop_with (fun st : NASAComplianceChecker * scan =>
               grows "rule_6" self (fst st)).
  - apply grows_refl.
  - intros [i line] [s loc] _ HP. simpl in *.
    destruct (Re.is_some (Re.rmatch Pat.function_start line)); step_done.
  - eauto.
Qed.

Lemma rule_7_ok (self : NASAComplianceChecker) :
  exists self', _check_rule_7_single_return self = Ok self'
                /\ grows "rule_7" self self'.
Proof.
  unfold _check_rule_7_single_return.
  loop_with (scan_inv "rule_7" self).
  - split; [apply grows_refl | discriminate].
  - intros [i line] [s loc] Hin [HP Hfs]. simpl in *.
    apply enumerate_lines_range in Hin.
    destruct (Re.is_some (Re.rmatch Pat.function_start line)).
    { eexists; split; [reflexivity|]. split; simpl; auto. }
    set (loc' := if in_function loc && Py.contains "return" line
                    && negb (is_comment line)
                 then _ else loc).
    assert (Hin' : in_function loc' = in_function loc)
      by (unfold loc'; match goal with |- context [if ?c then _ else _] =>
                         destruct c end; reflexivity).
    assert (Hfs' : function_start loc' = function_start loc)
      by (unfold loc'; match goal with |- context [if ?c then _ else _] =>
                         destruct c end; reflexivity).
    destruct (is_closing_brace line && in_function loc') eqn:C.
    + apply andb_true_iff in C. destruct C as [_ C]. rewrite Hin' in C.
      destruct (1 <? counter loc').
      * destruct HP as [HL HO]. rewrite HL, Hfs'.
        destruct (index_pred_ok (code_lines self) (function_start loc)
                    (Hfs C)) as [first E1].
        rewrite E1. simpl. eexists; split; [reflexivity|].
        split; simpl; [|discriminate].
        eapply grows_trans; [split; eauto|]. apply grows_append. reflexivity.
      * simpl. eexists; split; [reflexivity|]. split; simpl; [auto|discriminate].
    + eexists; split; [reflexivity|]. split; simpl; [auto|].
      rewrite Hin', Hfs'. exact Hfs.
  - destruct G as [G _]. eauto.
Qed.

Lemma rule_8_ok (self : NASAComplianceChecker) :
  exists self', _check_rule_8_preprocessor self = Ok self'
                /\ grows "rule_8" self self'.
Proof.
  unfold _check_rule_8_preprocessor, lines_loop.
  apply for_each_inv; [apply grows_refl|].
  intros [i line] s _ HP. simpl. step_done.
Qed.

Lemma rule_9_ok (self : NASAComplianceChecker) :
  exists self', _check_rule_9_assignment_expressions self = Ok self'
                /\ grows "rule_9" self self'.
Proof.
  unfold _check_rule_9_assignment_expressions, lines_loop.
  apply for_each_inv; [apply grows_refl|].
  intros [i line] s _ HP. simpl. step_done.
Qed.

Lemma rule_3_exact (self : NASAComplianceChecker) :
  _check_rule_3_dynamic_memory self
  = Ok (extend (flat_map rule_3_line (Py.enumerate 1 (code_lines self))) self).
Proof.
  unfold _check_rule_3_dynamic_memory, lines_loop. apply for_each_extend.
  intros [i line] s. cbn [fst snd]. unfold rule_3_line. cbn [fst snd].
  destruct (Py.any_in ["malloc"; "calloc"; "realloc"; "free"] line);
    cbn [andb]; [now rewrite when_extend | now rewrite extend_nil].
Qed.

Lemma rule_5_exact (self : NASAComplianceChecker) :
  _check_rule_5_pointer_dereferencing self
  = Ok (extend (flat_map rule_5_line (Py.enumerate 1 (code_lines self))) self).
Proof.
  unfold _check_rule_5_pointer_dereferencing, lines_loop.
  apply for_each_extend.
  intros [i line] s. cbn [fst snd]. unfold rule_5_line. cbn [fst snd].
  now rewrite when_extend.
Qed.

Lemma rule_8_exact (self : NASAComplianceChecker) :
  _check_rule_8_preprocessor self
  = Ok (extend (flat_map rule_8_line (Py.enumerate 1 (code_lines self))) self).
Proof.
  unfold _check_rule_8_preprocessor, lines_loop. apply for_each_extend.
  intros [i line] s. cbn [fst snd]. unfold rule_8_line. cbn [fst snd].
  now rewrite when_extend.
Qed.

Lemma rule_9_exact (self : NASAComplianceChecker) :
  _check_rule_9_assignment_expressions self
  = Ok (extend (flat_map rule_9_line (Py.enumerate 1 (code_lines self))) self).
Proof.
  unfold _check_rule_9_assignment_expressions, lines_loop.
  apply for_each_extend.
  intros [i line] s. cbn [fst snd]. unfold rule_9_line. cbn [fst snd].
  now rewrite when_extend.
Qed.

(** Every violation a line-by-line rule appends for a line carries the
    id of the rule and the number of the line. *)
Lemma line_local_shape (id : string) (f : nat * string -> list Violation)
      (il : nat * string) :
  line_local id = Some f ->
  Forall (fun v => rule_id v = id) (f il)
  /\ Forall (fun v => line_number v = fst il) (f il).
Proof.
  unfold line_local. intros H.
  repeat match type of H with
         | (if String.eqb ?a ?b then _ else _) = _ =>
             let E := fresh "E" in
             destruct (String.eqb a b) eqn:E;
             [apply String.eqb_eq in E; subst; inversion H; subst; clear H|]
         end; try discriminate;
    unfold rule_2_line, rule_3_line, rule_5_line, rule_8_line, rule_9_line,
      rule_10_line;
    split; try apply Forall_app; try split;
    match goal with
    | |- context [if ?c then _ else _] => destruct c
    end; repeat constructor.
Qed.

Lemma rule_10_exact (self : NASAComplianceChecker) :
  _check_rule_10_multiple_assignments self
  = Ok (extend (flat_map rule_10_line (Py.enumerate 1 (code_lines self))) self).
Proof.
  unfold _check_rule_10_multiple_assignments, lines_loop. apply for_each_extend.
  intros [i line] s. cbn [fst snd]. unfold rule_10_line, multiple_equals.
  cbn [fst snd]. rewrite when_extend. reflexivity.
Qed.

Lemma rule_10_line_ids (il : nat * string) :
  Forall (fun v => rule_id v = "rule_10") (rule_10_line il).
Proof.
  unfold rule_10_line. destruct (multiple_equals (snd il)); repeat constructor.
Qed.

Lemma rule_10_ok (self : NASAComplianceChecker) :
  exists self', _check_rule_10_multiple_assignments self = Ok self'
                /\ grows "rule_10" self self'.
Proof.
  eexists. split; [apply rule_10_exact|]. apply grows_extend.
  apply Forall_flat_map. apply rule_10_line_ids.
Qed.

Lemma naming_ok (self : NASAComplianceChecker) :
  exists self', _check_naming_conventions self = Ok self'
                /\ grows "style_naming" self self'.
Proof.
  unfold _check_naming_conventions, lines_loop.
  apply for_each_inv; [apply grows_refl|].
  intros [i line] s _ HP. simpl.
  destruct (Re.search Pat.short_name line) as [m|] eqn:E; [|step_done].
  pose proof (search_binds _ _ 2 _ E eq_refl) as Hg.
  destruct (Re.group 2 (Re.m_groups m)); [|contradiction].
  step_done.
Qed.

Lemma function_length_ok (self : NASAComplianceChecker) :
  exists self', _check_function_length self = Ok self'
                /\ grows "style_function_length" self self'.
Proof.
  unfold _check_function_length.
  loop_with (scan_inv "style_function_length" self).
  - split; [apply grows_refl | discriminate].
  - intros [i line] [s loc] Hin [HP Hfs]. simpl in *.
    apply enumerate_lines_range in Hin.
    destruct (Re.is_some (Re.rmatch Pat.function_start line)).
    { eexists; split; [reflexivity|]. split; simpl; auto. }
    set (loc' := if in_function loc then _ else loc).
    assert (Hin' : in_function loc' = in_function loc)
      by (unfold loc'; destruct (in_function loc) eqn:F; simpl; auto).
    assert (Hfs' : function_start loc' = function_start loc)
      by (unfold loc'; destruct (in_function loc); reflexivity).
    destruct (is_closing_brace line && in_function loc') eqn:C.
    + apply andb_true_iff in C. destruct C as [_ C]. rewrite Hin' in C.
      destruct (50 <? counter loc').
      * destruct HP as [HL HO]. rewrite HL, Hfs'.
        destruct (index_pred_ok (code_lines self) (function_start loc)
                    (Hfs C)) as [first E1].
        rewrite E1. simpl. eexists; split; [reflexivity|].
        split; simpl; [|discriminate].
        eapply grows_trans; [split; eauto|]. apply grows_append. reflexivity.
      * simpl. eexists; split; [reflexivity|]. split; simpl; [auto|discriminate].
    + eexists; split; [reflexivity|]. split; simpl; [auto|].
      rewrite Hin', Hfs'. exact Hfs.
  - destruct G as [G _]. eauto.
Qed.

Lemma comment_above_ok (lines : list string) (i : nat) :
  i <= List.length lines -> exists b, comment_above lines i = Ok b.
Proof.
  intros Hi. unfold comment_above.
  destruct (for_each_inv (fun _ : bool => True)
              (fun (j : nat) (has_comment : bool) =>
                 l <- Py.index lines (Z.of_nat j) ;;
                 if Py.startswith (Py.strip l) "//"
                    || Py.startswith (Py.strip l) "/*"
                 then Ok (true, Break)
                 else Ok (has_comment, Next))
              (Py.range (Nat.max 0 (i - 3)) i) false) as [b [E _]];
    [exact I| |eauto].
  intros j b Hj _. apply range_In in Hj.
  destruct (index_ok lines j) as [l El]; [lia|]. rewrite El. cbn [bind].
  destruct (Py.startswith (Py.strip l) "//" || Py.startswith (Py.strip l) "/*");
    eauto.
Qed.

Lemma comment_coverage_ok (self : NASAComplianceChecker) :
  exists self', _check_comment_coverage self = Ok self'
                /\ grows "style_comments" self self'.
Proof.
  unfold _check_comment_coverage, lines_loop.
  apply for_each_inv; [apply grows_refl|].
  intros [i line] s Hin HP. simpl.
  apply enumerate_lines_range in Hin.
  destruct (Re.is_some (Re.rmatch Pat.signature line)); [|step_done].
  destruct (comment_above_ok (code_lines s) i) as [b E].
  { destruct HP as [HL _]. rewrite HL. lia. }
  rewrite E. simpl. step_done.
Qed.

Lemma error_handling_below_ok (lines : list string) (i : nat) :
  exists b, error_handling_below lines i = Ok b.
Proof.
  unfold error_handling_below.
  destruct (for_each_inv (fun _ : bool => True)
              (fun (j : nat) (has_error_handling : bool) =>
                 l <- Py.index lines (Z.of_nat j) ;;
                 if Py.contains "error" (Py.lower l) || Py.contains "return" l
                 then Ok (true, Break)
                 else Ok (has_error_handling, Next))
              (Py.range i (Nat.min (i + 20) (List.length lines))) false)
    as [b [E _]]; [exact I| |eauto].
  intros j b Hj _. apply range_In in Hj.
  destruct (index_ok lines j) as [l El]; [lia|]. rewrite El. cbn [bind].
  destruct (Py.contains "error" (Py.lower l) || Py.contains "return" l); eauto.
Qed.

Lemma error_handling_ok (self : NASAComplianceChecker) :
  exists self', _check_error_handling self = Ok self'
                /\ grows "style_error_handling" self self'.
Proof.
  unfold _check_error_handling, lines_loop.
  apply for_each_inv; [apply grows_refl|].
  intros [i line] s _ HP. simpl.
  destruct (Re.is_some (Re.rmatch Pat.void_signature line)); [|step_done].
  destruct (error_handling_below_ok (code_lines s) i) as [b E].
  rewrite E. simpl. step_done.
Qed.

Lemma type_safety_ok (self : NASAComplianceChecker) :
  exists self', _check_type_safety self = Ok self'
                /\ grows "style_type_safety" self self'.
Proof.
  unfold _check_type_safety, lines_loop.
  apply for_each_inv; [apply grows_refl|].
  intros [i line] s _ HP. simpl. step_done.
Qed.

(** ** The engine as a whole *)

Lemma grows_is_extend (id : string) (self self' : NASAComplianceChecker) :
  grows id self self' ->
  exists out, self' = extend out self
              /\ Forall (fun v => rule_id v = id) out.
Proof.
  intros [HL [out [HV HF]]]. exists out. split; [|exact HF].
  destruct self' as [vs ls]. unfold extend. simpl in *. now subst.
Qed.

Ltac run_rule L :=
  match goal with
  | |- context [bind (?R ?s) _] =>
      let s' := fresh "s" in
      let E := fresh "E" in
      let G := fresh "G" in
      let o := fresh "o" in
      let F := fresh "F" in
      destruct (L s) as [s' [E G]]; rewrite E; cbn [bind];
      apply grows_is_extend in G; destruct G as [o [G F]]; subst s';
      rewrite ?extend_extend
  end.

Lemma code_lines_extend (out : list Violation) (self : NASAComplianceChecker) :
  code_lines (extend out self) = code_lines self.
Proof. reflexivity. Qed.

(** The rules run to the end; what they append is one segment per rule,
    in the order of the rules, and the segment of a line-by-line rule is
    what its loop body gives line by line. *)
Lemma run_rules_spec (self : NASAComplianceChecker) :
  exists segs,
    run_rules self = Ok (extend (List.concat segs) self)
    /\ Forall2 (fun id seg => Forall (fun v => rule_id v = id) seg)
               rule_order segs
    /\ nth 1 segs [] = flat_map rule_2_line (Py.enumerate 1 (code_lines self))
    /\ nth 2 segs [] = flat_map rule_3_line (Py.enumerate 1 (code_lines self))
    /\ nth 4 segs [] = flat_map rule_5_line (Py.enumerate 1 (code_lines self))
    /\ nth 7 segs [] = flat_map rule_8_line (Py.enumerate 1 (code_lines self))
    /\ nth 8 segs [] = flat_map rule_9_line (Py.enumerate 1 (code_lines self))
    /\ nth 9 segs [] = flat_map rule_10_line (Py.enumerate 1 (code_lines self)).
Proof.
  unfold run_rules.
  run_rule rule_1_ok.
  rewrite rule_2_exact. cbn [bind]. rewrite extend_extend, code_lines_extend.
  rewrite rule_3_exact. cbn [bind]. rewrite extend_extend, code_lines_extend.
  run_rule rule_4_ok.
  rewrite rule_5_exact. cbn [bind]. rewrite extend_extend, code_lines_extend.
  run_rule rule_6_ok. run_rule rule_7_ok.
  rewrite rule_8_exact. cbn [bind]. rewrite extend_extend, code_lines_extend.
  rewrite rule_9_exact. cbn [bind]. rewrite extend_extend, code_lines_extend.
  rewrite rule_10_exact. cbn [bind]. rewrite extend_extend, code_lines_extend.
  run_rule naming_ok. run_rule function_length_ok.
  run_rule comment_coverage_ok. run_rule error_handling_ok.
  match goal with
  | |- context [_check_type_safety ?s] =>
      destruct (type_safety_ok s) as [sT [ET GT]]
  end.
  rewrite ET. apply grows_is_extend in GT. destruct GT as [o11 [GT F11]].
  subst sT. rewrite extend_extend.
  set (L := fun f : nat * string -> list Violation =>
              flat_map f (Py.enumerate 1 (code_lines self))).
  exists [o; L rule_2_line; L rule_3_line; o0; L rule_5_line; o1; o2;
          L rule_8_line; L rule_9_line; L rule_10_line; o3; o4; o5; o6; o11].
  split.
  { f_equal. f_equal. cbn [List.concat]. rewrite app_nil_r.
    repeat rewrite <- app_assoc. reflexivity. }
  split; [|repeat split; reflexivity].
  repeat constructor; auto; unfold L; apply Forall_flat_map; intros il;
    match goal with
    | |- Forall (fun v => rule_id v = ?id) _ =>
        apply (proj1 (line_local_shape id _ il eq_refl))
    end.
Qed.

(** ** Selecting violations by rule and by line *)

Lemma with_rule_app (id : string) (a b : list Violation) :
  with_rule id (a ++ b) = with_rule id a ++ with_rule id b.
Proof. apply filter_app. Qed.

Lemma with_rule_all (id : string) (l : list Violation) :
  Forall (fun v => rule_id v = id) l -> with_rule id l = l.
Proof.
  induction 1 as [|v l Hv _ IH]; simpl; [reflexivity|].
  rewrite Hv, String.eqb_refl. now rewrite IH.
Qed.

Lemma with_rule_none (id id' : string) (l : list Violation) :
  String.eqb id' id = false ->
  Forall (fun v => rule_id v = id') l -> with_rule id l = [].
Proof.
  intros Hne. induction 1 as [|v l Hv _ IH]; simpl; [reflexivity|].
  now rewrite Hv, Hne.
Qed.

Lemma filters_commute {A : Type} (p q : A -> bool) (l : list A) :
  filter p (filter q l) = filter q (filter p l).
Proof.
  induction l as [|a l IH]; simpl; [reflexivity|].
  destruct (p a) eqn:P, (q a) eqn:Q; simpl; rewrite ?P, ?Q, IH; reflexivity.
Qed.

Ltac split_segments :=
  repeat match goal with
         | H : Forall2 _ (_ :: _) _ |- _ => inversion H; clear H; subst
         | H : Forall2 _ [] _ |- _ => inversion H; clear H; subst
         end.

Ltac pick_segment :=
  cbn [List.concat nth]; repeat rewrite with_rule_app;
  repeat match goal with
         | H : Forall (fun v => rule_id v = ?id') ?o
           |- context [with_rule ?id ?o] =>
             first [ rewrite (with_rule_none id id' o eq_refl H)
                   | rewrite (with_rule_all id o H) ]
         end;
  cbn [with_rule filter app]; rewrite ?app_nil_r; reflexivity.

Lemma segments_line_local (segs : list (list Violation)) :
  Forall2 (fun id seg => Forall (fun v => rule_id v = id) seg) rule_order segs ->
  with_rule "rule_2" (List.concat segs) = nth 1 segs []
  /\ with_rule "rule_3" (List.concat segs) = nth 2 segs []
  /\ with_rule "rule_5" (List.concat segs) = nth 4 segs []
  /\ with_rule "rule_8" (List.concat segs) = nth 7 segs []
  /\ with_rule "rule_9" (List.concat segs) = nth 8 segs []
  /\ with_rule "rule_10" (List.concat segs) = nth 9 segs [].
Proof.
  unfold rule_order. intros H. split_segments. repeat split; pick_segment.
Qed.

Lemma on_line_app (m : nat) (a b : list Violation) :
  on_line m (a ++ b) = on_line m a ++ on_line m b.
Proof. apply filter_app. Qed.

Lemma on_line_early (f : nat * string -> list Violation) (l : list string)
      (start m : nat) :
  (forall il, Forall (fun v => line_number v = fst il) (f il)) ->
  m < start -> on_line m (flat_map f (Py.enumerate start l)) = [].
Proof.
  intros Hf. revert start. induction l as [|a l IH]; intros start Hm; simpl.
  - reflexivity.
  - unfold on_line in *. rewrite filter_app, IH by lia. rewrite app_nil_r.
    specialize (Hf (start, a)). simpl in Hf.
    induction Hf as [|v vs Hv _ IHv]; simpl; [reflexivity|].
    rewrite Hv. destruct (start =? m) eqn:E; [apply Nat.eqb_eq in E; lia|].
    exact IHv.
Qed.

Lemma on_line_same (f : nat * string -> list Violation) (i : nat) (a : string) :
  (forall il, Forall (fun v => line_number v = fst il) (f il)) ->
  on_line i (f (i, a)) = f (i, a).
Proof.
  intros Hf. specialize (Hf (i, a)). simpl in Hf. unfold on_line.
  induction Hf as [|v vs Hv _ IHv]; simpl; [reflexivity|].
  now rewrite Hv, Nat.eqb_refl, IHv.
Qed.

Lemma on_line_other (f : nat * string -> list Violation) (i m : nat)
      (a : string) :
  (forall il, Forall (fun v => line_number v = fst il) (f il)) ->
  i <> m -> on_line m (f (i, a)) = [].
Proof.
  intros Hf Hne. specialize (Hf (i, a)). simpl in Hf. unfold on_line.
  induction Hf as [|v vs Hv _ IHv]; simpl; [reflexivity|].
  rewrite Hv. destruct (i =? m) eqn:E; [apply Nat.eqb_eq in E; lia|].
  exact IHv.
Qed.

(** Among the violations a line-by-line rule appends, those of line
    [start + n] are what its body gives for that line. *)
Lemma on_line_flat_map (f : nat * string -> list Violation) (l : list string)
      (start n : nat) (a : string) :
  (forall il, Forall (fun v => line_number v = fst il) (f il)) ->
  nth_error l n = Some a ->
  on_line (start + n) (flat_map f (Py.enumerate start l)) = f (start + n, a).
Proof.
  intros Hf. revert start n. induction l as [|b l IH]; intros start n Hn.
  - destruct n; discriminate.
  - cbn [Py.enumerate flat_map]. rewrite on_line_app.
    destruct n as [|n]; simpl in Hn.
    + inversion Hn; subst. rewrite Nat.add_0_r.
      rewrite on_line_same by exact Hf.
      rewrite on_line_early by (auto; lia). apply app_nil_r.
    + rewrite on_line_other by (auto; lia). simpl.
      replace (start + S n) with (S start + n) by lia. now apply IH.
Qed.

(** The checker on a source text: it ends normally, its output is one
    segment per rule, and its violations of a line-by-line rule for a line
    are those of the rule's loop body on that line. *)
Lemma check_code_spec (code : string) :
  exists vs self segs,
    check_code code = Ok (vs, self)
    /\ violations self = vs
    /\ code_lines self = Py.split newline code
    /\ vs = List.concat segs
    /\ Forall2 (fun id seg => Forall (fun v => rule_id v = id) seg)
               rule_order segs
    /\ (forall n line id f,
          nth_error (Py.split newline code) n = Some line ->
          line_local id = Some f ->
          with_rule id (on_line (S n) vs) = f (S n, line)).
Proof.
  unfold check_code, check_all_rules.
  destruct (run_rules_spec (reset (load_code code init)))
    as [segs [E [HF [H2 [H3 [H5 [H8 [H9 H10]]]]]]]].
  rewrite E. cbn [bind]. exists (List.concat segs). eexists. exists segs.
  split; [reflexivity|]. split; [reflexivity|]. split; [reflexivity|].
  split; [reflexivity|]. split; [exact HF|].
  intros n line id f Hn Hf. unfold with_rule, on_line.
  rewrite (filters_commute _ (fun v => line_number v =? S n)).
  fold (with_rule id (List.concat segs)).
  fold (on_line (S n) (with_rule id (List.concat segs))).
  destruct (segments_line_local _ HF) as [S2 [S3 [S5 [S8 [S9 S10]]]]].
  assert (Hshape := fun il => proj2 (line_local_shape id f il Hf)).
  cbn [code_lines reset load_code] in *.
  unfold line_local in Hf.
  repeat match type of Hf with
         | (if String.eqb ?a ?b then _ else _) = _ =>
             let E := fresh "E" in
             destruct (String.eqb a b) eqn:E;
             [apply String.eqb_eq in E; subst id; inversion Hf; subst f;
              clear Hf|]
         end; try discriminate;
    rewrite ?S2, ?S3, ?S5, ?S8, ?S9, ?S10, ?H2, ?H3, ?H5, ?H8, ?H9, ?H10;
    apply (on_line_flat_map _ _ 1 n line Hshape Hn).
Qed.

(** ** Rule 10 *)

(** C10. Rule 10 counts the [=] characters of a line whatever operator
    they belong to: for a line of the source with more than one [=] and
    without [==], the checker reports exactly one rule 10 violation for
    that line (Multiple Assignments, minor). *)
Theorem rule_10_counts_equals_signs (code : string) (n : nat) (line : string) :
  nth_error (Py.split newline code) n = Some line ->
  1 < Py.count_char "=" line ->
  Py.contains "==" line = false ->
  exists vs self,
    check_code code = Ok (vs, self)
    /\ with_rule "rule_10" (on_line (S n) vs) = [multiple_violation (S n) line]
    /\ rule_name (multiple_violation (S n) line) = "Multiple Assignments"
    /\ severity (multiple_violation (S n) line) = MINOR.
Proof.
  intros Hn Hc He.
  destruct (check_code_spec code) as [vs [self [segs [E [_ [_ [_ [_ H]]]]]]]].
  exists vs, self. split; [exact E|]. split; [|split; reflexivity].
  rewrite (H n line "rule_10" rule_10_line Hn eq_refl).
  unfold rule_10_line, multiple_equals. cbn [fst snd].
  apply Nat.ltb_lt in Hc. now rewrite Hc, He.
Qed.

Lemma rule_10_counts_equals_signs_witness :
  exists vs self,
    check_code not_equal_sample = Ok (vs, self)
    /\ with_rule "rule_10" (on_line 1 vs)
       = [multiple_violation 1 not_equal_sample]
    /\ rule_name (multiple_violation 1 not_equal_sample) = "Multiple Assignments"
    /\ severity (multiple_violation 1 not_equal_sample) = MINOR.
Proof.
  apply (rule_10_counts_equals_signs not_equal_sample 0 not_equal_sample).
  - reflexivity.
  - vm_compute. lia.
  - reflexivity.
Defined.

(** ** Rule 2 *)

Lemma startswith_split (s p : string) :
  Py.startswith s p = true -> exists t, s = (p ++ t)%string.
Proof.
  revert s. induction p as [|a p IH]; intros s H; simpl in H.
  - now exists s.
  - destruct s as [|b s]; [discriminate|].
    apply andb_true_iff in H. destruct H as [Hab Hp].
    apply Ascii.eqb_eq in Hab. subst b.
    destruct (IH s Hp) as [t ->]. now exists t.
Qed.

Lemma startswith_prefix (p q t : string) :
  Py.startswith (p ++ q ++ t) p = true.
Proof.
  induction p as [|a p IH]; simpl; [reflexivity|].
  now rewrite Ascii.eqb_refl, IH.
Qed.

Lemma contains_lstrip (sub s : string) :
  Py.contains sub (Py.lstrip s) = true -> Py.contains sub s = true.
Proof.
  induction s as [|c s IH]; intros H; [exact H|].
  simpl in H. destruct (Py.isspace c).
  - simpl. rewrite (IH H). apply orb_true_r.
  - exact H.
Qed.

Lemma contains_of_startswith (sub s : string) :
  Py.startswith s sub = true -> Py.contains sub s = true.
Proof. intros H. destruct s; simpl; rewrite H; reflexivity. Qed.

(** The greedy run of white space ends in a match as soon as the rest of
    the pattern matches at the first character that is not white space. *)
Lemma star_isspace_lstrip {R : Type} (k : Re.cont R) (s : string)
      (cs : Re.captures) :
  (forall prev, Re.is_some (k prev (Py.lstrip s) cs) = true) ->
  forall prev, Re.is_some (Re.star Py.isspace k prev s cs) = true.
Proof.
  induction s as [|c s IH]; intros Hk prev; simpl in *.
  - apply Hk.
  - destruct (Py.isspace c).
    + specialize (IH Hk (Some c)).
      destruct (Re.star Py.isspace k (Some c) s cs); [reflexivity|discriminate].
    + apply Hk.
Qed.

Lemma while_paren_matches (line : string) :
  starts_with_while_paren line = true ->
  Re.is_some (Re.rmatch Pat.while_open line) = true.
Proof.
  unfold starts_with_while_paren. intros H.
  destruct (startswith_split _ _ H) as [t Ht].
  unfold Re.rmatch, Re.match_at, Pat.while_open, Pat.ws.
  cbn [Re.seqs Re.run]. apply star_isspace_lstrip.
  intros prev. rewrite Ht. reflexivity.
Qed.

Lemma while_paren_contains (line : string) :
  starts_with_while_paren line = true -> Py.contains "while" line = true.
Proof.
  unfold starts_with_while_paren. intros H. apply contains_lstrip.
  apply contains_of_startswith.
  destruct (startswith_split _ _ H) as [t ->].
  apply (startswith_prefix "while" " (" t).
Qed.

(** C9. A line that starts, after optional white space, with [while (],
    has none of [MAX_], [count], [size], [length] and has [true], [1] or
    [!0] anywhere, gets exactly two rule 2 violations: the loop without a
    clear upper bound, then the potential infinite loop. *)
Theorem while_line_reported_twice (code : string) (n : nat) (line : string) :
  nth_error (Py.split newline code) n = Some line ->
  starts_with_while_paren line = true ->
  Py.any_in bound_patterns line = false ->
  Py.any_in infinite_patterns line = true ->
  exists vs self,
    check_code code = Ok (vs, self)
    /\ with_rule "rule_2" (on_line (S n) vs)
       = [unbounded_violation (S n) line; infinite_violation (S n) line]
    /\ description (unbounded_violation (S n) line)
       = "Loop without clear upper bound detected"
    /\ description (infinite_violation (S n) line)
       = "Potential infinite loop detected".
Proof.
  intros Hn Hw Hb Hi.
  destruct (check_code_spec code) as [vs [self [segs [E [_ [_ [_ [_ H]]]]]]]].
  exists vs, self. split; [exact E|]. split; [|split; reflexivity].
  rewrite (H n line "rule_2" rule_2_line Hn eq_refl).
  unfold rule_2_line, while_unbounded, while_infinite. cbn [fst snd].
  now rewrite (while_paren_matches _ Hw), (while_paren_contains _ Hw), Hb, Hi.
Qed.

Lemma while_line_reported_twice_witness :
  exists vs self,
    check_code while_one_sample = Ok (vs, self)
    /\ with_rule "rule_2" (on_line 1 vs)
       = [unbounded_violation 1 while_one_sample;
          infinite_violation 1 while_one_sample]
    /\ description (unbounded_violation 1 while_one_sample)
       = "Loop without clear upper bound detected"
    /\ description (infinite_violation 1 while_one_sample)
       = "Potential infinite loop detected".
Proof.
  apply (while_line_reported_twice while_one_sample 0 while_one_sample);
    reflexivity.
Defined.

Lemma rule_2_line_shape (il : nat * string) :
  Forall (fun v => rule_name v = "Fixed Loop Bounds" /\ severity v = MAJOR)
         (rule_2_line il).
Proof.
  unfold rule_2_line. apply Forall_app.
  split; match goal with |- context [if ?c then _ else _] => destruct c end;
    repeat constructor.
Qed.

(** X24. Rule 2 as the code has it: the checker reports a rule 2 violation
    (Fixed Loop Bounds, major) for a line exactly when the line matches
    [while (] at its start and has none of [MAX_], [count], [size],
    [length], or the line contains [while] and contains [true], [1] or
    [!0] anywhere, inside the condition or not. *)
Theorem rule_2_reported_exactly_when (code : string) (n : nat) (line : string) :
  nth_error (Py.split newline code) n = Some line ->
  exists vs self,
    check_code code = Ok (vs, self)
    /\ (with_rule "rule_2" (on_line (S n) vs) <> []
        <-> while_unbounded line || while_infinite line = true)
    /\ Forall (fun v => rule_name v = "Fixed Loop Bounds" /\ severity v = MAJOR)
              (with_rule "rule_2" (on_line (S n) vs)).
Proof.
  intros Hn.
  destruct (check_code_spec code) as [vs [self [segs [E [_ [_ [_ [_ H]]]]]]]].
  exists vs, self. split; [exact E|].
  rewrite (H n line "rule_2" rule_2_line Hn eq_refl). split.
  - unfold rule_2_line. cbn [fst snd].
    destruct (while_unbounded line), (while_infinite line); simpl;
      split; intros; try discriminate; try reflexivity; congruence.
  - apply rule_2_line_shape.
Qed.

Lemma rule_2_reported_exactly_when_witness :
  exists vs self,
    check_code while_one_sample = Ok (vs, self)
    /\ (with_rule "rule_2" (on_line 1 vs) <> []
        <-> while_unbounded while_one_sample
            || while_infinite while_one_sample = true)
    /\ Forall (fun v => rule_name v = "Fixed Loop Bounds" /\ severity v = MAJOR)
              (with_rule "rule_2" (on_line 1 vs)).
Proof.
  apply (rule_2_reported_exactly_when while_one_sample 0 while_one_sample).
  reflexivity.
Defined.

(** A bounded loop whose body holds a [1]: the condition [i < count] has
    none of [true], [1], [!0] and the line names [count], yet the checker
    reports a potential infinite loop for the line. *)
Lemma rule_2_condition_counterexample :
  exists vs self,
    check_code bounded_while_sample = Ok (vs, self)
    /\ with_rule "rule_2" (on_line 1 vs)
       = [infinite_violation 1 bounded_while_sample]
    /\ spec_rule_2_trigger bounded_while_sample = false
    /\ ~ (with_rule "rule_2" (on_line 1 vs) <> []
          <-> spec_rule_2_trigger bounded_while_sample = true).
Proof.
  eexists. eexists. split; [vm_compute; reflexivity|].
  split; [reflexivity|]. split; [reflexivity|].
  intros [H _]. assert (F : spec_rule_2_trigger bounded_while_sample = true).
  { apply H. discriminate. }
  discriminate F.
Qed.

(** C2, at a failing input.  The loop of [compliant_code], the program
    the repository's own test expects no violation for, is
    [while (counter < 10)]: the line names [count], and its condition is
    none of [true], [1] and [!0].  The checker looks for these three
    anywhere in the line, finds the [1] of [10], and reports a potential
    infinite loop for line 11; so the violation list of the program is
    not empty. *)
Lemma bounded_loop_reported_as_infinite :
  nth_error (Py.split newline compliant_code) 10 = Some counter_loop
  /\ Py.any_in bound_patterns counter_loop = true
  /\ spec_while_condition counter_loop = Some "counter < 10"
  /\ ~ In "counter < 10" infinite_patterns
  /\ exists vs self,
       check_code compliant_code = Ok (vs, self)
       /\ with_rule "rule_2" vs = [infinite_violation 11 counter_loop]
       /\ description (infinite_violation 11 counter_loop)
          = "Potential infinite loop detected"
       /\ severity (infinite_violation 11 counter_loop) = MAJOR
       /\ vs <> [].
Proof.
  split; [reflexivity|]. split; [reflexivity|]. split; [reflexivity|].
  split.
  { intros [H|[H|[H|[]]]]; discriminate H. }
  eexists. eexists. split; [vm_compute; reflexivity|].
  split; [reflexivity|]. split; [reflexivity|]. split; [reflexivity|].
  discriminate.
Qed.

(** ** Rule 1 *)

(** C3, at a failing input.  In [caller_sample] the function [f] of line
    1 is not called between its opening line and its closing brace, yet
    the checker reports a recursive call for line 1, because [f(] occurs
    on line 5, in the body of [g]. *)
Lemma recursion_reported_for_later_call :
  spec_calls_itself (Py.split newline caller_sample) 1 "f" = false
  /\ exists vs self,
       check_code caller_sample = Ok (vs, self)
       /\ In (recursion_violation 1 "int f(int a) {") vs.
Proof.
  split; [reflexivity|].
  eexists. eexists. split; [vm_compute; reflexivity|].
  left. reflexivity.
Qed.

(** ** The adapters *)

Ltac io_unfold :=
  cbv beta iota delta [run_tool iobind emit lift try_except run_process ret
                       throw Dict.item run_if_available].

Ltac trace_eq := repeat rewrite <- app_assoc; reflexivity.

(** Every parser appends to the trace, whatever the trace was, and gives
    a result that does not depend on it. *)
Lemma parse_cppcheck_events (out path : string) :
  exists r evs,
    (forall tr, _parse_cppcheck_xml out path tr = (r, tr ++ evs))
    /\ Forall (fun ev => own_event "cppcheck" ev = true) evs.
Proof.
  eexists. eexists. split.
  - intros tr. unfold _parse_cppcheck_xml. io_unfold. reflexivity.
  - repeat constructor.
Qed.

Lemma parse_splint_events (out path : string) :
  exists r evs,
    (forall tr, _parse_splint_output out path tr = (r, tr ++ evs))
    /\ Forall (fun ev => own_event "splint" ev = true) evs.
Proof.
  eexists. eexists. split.
  - intros tr. unfold _parse_splint_output. io_unfold. reflexivity.
  - repeat constructor.
Qed.

Lemma parse_flawfinder_events (out path : string) :
  exists r evs,
    (forall tr, _parse_flawfinder_html out path tr = (r, tr ++ evs))
    /\ Forall (fun ev => own_event "flawfinder" ev = true) evs.
Proof.
  eexists. eexists. split.
  - intros tr. unfold _parse_flawfinder_html. io_unfold. reflexivity.
  - repeat constructor.
Qed.

Lemma parse_clang_tidy_events (json_loads : string -> exc pyval) (out path : string) :
  exists r evs,
    (forall tr,
        _parse_clang_tidy_json json_loads out path tr = (r, tr ++ evs))
    /\ Forall (fun ev => own_event "clang_tidy" ev = true) evs.
Proof.
  unfold _parse_clang_tidy_json.
  destruct (clang_tidy_try json_loads out path) as [results [e|]];
    [destruct e|];
    (eexists; eexists; split;
     [intros tr; io_unfold; trace_eq | repeat constructor]).
Qed.

(** The common shape of the adapters: a list is returned on every outcome,
    and the trace grows by events of the tool only. *)
Lemma run_tool_spec
      (subprocess_run : list string -> nat -> exc CompletedProcess)
      (self : StaticAnalysisIntegrator) (method key name : string)
      (cmd : list string) (accepted : Z -> bool)
      (parse : string -> string -> io (list StaticAnalysisResult))
      (path : string) (avail : bool) :
  Dict.get (tools self) key = Some avail ->
  own_event key (Call method) = true ->
  head_is (tool_binary key) cmd = true ->
  (forall out, exists r evs,
      (forall tr, parse out path tr = (r, tr ++ evs))
      /\ Forall (fun ev => own_event key ev = true) evs) ->
  exists results evs,
    (forall tr,
        run_tool subprocess_run self method key name cmd accepted parse path tr
        = (Ok results, tr ++ evs))
    /\ Forall (fun ev => own_event key ev = true) evs.
Proof.
  intros H Hm Hc Hparse.
  destruct avail.
  2:{ eexists. eexists. split.
      - intros tr. io_unfold. rewrite H. cbn [negb]. trace_eq.
      - repeat constructor. exact Hm. }
  destruct (subprocess_run cmd 60) as [[rc out]|e] eqn:W.
  - destruct (accepted rc) eqn:A.
    + destruct (Hparse out) as [r [pevs [Hp Fp]]].
      destruct r as [l|e]; [|destruct e];
        (eexists; eexists; split;
         [ intros tr; io_unfold; rewrite H; cbn [negb]; rewrite W;
           cbn [returncode stdout]; rewrite A, Hp; trace_eq
         | repeat first [ apply Forall_app; split | assumption
                        | constructor; try assumption ] ]).
    + eexists. eexists. split.
      * intros tr. io_unfold. rewrite H. cbn [negb]. rewrite W.
        cbn [returncode]. rewrite A. trace_eq.
      * repeat constructor; assumption.
  - destruct e;
      (eexists; eexists; split;
       [ intros tr; io_unfold; rewrite H; cbn [negb]; rewrite W; trace_eq
       | repeat constructor; assumption ]).
Qed.

Section Adapters.

Variable subprocess_run : list string -> nat -> exc CompletedProcess.
Variable json_loads : string -> exc pyval.
Variable self : StaticAnalysisIntegrator.
Variable path : string.

Lemma run_of_key_spec (key : string) (avail : bool) :
  In key the_keys ->
  Dict.get (tools self) key = Some avail ->
  exists results evs,
    (forall tr, run_of_key subprocess_run json_loads key self path tr
                = (Ok results, tr ++ evs))
    /\ Forall (fun ev => own_event key ev = true) evs.
Proof.
  intros Hk H. unfold the_keys in Hk. simpl in Hk.
  destruct Hk as [<-|[<-|[<-|[<-|[]]]]]; cbn [run_of_key String.eqb Ascii.eqb
                                                  Bool.eqb];
    [ unfold run_cppcheck | unfold run_clang_tidy | unfold run_splint
    | unfold run_flawfinder ];
    (eapply run_tool_spec; [exact H | reflexivity | reflexivity |]).
  - intros out. apply parse_cppcheck_events.
  - intros out. apply parse_clang_tidy_events.
  - intros out. apply parse_splint_events.
  - intros out. apply parse_flawfinder_events.
Qed.

(** An adapter run on its own returns the list it returns in a run of
    all tools. *)
Lemma adapter_value_spec (key : string) (avail : bool)
      (results : list StaticAnalysisResult) (evs tr : trace) :
  run_of_key subprocess_run json_loads key self path tr
  = (Ok results, evs) ->
  In key the_keys -> Dict.get (tools self) key = Some avail ->
  adapter_value subprocess_run json_loads key self path = results.
Proof.
  intros E Hk H. destruct (run_of_key_spec key avail Hk H) as [r [ev [Hr _]]].
  unfold adapter_value. rewrite Hr. rewrite Hr in E. now inversion E.
Qed.

(** One step of [run_all_tools]. *)
Lemma run_if_available_spec (key : string) (avail : bool)
      (results : results_dict) :
  In key the_keys ->
  Dict.get (tools self) key = Some avail ->
  exists evs,
    (forall tr,
        run_if_available self key (run_of_key subprocess_run json_loads key)
                         path results tr
        = (Ok (if avail
               then Dict.set results key
                      (adapter_value subprocess_run json_loads key self path)
               else results),
           tr ++ evs))
    /\ Forall (fun ev => own_event key ev = true) evs
    /\ (avail = false -> evs = []).
Proof.
  intros Hk H. destruct avail.
  - destruct (run_of_key_spec key true Hk H) as [r [evs [Hr F]]].
    exists evs. split; [|split; [exact F|discriminate]].
    intros tr. io_unfold. rewrite H, Hr.
    now rewrite (adapter_value_spec key true r _ tr (Hr tr) Hk H).
  - exists []. split; [|split; [constructor|reflexivity]].
    intros tr. io_unfold. rewrite H. now rewrite app_nil_r.
Qed.

End Adapters.

(** The probe: its value is decided by the answer to the version check,
    and a missing binary or a timeout gives [False]. *)
Lemma version_check_spec
      (subprocess_run : list string -> nat -> exc CompletedProcess)
      (binary : string) (tr : trace) :
  version_check subprocess_run binary tr
  = (probe_value subprocess_run binary,
     tr ++ [Launch [binary; "--version"] 5]).
Proof.
  unfold version_check, probe_value. io_unfold.
  destruct (subprocess_run [binary; "--version"] 5) as [r|e];
    [|destruct e]; reflexivity.
Qed.

(** The integrator [__init__] builds has the four keys, each with the
    value of its probe. *)
Lemma init_spec
      (subprocess_run : list string -> nat -> exc CompletedProcess)
      (cfg : pyval) (tr0 tr1 : trace) (self : StaticAnalysisIntegrator) :
  __init__ subprocess_run cfg tr0 = (Ok self, tr1) ->
  exists a b c d,
    probe_value subprocess_run "cppcheck" = Ok a
    /\ probe_value subprocess_run "clang-tidy" = Ok b
    /\ probe_value subprocess_run "splint" = Ok c
    /\ probe_value subprocess_run "flawfinder" = Ok d
    /\ tools self = [("cppcheck", a); ("clang_tidy", b); ("splint", c);
                     ("flawfinder", d)].
Proof.
  unfold __init__, _check_cppcheck_available, _check_clang_tidy_available,
    _check_splint_available, _check_flawfinder_available.
  io_unfold. rewrite version_check_spec.
  destruct (probe_value subprocess_run "cppcheck") as [a|]; [|discriminate].
  cbv beta iota. rewrite version_check_spec.
  destruct (probe_value subprocess_run "clang-tidy") as [b|]; [|discriminate].
  cbv beta iota. rewrite version_check_spec.
  destruct (probe_value subprocess_run "splint") as [c|]; [|discriminate].
  cbv beta iota. rewrite version_check_spec.
  destruct (probe_value subprocess_run "flawfinder") as [d|]; [|discriminate].
  intros H. inversion H; subst. exists a, b, c, d. repeat split; reflexivity.
Qed.

(** An event of one tool's adapter is not a use of another tool. *)
Lemma own_event_not_other (k1 k2 : string) (ev : event) :
  In k1 the_keys -> In k2 the_keys -> k1 <> k2 ->
  own_event k1 ev = true -> uses_tool k2 ev = false.
Proof.
  intros H1 H2 Hne Hown. unfold the_keys in *. simpl in H1, H2.
  destruct ev as [cmd t|m|l msg|l msg e]; try reflexivity.
  - destruct cmd as [|b cmd]; [discriminate|].
    destruct H1 as [<-|[<-|[<-|[<-|[]]]]];
      destruct H2 as [<-|[<-|[<-|[<-|[]]]]]; try congruence;
        cbn in Hown; apply String.eqb_eq in Hown; subst b; reflexivity.
  - destruct H1 as [<-|[<-|[<-|[<-|[]]]]];
      destruct H2 as [<-|[<-|[<-|[<-|[]]]]]; try congruence;
        cbn [own_event tool_methods String.eqb Ascii.eqb Bool.eqb existsb]
          in Hown;
        rewrite orb_false_r in Hown; apply orb_true_iff in Hown;
        destruct Hown as [Hown|Hown]; apply String.eqb_eq in Hown; subst m;
        reflexivity.
Qed.

(** [run_all_tools] on an integrator with the four keys: it returns a
    dictionary, the entry of a key is the list of its adapter when the
    tool is available and is absent otherwise, and every event of the run
    is the entry into [run_all_tools] or an event of an available tool's
    adapter. *)
Lemma run_all_tools_spec
      (subprocess_run : list string -> nat -> exc CompletedProcess)
        (json_loads : string -> exc pyval)
      (self : StaticAnalysisIntegrator) (path : string) (a b c d : bool) :
  tools self = [("cppcheck", a); ("clang_tidy", b); ("splint", c);
                ("flawfinder", d)] ->
  exists results evs,
    (forall tr, run_all_tools subprocess_run json_loads self path tr
                = (Ok results, tr ++ evs))
    /\ (forall key, In key the_keys ->
          Dict.get results key
          = if available self key
            then Some (adapter_value subprocess_run json_loads key self path)
            else None)
    /\ Forall (fun ev =>
                 ev = Call "run_all_tools"
                 \/ exists k, In k the_keys /\ available self k = true
                              /\ own_event k ev = true) evs.
Proof.
  intros Ht.
  assert (Ha : Dict.get (tools self) "cppcheck" = Some a) by now rewrite Ht.
  assert (Hb : Dict.get (tools self) "clang_tidy" = Some b) by now rewrite Ht.
  assert (Hc : Dict.get (tools self) "splint" = Some c) by now rewrite Ht.
  assert (Hd : Dict.get (tools self) "flawfinder" = Some d) by now rewrite Ht.
  assert (K1 : In "cppcheck" the_keys) by (simpl; auto).
  assert (K2 : In "clang_tidy" the_keys) by (simpl; auto).
  assert (K3 : In "splint" the_keys) by (simpl; auto 6).
  assert (K4 : In "flawfinder" the_keys) by (simpl; auto 6).
  destruct (run_if_available_spec subprocess_run json_loads self path _ _ [] K1 Ha)
    as [e1 [E1 [F1 N1]]].
  set (r1 := if a then Dict.set [] "cppcheck"
                         (adapter_value subprocess_run json_loads "cppcheck" self path)
             else []) in *.
  destruct (run_if_available_spec subprocess_run json_loads self path _ _ r1 K2 Hb)
    as [e2 [E2 [F2 N2]]].
  set (r2 := if b then Dict.set r1 "clang_tidy"
                         (adapter_value subprocess_run json_loads "clang_tidy" self path)
             else r1) in *.
  destruct (run_if_available_spec subprocess_run json_loads self path _ _ r2 K3 Hc)
    as [e3 [E3 [F3 N3]]].
  set (r3 := if c then Dict.set r2 "splint"
                         (adapter_value subprocess_run json_loads "splint" self path)
             else r2) in *.
  destruct (run_if_available_spec subprocess_run json_loads self path _ _ r3 K4 Hd)
    as [e4 [E4 [F4 N4]]].
  set (r4 := if d then Dict.set r3 "flawfinder"
                         (adapter_value subprocess_run json_loads "flawfinder" self path)
             else r3) in *.
  exists r4, ([Call "run_all_tools"] ++ e1 ++ e2 ++ e3 ++ e4).
  split; [|split].
  - intros tr. unfold run_all_tools. cbv beta iota delta [iobind emit].
    change (run_cppcheck subprocess_run)
      with (run_of_key subprocess_run json_loads "cppcheck").
    change (run_clang_tidy subprocess_run json_loads)
      with (run_of_key subprocess_run json_loads "clang_tidy").
    change (run_splint subprocess_run)
      with (run_of_key subprocess_run json_loads "splint").
    change (run_flawfinder subprocess_run)
      with (run_of_key subprocess_run json_loads "flawfinder").
    rewrite E1. cbv beta iota. fold r1. rewrite E2. cbv beta iota. fold r2.
    rewrite E3. cbv beta iota. fold r3. rewrite E4. fold r4.
    f_equal. trace_eq.
  - intros key Hk. unfold available. simpl in Hk.
    destruct Hk as [<-|[<-|[<-|[<-|[]]]]];
      rewrite ?Ha, ?Hb, ?Hc, ?Hd; unfold r4, r3, r2, r1;
      destruct a, b, c, d; reflexivity.
  - assert (Own : forall k av evs,
               In k the_keys -> Dict.get (tools self) k = Some av ->
               (av = false -> evs = []) ->
               Forall (fun ev => own_event k ev = true) evs ->
               Forall (fun ev =>
                         ev = Call "run_all_tools"
                         \/ exists k, In k the_keys /\ available self k = true
                                      /\ own_event k ev = true) evs).
    { intros k av evs Hk Hav Hn Hf. destruct av.
      - eapply Forall_impl; [|exact Hf]. intros ev Hev. right. exists k.
        unfold available. rewrite Hav. auto.
      - rewrite (Hn eq_refl). constructor. }
    apply Forall_app. split; [constructor; [now left|constructor]|].
    apply Forall_app. split; [exact (Own _ _ _ K1 Ha N1 F1)|].
    apply Forall_app. split; [exact (Own _ _ _ K2 Hb N2 F2)|].
    apply Forall_app. split; [exact (Own _ _ _ K3 Hc N3 F3)|].
    exact (Own _ _ _ K4 Hd N4 F4).
Qed.

(** ** The clang-tidy parser *)

Lemma clang_tidy_try_raises (json_loads : string -> exc pyval)
      (json_output path : string) (e : exn) :
  json_loads json_output = Raise e ->
  clang_tidy_try json_loads json_output path = ([], Some e).
Proof. intros H. unfold clang_tidy_try. now rewrite H. Qed.

(** When the parser raises on the output of the tool, the adapter logs
    the error and returns the empty list. *)
Lemma run_clang_tidy_absorbs
      (subprocess_run : list string -> nat -> exc CompletedProcess)
      (json_loads : string -> exc pyval)
      (self : StaticAnalysisIntegrator) (path json_output : string)
      (rc : Z) (tr : trace) :
  Dict.get (tools self) "clang_tidy" = Some true ->
  subprocess_run (clang_tidy_cmd path) 60
  = Ok {| returncode := rc; stdout := json_output |} ->
  raises (fst (_parse_clang_tidy_json json_loads json_output path []))
  = true ->
  fst (run_clang_tidy subprocess_run json_loads self path tr) = Ok [].
Proof.
  intros H Hrun Hraise.
  destruct (parse_clang_tidy_events json_loads json_output path)
    as [r [pevs [Hp _]]].
  rewrite Hp in Hraise. cbn [fst] in Hraise.
  unfold run_clang_tidy. io_unfold. rewrite H. cbn [negb].
  fold (clang_tidy_cmd path). rewrite Hrun. cbn [returncode stdout].
  destruct (zero_or_one rc); [|reflexivity].
  rewrite Hp. destruct r as [l|e]; [discriminate|]. destruct e; reflexivity.
Qed.




(** ** Unavailable tools *)

Lemma tool_binary_probe (a b c d : bool) (key : string)
      (subprocess_run : list string -> nat -> exc CompletedProcess) :
  In key the_keys ->
  probe_value subprocess_run "cppcheck" = Ok a ->
  probe_value subprocess_run "clang-tidy" = Ok b ->
  probe_value subprocess_run "splint" = Ok c ->
  probe_value subprocess_run "flawfinder" = Ok d ->
  exists v, probe_value subprocess_run (tool_binary key) = Ok v
            /\ Dict.get [("cppcheck", a); ("clang_tidy", b); ("splint", c);
                         ("flawfinder", d)] key = Some v.
Proof.
  intros Hk Ha Hb Hc Hd. simpl in Hk.
  destruct Hk as [<-|[<-|[<-|[<-|[]]]]]; cbn; eauto.
Qed.

(** C5. When the binary of a tool is absent (launching it raises
    [FileNotFoundError]) or its version check times out, the probe returns
    [False] and raises nothing; in the integrator so built the tool is
    unavailable, and [run_all_tools] returns its dictionary without
    raising, launches no process of that tool and enters neither its
    [run_*] method nor its parser, and leaves the tool without an entry,
    while each other tool has exactly the list its adapter returns when
    it is available. *)
Theorem unavailable_tool_is_skipped
        (subprocess_run : list string -> nat -> exc CompletedProcess)
        (json_loads : string -> exc pyval)
        (cfg : pyval) (path key : string) (tr0 tr1 : trace)
        (self : StaticAnalysisIntegrator) :
  In key the_keys ->
  subprocess_run [tool_binary key; "--version"] 5 = Raise FileNotFoundError
  \/ subprocess_run [tool_binary key; "--version"] 5 = Raise TimeoutExpired ->
  __init__ subprocess_run cfg tr0 = (Ok self, tr1) ->
  (forall tr,
      version_check subprocess_run (tool_binary key) tr
      = (Ok false, tr ++ [Launch [tool_binary key; "--version"] 5]))
  /\ Dict.get (tools self) key = Some false
  /\ exists results evs,
       run_all_tools subprocess_run json_loads self path tr1 = (Ok results, tr1 ++ evs)
       /\ Dict.get results key = None
       /\ Forall (fun ev => uses_tool key ev = false) evs
       /\ forall other, In other the_keys -> other <> key ->
            Dict.get results other
            = if available self other
              then Some (adapter_value subprocess_run json_loads other self path)
              else None.
Proof.
  intros Hk Hprobe Hinit.
  assert (Pv : probe_value subprocess_run (tool_binary key) = Ok false).
  { unfold probe_value. destruct Hprobe as [-> | ->]; reflexivity. }
  destruct (init_spec _ _ _ _ _ Hinit) as [a [b [c [d [Ha [Hb [Hc [Hd Ht]]]]]]]].
  destruct (tool_binary_probe a b c d key subprocess_run Hk Ha Hb Hc Hd)
    as [v [Hv Hg]].
  rewrite Pv in Hv. inversion Hv; subst v. rewrite <- Ht in Hg.
  assert (Hav : available self key = false) by (unfold available; now rewrite Hg).
  split; [|split; [exact Hg|]].
  - intros tr. rewrite version_check_spec. now rewrite Pv.
  - destruct (run_all_tools_spec subprocess_run json_loads self path a b c d Ht)
      as [results [evs [Hrun [Hget Hev]]]].
    exists results, evs. split; [apply Hrun|]. split; [|split].
    + rewrite (Hget key Hk). now rewrite Hav.
    + eapply Forall_impl; [|exact Hev]. intros ev [->|[k [Hin [Hk1 Hown]]]].
      * simpl in Hk. destruct Hk as [<-|[<-|[<-|[<-|[]]]]]; reflexivity.
      * apply (own_event_not_other k key ev Hin Hk); [|exact Hown].
        intros ->. congruence.
    + intros other Ho _. apply Hget. exact Ho.
Qed.

Lemma unavailable_tool_is_skipped_witness :
  (forall tr,
      version_check splint_only "cppcheck" tr
      = (Ok false, tr ++ [Launch ["cppcheck"; "--version"] 5]))
  /\ Dict.get (tools splint_only_integrator) "cppcheck" = Some false
  /\ exists results evs,
       run_all_tools splint_only sample_loads splint_only_integrator "a.c"
                     (snd (__init__ splint_only (PDict []) []))
       = (Ok results, snd (__init__ splint_only (PDict []) []) ++ evs)
       /\ Dict.get results "cppcheck" = None
       /\ Forall (fun ev => uses_tool "cppcheck" ev = false) evs
       /\ forall other, In other the_keys -> other <> "cppcheck" ->
            Dict.get results other
            = if available splint_only_integrator other
              then Some (adapter_value splint_only sample_loads other
                                       splint_only_integrator "a.c")
              else None.
Proof.
  apply (unavailable_tool_is_skipped splint_only sample_loads (PDict []) "a.c" "cppcheck" []
           (snd (__init__ splint_only (PDict []) [])) splint_only_integrator).
  - simpl. auto.
  - left. reflexivity.
  - reflexivity.
Defined.

(** * Further properties *)

(** ** Scoring *)

Lemma critical_penalty_bound (vs : list Violation) :
  (15 * Z.of_nat (count_severity CRITICAL vs) <= total_penalty vs)%Z.
Proof.
  unfold count_severity.
  induction vs as [|v vs IH]; [simpl; lia|].
  cbn [filter total_penalty fold_right]. fold (total_penalty vs).
  pose proof (penalty_nonneg (severity v)) as Hp.
  destruct (severity v) eqn:E; cbn [Severity_eqb List.length]; try lia.
  change (penalty CRITICAL) with 15%Z. lia.
Qed.

(** X1. Seven critical violations or more bring the score to 0, not
    below, and the level to [non_compliant]. *)
Theorem seven_criticals_clamp_to_zero (self : NASAComplianceChecker) :
  7 <= count_severity CRITICAL (violations self) ->
  calculate_compliance_score self = 0%Z
  /\ get_compliance_level self = "non_compliant".
Proof.
  intros H.
  assert (E : calculate_compliance_score self = 0%Z).
  { rewrite score_formula.
    pose proof (critical_penalty_bound (violations self)). lia. }
  split; [exact E|]. unfold get_compliance_level. now rewrite E.
Qed.

Lemma seven_criticals_clamp_to_zero_witness :
  calculate_compliance_score
    {| violations := seven_gotos; code_lines := [] |} = 0%Z
  /\ get_compliance_level
       {| violations := seven_gotos; code_lines := [] |} = "non_compliant".
Proof.
  apply (seven_criticals_clamp_to_zero
           {| violations := seven_gotos; code_lines := [] |}).
  vm_compute. lia.
Defined.

(** X2. The level is decided by the sum of the penalties: up to 10 the
    code is [fully_compliant], up to 20 it has [minor_issues], up to 30
    [moderate_issues], up to 40 [major_issues], and above 40 it is
    [non_compliant]. *)
Theorem level_is_decided_by_penalty_sum (self : NASAComplianceChecker) :
  get_compliance_level self
  = level_of_penalty (total_penalty (violations self)).
Proof.
  unfold get_compliance_level, level_of_penalty. rewrite score_formula.
  pose proof (total_penalty_nonneg (violations self)) as Hp.
  set (p := total_penalty (violations self)) in *.
  repeat match goal with
         | |- context [(?a >=? ?b)%Z] =>
             let E := fresh "E" in
             destruct (Z.geb_spec a b) as [E|E]
         | |- context [(?a <=? ?b)%Z] =>
             let E := fresh "E" in
             destruct (Z.leb_spec a b) as [E|E]
         end; try reflexivity; lia.
Qed.

Lemma total_penalty_app (a b : list Violation) :
  total_penalty (a ++ b) = (total_penalty a + total_penalty b)%Z.
Proof.
  induction a as [|v a IH]; simpl; [reflexivity|]. rewrite IH. lia.
Qed.

(** X3. One more violation lowers the score by its penalty, down to 0 at
    most: the score after [self.violations.append(v)] is
    [max(0, score - penalty)], so it never goes up. *)
Theorem one_more_violation_lowers_score (v : Violation)
        (self : NASAComplianceChecker) :
  calculate_compliance_score (append v self)
  = Z.max 0 (calculate_compliance_score self - penalty (severity v))
  /\ (calculate_compliance_score (append v self)
      <= calculate_compliance_score self)%Z.
Proof.
  rewrite !score_formula. unfold append. cbn [violations].
  rewrite total_penalty_app. cbn [total_penalty fold_right].
  pose proof (penalty_nonneg (severity v)).
  pose proof (total_penalty_nonneg (violations self)). lia.
Qed.

(** ** The rules do not read the violation list

    Each rule only appends: run on a checker that already holds
    violations, it does what it does on the same lines without them, and
    leaves the old violations in front. *)

Lemma for_each_shift {A S : Type} (sh : S -> S)
      (body : A -> S -> exc (S * flow)) (l : list A) :
  (forall a st,
      body a (sh st) = map_exc (fun r => (sh (fst r), snd r)) (body a st)) ->
  forall st, for_each body l (sh st) = map_exc sh (for_each body l st).
Proof.
  intros Hb. induction l as [|a l IH]; intros st; simpl; [reflexivity|].
  rewrite Hb. destruct (body a st) as [[s' fl]|e]; simpl; [|reflexivity].
  destruct fl; [apply IH | reflexivity].
Qed.

Lemma append_prepend (o : list Violation) (v : Violation)
      (s : NASAComplianceChecker) :
  append v (prepend o s) = prepend o (append v s).
Proof. unfold append, prepend. simpl. now rewrite app_assoc. Qed.

Lemma when_prepend (o : list Violation) (c : bool) (v : Violation)
      (s : NASAComplianceChecker) :
  when c v (prepend o s) = prepend o (when c v s).
Proof. unfold when. destruct c; [apply append_prepend | reflexivity]. Qed.

Ltac frame_cases :=
  repeat match goal with
         | |- context [match ?x with _ => _ end] =>
             lazymatch x with
             | context [prepend] => fail
             | _ => destruct x eqn:?
             end
         end.

Ltac frame_body :=
  cbn [fst snd code_lines prepend bind map_exc];
  repeat first [ rewrite when_prepend | rewrite append_prepend ];
  cbn [fst snd code_lines prepend bind map_exc];
  try reflexivity.

Lemma recursion_scan_frame (o : list Violation) (i : nat)
      (line func_name : string) (s : NASAComplianceChecker) :
  recursion_scan i line func_name (prepend o s)
  = map_exc (prepend o) (recursion_scan i line func_name s).
Proof.
  unfold recursion_scan. cbn [code_lines prepend].
  apply for_each_shift. intros [j check_line] st. cbn [fst snd].
  destruct (Py.contains (func_name ++ "(") check_line
            && negb (is_comment check_line)); frame_body.
Qed.

Lemma rule_1_frame (o : list Violation) (s : NASAComplianceChecker) :
  _check_rule_1_flow_control (prepend o s)
  = map_exc (prepend o) (_check_rule_1_flow_control s).
Proof.
  unfold _check_rule_1_flow_control, lines_loop. cbn [code_lines prepend].
  apply for_each_shift. intros [i line] st. cbn [fst snd].
  rewrite !when_prepend.
  destruct (Re.search Pat.call_block line); [|frame_body].
  destruct (Re.search Pat.call_block_name line); [|frame_body].
  rewrite recursion_scan_frame.
  match goal with
  | |- context [recursion_scan ?a ?b ?c ?d] =>
      destruct (recursion_scan a b c d)
  end; frame_body.
Qed.

Lemma rule_2_frame (o : list Violation) (s : NASAComplianceChecker) :
  _check_rule_2_loop_bounds (prepend o s)
  = map_exc (prepend o) (_check_rule_2_loop_bounds s).
Proof.
  unfold _check_rule_2_loop_bounds, lines_loop. cbn [code_lines prepend].
  apply for_each_shift. intros [i line] st. cbn [fst snd].
  destruct (Re.is_some (Re.rmatch Pat.while_open line)); frame_body.
Qed.

Lemma rule_3_frame (o : list Violation) (s : NASAComplianceChecker) :
  _check_rule_3_dynamic_memory (prepend o s)
  = map_exc (prepend o) (_check_rule_3_dynamic_memory s).
Proof.
  unfold _check_rule_3_dynamic_memory, lines_loop. cbn [code_lines prepend].
  apply for_each_shift. intros [i line] st. cbn [fst snd].
  destruct (Py.any_in ["malloc"; "calloc"; "realloc"; "free"] line);
    frame_body.
Qed.

Lemma rule_4_frame (o : list Violation) (s : NASAComplianceChecker) :
  _check_rule_4_function_parameters (prepend o s)
  = map_exc (prepend o) (_check_rule_4_function_parameters s).
Proof.
  unfold _check_rule_4_function_parameters, lines_loop.
  cbn [code_lines prepend].
  apply for_each_shift. intros [i line] st. cbn [fst snd].
  destruct (Re.search Pat.signature_params line) as [m|]; [|frame_body].
  destruct (Re.group 1 (Re.m_groups m)); frame_body.
Qed.

Lemma rule_5_frame (o : list Violation) (s : NASAComplianceChecker) :
  _check_rule_5_pointer_dereferencing (prepend o s)
  = map_exc (prepend o) (_check_rule_5_pointer_dereferencing s).
Proof.
  unfold _check_rule_5_pointer_dereferencing, lines_loop.
  cbn [code_lines prepend].
  apply for_each_shift. intros [i line] st. frame_body.
Qed.

Lemma rule_8_frame (o : list Violation) (s : NASAComplianceChecker) :
  _check_rule_8_preprocessor (prepend o s)
  = map_exc (prepend o) (_check_rule_8_preprocessor s).
Proof.
  unfold _check_rule_8_preprocessor, lines_loop. cbn [code_lines prepend].
  apply for_each_shift. intros [i line] st. frame_body.
Qed.

Lemma rule_9_frame (o : list Violation) (s : NASAComplianceChecker) :
  _check_rule_9_assignment_expressions (prepend o s)
  = map_exc (prepend o) (_check_rule_9_assignment_expressions s).
Proof.
  unfold _check_rule_9_assignment_expressions, lines_loop.
  cbn [code_lines prepend].
  apply for_each_shift. intros [i line] st. frame_body.
Qed.

Lemma rule_10_frame (o : list Violation) (s : NASAComplianceChecker) :
  _check_rule_10_multiple_assignments (prepend o s)
  = map_exc (prepend o) (_check_rule_10_multiple_assignments s).
Proof.
  unfold _check_rule_10_multiple_assignments, lines_loop.
  cbn [code_lines prepend].
  apply for_each_shift. intros [i line] st. frame_body.
Qed.

Lemma naming_frame (o : list Violation) (s : NASAComplianceChecker) :
  _check_naming_conventions (prepend o s)
  = map_exc (prepend o) (_check_naming_conventions s).
Proof.
  unfold _check_naming_conventions, lines_loop. cbn [code_lines prepend].
  apply for_each_shift. intros [i line] st. cbn [fst snd].
  destruct (Re.search Pat.short_name line) as [m|]; [|frame_body].
  destruct (Re.group 2 (Re.m_groups m)); frame_body.
Qed.

Lemma comment_coverage_frame (o : list Violation) (s : NASAComplianceChecker) :
  _check_comment_coverage (prepend o s)
  = map_exc (prepend o) (_check_comment_coverage s).
Proof.
  unfold _check_comment_coverage, lines_loop. cbn [code_lines prepend].
  apply for_each_shift. intros [i line] st. cbn [fst snd code_lines prepend].
  destruct (Re.is_some (Re.rmatch Pat.signature line)); [|frame_body].
  destruct (comment_above (code_lines st) i); frame_body.
Qed.

Lemma error_handling_frame (o : list Violation) (s : NASAComplianceChecker) :
  _check_error_handling (prepend o s)
  = map_exc (prepend o) (_check_error_handling s).
Proof.
  unfold _check_error_handling, lines_loop. cbn [code_lines prepend].
  apply for_each_shift. intros [i line] st. cbn [fst snd code_lines prepend].
  destruct (Re.is_some (Re.rmatch Pat.void_signature line)); [|frame_body].
  destruct (error_handling_below (code_lines st) i); frame_body.
Qed.

Lemma type_safety_frame (o : list Violation) (s : NASAComplianceChecker) :
  _check_type_safety (prepend o s)
  = map_exc (prepend o) (_check_type_safety s).
Proof.
  unfold _check_type_safety, lines_loop. cbn [code_lines prepend].
  apply for_each_shift. intros [i line] st. frame_body.
Qed.

Ltac scan_frame o s :=
  cbn [code_lines prepend];
  change (prepend o s, scan0)
    with ((fun st : NASAComplianceChecker * scan =>
             (prepend o (fst st), snd st)) (s, scan0));
  rewrite for_each_shift;
  [ match goal with
    | |- context [for_each ?b ?l ?st] => destruct (for_each b l st)
    end; reflexivity
  | ].

Lemma rule_6_frame (o : list Violation) (s : NASAComplianceChecker) :
  _check_rule_6_variable_declarations (prepend o s)
  = map_exc (prepend o) (_check_rule_6_variable_declarations s).
Proof.
  unfold _check_rule_6_variable_declarations. scan_frame o s.
  intros [i line] [st loc]. cbn [fst snd].
  destruct (Re.is_some (Re.rmatch Pat.function_start line)); [frame_body|].
  destruct (in_function loc && Re.is_some (Re.rmatch Pat.declaration line));
    frame_body.
Qed.

Lemma rule_7_frame (o : list Violation) (s : NASAComplianceChecker) :
  _check_rule_7_single_return (prepend o s)
  = map_exc (prepend o) (_check_rule_7_single_return s).
Proof.
  unfold _check_rule_7_single_return. scan_frame o s.
  intros [i line] [st loc]. cbn [fst snd code_lines prepend].
  destruct (Re.is_some (Re.rmatch Pat.function_start line)); [frame_body|].
  match goal with
  | |- context [is_closing_brace line && in_function ?l] =>
      generalize l; intros loc'
  end.
  destruct (is_closing_brace line && in_function loc'); [|frame_body].
  destruct (1 <? counter loc'); [|frame_body].
  destruct (Py.index (code_lines st) (Z.of_nat (function_start loc') - 1));
    frame_body.
Qed.

Lemma function_length_frame (o : list Violation) (s : NASAComplianceChecker) :
  _check_function_length (prepend o s)
  = map_exc (prepend o) (_check_function_length s).
Proof.
  unfold _check_function_length. scan_frame o s.
  intros [i line] [st loc]. cbn [fst snd code_lines prepend].
  destruct (Re.is_some (Re.rmatch Pat.function_start line)); [frame_body|].
  match goal with
  | |- context [is_closing_brace line && in_function ?l] =>
      generalize l; intros loc'
  end.
  destruct (is_closing_brace line && in_function loc'); [|frame_body].
  destruct (50 <? counter loc'); [|frame_body].
  destruct (Py.index (code_lines st) (Z.of_nat (function_start loc') - 1));
    frame_body.
Qed.

Lemma prepend_fresh (self : NASAComplianceChecker) :
  self = prepend (violations self) (fresh (code_lines self)).
Proof.
  destruct self as [vs ls]. unfold prepend, fresh. simpl.
  now rewrite app_nil_r.
Qed.

Lemma prepend_prepend (a b : list Violation) (s : NASAComplianceChecker) :
  prepend a (prepend b s) = prepend (a ++ b) s.
Proof. unfold prepend. simpl. now rewrite app_assoc. Qed.

(** One rule in the sequence: what it appends after [acc] is what it
    reports alone. *)
Lemma rule_step (rule : NASAComplianceChecker -> exc NASAComplianceChecker)
      (id : string) :
  (forall self, exists self', rule self = Ok self' /\ grows id self self') ->
  (forall o s, rule (prepend o s) = map_exc (prepend o) (rule s)) ->
  forall lines acc,
  exists seg,
    rule_alone rule lines = Ok seg
    /\ rule (prepend acc (fresh lines)) = Ok (prepend (acc ++ seg) (fresh lines))
    /\ Forall (fun v => rule_id v = id) seg.
Proof.
  intros Hok Hframe lines acc.
  destruct (Hok (fresh lines)) as [s' [E [HL [out [HV HF]]]]].
  exists out. unfold rule_alone. rewrite Hframe, E. cbn [map_exc].
  cbn [violations fresh app] in HV. cbn [code_lines fresh] in HL.
  rewrite HV. split; [reflexivity|]. split; [|exact HF].
  rewrite (prepend_fresh s'), HV, HL. now rewrite prepend_prepend.
Qed.

Ltac next_rule Hok Hframe lines :=
  match goal with
  | |- context [bind (?R (prepend ?acc (fresh lines))) _] =>
      let seg := fresh "seg" in
      let A := fresh "A" in
      let E := fresh "E" in
      let F := fresh "F" in
      destruct (rule_step R _ Hok Hframe lines acc) as [seg [A [E F]]];
      rewrite E; cbn [bind]
  end.

(** The rules run in sequence report what each reports alone, one after
    the other. *)
Lemma run_rules_alone (lines : list string) :
  exists segs,
    run_rules (fresh lines) = Ok (prepend (List.concat segs) (fresh lines))
    /\ Forall2 (fun rule seg => rule_alone rule lines = Ok seg) rules segs
    /\ Forall2 (fun id seg => Forall (fun v => rule_id v = id) seg)
               rule_order segs.
Proof.
  unfold run_rules.
  change (fresh lines) with (prepend [] (fresh lines)) at 1.
  next_rule rule_1_ok rule_1_frame lines.
  next_rule rule_2_ok rule_2_frame lines.
  next_rule rule_3_ok rule_3_frame lines.
  next_rule rule_4_ok rule_4_frame lines.
  next_rule rule_5_ok rule_5_frame lines.
  next_rule rule_6_ok rule_6_frame lines.
  next_rule rule_7_ok rule_7_frame lines.
  next_rule rule_8_ok rule_8_frame lines.
  next_rule rule_9_ok rule_9_frame lines.
  next_rule rule_10_ok rule_10_frame lines.
  next_rule naming_ok naming_frame lines.
  next_rule function_length_ok function_length_frame lines.
  next_rule comment_coverage_ok comment_coverage_frame lines.
  next_rule error_handling_ok error_handling_frame lines.
  match goal with
  | |- context [_check_type_safety (prepend ?acc (fresh lines))] =>
      destruct (rule_step _check_type_safety _ type_safety_ok
                  type_safety_frame lines acc) as [seg14 [A14 [E14 F14]]]
  end.
  rewrite E14.
  exists [seg; seg0; seg1; seg2; seg3; seg4; seg5; seg6; seg7; seg8; seg9;
          seg10; seg11; seg12; seg14].
  split.
  { f_equal. f_equal. cbn [List.concat app]. rewrite app_nil_r.
    repeat rewrite <- app_assoc. reflexivity. }
  split; unfold rules, rule_order; repeat constructor; assumption.
Qed.

(** X4. The engine is the concatenation of its rules: on every source
    text [check_all_rules] returns, in the order of the rules, what each
    of the fifteen rules reports when it runs alone on the same lines; no
    rule depends on the violations found before it. *)
Theorem engine_concatenates_rules (code : string) :
  exists segs self,
    check_code code = Ok (List.concat segs, self)
    /\ Forall2 (fun rule seg =>
                  rule_alone rule (Py.split newline code) = Ok seg)
               rules segs.
Proof.
  destruct (run_rules_alone (Py.split newline code)) as [segs [E [H _]]].
  exists segs. eexists. split; [|exact H].
  unfold check_code, check_all_rules.
  change (reset (load_code code init)) with (fresh (Py.split newline code)).
  rewrite E. cbn [bind violations prepend fresh]. now rewrite app_nil_r.
Qed.

(** X5. [check_all_rules] does not accumulate: it empties the violation
    list before it runs the rules, so a second call on the checker the
    first call left returns the same list again, not the list twice. *)
Theorem check_all_rules_does_not_accumulate
        (code : string) (vs : list Violation) (self : NASAComplianceChecker) :
  check_code code = Ok (vs, self) ->
  check_all_rules self = Ok (vs, self).
Proof.
  unfold check_code. intros H.
  assert (R : reset self = reset (load_code code init)).
  { unfold check_all_rules in H.
    change (reset (load_code code init)) with (fresh (Py.split newline code))
      in *.
    destruct (run_rules_alone (Py.split newline code)) as [segs [E _]].
    rewrite E in H. cbn [bind] in H. inversion H; subst. reflexivity. }
  unfold check_all_rules in *. rewrite R. exact H.
Qed.

Lemma check_all_rules_does_not_accumulate_witness :
  exists vs self,
    check_code while_one_sample = Ok (vs, self)
    /\ List.length vs = 2
    /\ check_all_rules self = Ok (vs, self).
Proof.
  eexists. eexists. split; [vm_compute; reflexivity|].
  split; [reflexivity|].
  apply (check_all_rules_does_not_accumulate while_one_sample).
  vm_compute. reflexivity.
Defined.

(** ** What every reported violation looks like *)

Lemma grows_with_refl (P : Violation -> Prop) (self : NASAComplianceChecker) :
  grows_with P self self.
Proof. split; [reflexivity|]. exists []. now rewrite app_nil_r. Qed.

Lemma grows_with_trans (P : Violation -> Prop)
      (a b c : NASAComplianceChecker) :
  grows_with P a b -> grows_with P b c -> grows_with P a c.
Proof.
  intros [L1 [o1 [E1 F1]]] [L2 [o2 [E2 F2]]]. split; [congruence|].
  exists (o1 ++ o2). split.
  - rewrite E2, E1. now rewrite app_assoc.
  - apply Forall_app. now split.
Qed.

Lemma grows_with_append (P : Violation -> Prop) (v : Violation)
      (self : NASAComplianceChecker) :
  P v -> grows_with P self (append v self).
Proof.
  intros H. split; [reflexivity|]. exists [v]. split; [reflexivity|].
  now constructor.
Qed.

Lemma grows_with_when (P : Violation -> Prop) (c : bool) (v : Violation)
      (self : NASAComplianceChecker) :
  P v -> grows_with P self (when c v self).
Proof.
  intros H. unfold when.
  destruct c; [now apply grows_with_append | apply grows_with_refl].
Qed.

Lemma enumerate_lines_nth (lines : list string) (i : nat) (line : string) :
  In (i, line) (Py.enumerate 1 lines) ->
  1 <= i /\ nth_error lines (i - 1) = Some line.
Proof. intros H. apply enumerate_In in H. destruct H as [H N]. split; [lia|exact N]. Qed.

Lemma index_pred_nth {A : Type} (l : list A) (j : nat) (a : A) :
  1 <= j -> Py.index l (Z.of_nat j - 1) = Ok a -> nth_error l (j - 1) = Some a.
Proof.
  intros Hj. unfold Py.index.
  replace (Z.of_nat j - 1)%Z with (Z.of_nat (j - 1)) by lia.
  assert (E : (Z.of_nat (j - 1) <? 0)%Z = false) by (apply Z.ltb_ge; lia).
  rewrite E, E, Nat2Z.id.
  destruct (nth_error l (j - 1)); [now inversion 1|discriminate].
Qed.

Ltac wf_here :=
  match goal with
  | Hi : 1 <= ?i, Hn : nth_error ?lines (?i - 1) = Some ?line
    |- well_formed ?lines _ =>
      split; [split; [exact Hi | exists line; split; [exact Hn|reflexivity]]
             | reflexivity]
  end.

Ltac grow_wf :=
  repeat first
    [ assumption
    | apply grows_with_refl
    | wf_here
    | match goal with
      | |- grows_with _ _ (if ?c then _ else _) => destruct c
      | |- grows_with ?P ?a (when ?c ?v ?b) =>
          apply (grows_with_trans P a b); [|apply grows_with_when]
      | |- grows_with ?P ?a (append ?v ?b) =>
          apply (grows_with_trans P a b); [|apply grows_with_append]
      end ].

Ltac wf_step := eexists; split; [reflexivity|]; cbn [fst snd]; grow_wf.

Ltac wf_line Hin :=
  apply enumerate_lines_nth in Hin;
  let Hi := fresh "Hi" in
  let Hn := fresh "Hn" in
  destruct Hin as [Hi Hn].

Lemma recursion_scan_wf (lines : list string) (i : nat)
      (line func_name : string) (self : NASAComplianceChecker) :
  1 <= i -> nth_error lines (i - 1) = Some line ->
  exists self', recursion_scan i line func_name self = Ok self'
                /\ grows_with (well_formed lines) self self'.
Proof.
  intros Hi Hn. unfold recursion_scan.
  apply for_each_inv; [apply grows_with_refl|].
  intros [j check_line] s _ HP. cbn [fst snd].
  destruct (Py.contains (func_name ++ "(") check_line
            && negb (is_comment check_line)); wf_step.
Qed.

Lemma rule_1_wf (self : NASAComplianceChecker) :
  exists self', _check_rule_1_flow_control self = Ok self'
                /\ grows_with (well_formed (code_lines self)) self self'.
Proof.
  unfold _check_rule_1_flow_control, lines_loop.
  apply for_each_inv; [apply grows_with_refl|].
  intros [i line] s Hin HP. wf_line Hin. cbn [fst snd].
  set (s2 := when _ (setjmp_violation i line) _).
  assert (G : grows_with (well_formed (code_lines self)) self s2)
    by (unfold s2; grow_wf).
  destruct (Re.search Pat.call_block line); [|wf_step].
  destruct (Re.search Pat.call_block_name line); [|wf_step].
  match goal with
  | |- context [recursion_scan ?a ?b ?c ?d] =>
      destruct (recursion_scan_wf (code_lines self) a b c d Hi Hn)
        as [s3 [E G3]]
  end.
  rewrite E. cbn [bind]. eexists; split; [reflexivity|]. cbn [fst].
  eapply grows_with_trans; eauto.
Qed.

Ltac simple_wf :=
  unfold lines_loop; apply for_each_inv; [apply grows_with_refl|];
  let i := fresh "i" in
  let line := fresh "line" in
  let s := fresh "s" in
  let Hin := fresh "Hin" in
  let HP := fresh "HP" in
  intros [i line] s Hin HP; wf_line Hin; cbn [fst snd].

Lemma rule_2_wf (self : NASAComplianceChecker) :
  exists self', _check_rule_2_loop_bounds self = Ok self'
                /\ grows_with (well_formed (code_lines self)) self self'.
Proof. unfold _check_rule_2_loop_bounds. simple_wf. wf_step. Qed.

Lemma rule_3_wf (self : NASAComplianceChecker) :
  exists self', _check_rule_3_dynamic_memory self = Ok self'
                /\ grows_with (well_formed (code_lines self)) self self'.
Proof. unfold _check_rule_3_dynamic_memory. simple_wf. wf_step. Qed.

Lemma rule_4_wf (self : NASAComplianceChecker) :
  exists self', _check_rule_4_function_parameters self = Ok self'
                /\ grows_with (well_formed (code_lines self)) self self'.
Proof.
  unfold _check_rule_4_function_parameters. simple_wf.
  destruct (Re.search Pat.signature_params line) as [m|] eqn:E; [|wf_step].
  pose proof (search_binds _ _ 1 _ E eq_refl) as Hg.
  destruct (Re.group 1 (Re.m_groups m)); [|contradiction].
  wf_step.
Qed.

Lemma rule_5_wf (self : NASAComplianceChecker) :
  exists self', _check_rule_5_pointer_dereferencing self = Ok self'
                /\ grows_with (well_formed (code_lines self)) self self'.
Proof. unfold _check_rule_5_pointer_dereferencing. simple_wf. wf_step. Qed.

Lemma rule_8_wf (self : NASAComplianceChecker) :
  exists self', _check_rule_8_preprocessor self = Ok self'
                /\ grows_with (well_formed (code_lines self)) self self'.
Proof. unfold _check_rule_8_preprocessor. simple_wf. wf_step. Qed.

Lemma rule_9_wf (self : NASAComplianceChecker) :
  exists self', _check_rule_9_assignment_expressions self = Ok self'
                /\ grows_with (well_formed (code_lines self)) self self'.
Proof. unfold _check_rule_9_assignment_expressions. simple_wf. wf_step. Qed.

Lemma rule_10_wf (self : NASAComplianceChecker) :
  exists self', _check_rule_10_multiple_assignments self = Ok self'
                /\ grows_with (well_formed (code_lines self)) self self'.
Proof. unfold _check_rule_10_multiple_assignments. simple_wf. wf_step. Qed.

Lemma naming_wf (self : NASAComplianceChecker) :
  exists self', _check_naming_conventions self = Ok self'
                /\ grows_with (well_formed (code_lines self)) self self'.
Proof.
  unfold _check_naming_conventions. simple_wf.
  destruct (Re.search Pat.short_name line) as [m|] eqn:E; [|wf_step].
  pose proof (search_binds _ _ 2 _ E eq_refl) as Hg.
  destruct (Re.group 2 (Re.m_groups m)); [|contradiction].
  wf_step.
Qed.

Lemma comment_coverage_wf (self : NASAComplianceChecker) :
  exists self', _check_comment_coverage self = Ok self'
                /\ grows_with (well_formed (code_lines self)) self self'.
Proof.
  unfold _check_comment_coverage. simple_wf.
  destruct (Re.is_some (Re.rmatch Pat.signature line)); [|wf_step].
  destruct (comment_above_ok (code_lines s) i) as [b E].
  { destruct HP as [HL _]. rewrite HL.
    assert (i - 1 < List.length (code_lines self))
      by (apply nth_error_Some; congruence). lia. }
  rewrite E. cbn [bind]. wf_step.
Qed.

Lemma error_handling_wf (self : NASAComplianceChecker) :
  exists self', _check_error_handling self = Ok self'
                /\ grows_with (well_formed (code_lines self)) self self'.
Proof.
  unfold _check_error_handling. simple_wf.
  destruct (Re.is_some (Re.rmatch Pat.void_signature line)); [|wf_step].
  destruct (error_handling_below_ok (code_lines s) i) as [b E].
  rewrite E. cbn [bind]. wf_step.
Qed.

Lemma type_safety_wf (self : NASAComplianceChecker) :
  exists self', _check_type_safety self = Ok self'
                /\ grows_with (well_formed (code_lines self)) self self'.
Proof. unfold _check_type_safety. simple_wf. wf_step. Qed.

Lemma rule_6_wf (self : NASAComplianceChecker) :
  exists self', _check_rule_6_variable_declarations self = Ok self'
                /\ grows_with (well_formed (code_lines self)) self self'.
Proof.
  unfold _check_rule_6_variable_declarations.
  loop_with (fun st : NASAComplianceChecker * scan =>
               grows_with (well_formed (code_lines self)) self (fst st)).
  - apply grows_with_refl.
  - intros [i line] [s loc] Hin HP. wf_line Hin. cbn [fst snd] in *.
    destruct (Re.is_some (Re.rmatch Pat.function_start line)); wf_step.
  - eauto.
Qed.

Lemma returns_violation_wf (lines : list string) (start count : nat)
      (first : string) :
  1 <= start -> nth_error lines (start - 1) = Some first ->
  well_formed lines (returns_violation start count (Py.strip first)).
Proof.
  intros Hs Hn. split; [split; [exact Hs|]|reflexivity].
  exists first. split; [exact Hn|reflexivity].
Qed.

Lemma length_violation_wf (lines : list string) (start count : nat)
      (first : string) :
  1 <= start -> nth_error lines (start - 1) = Some first ->
  well_formed lines (length_violation start count (Py.strip first)).
Proof.
  intros Hs Hn. split; [split; [exact Hs|]|reflexivity].
  exists first. split; [exact Hn|reflexivity].
Qed.

Lemma rule_7_wf (self : NASAComplianceChecker) :
  exists self', _check_rule_7_single_return self = Ok self'
                /\ grows_with (well_formed (code_lines self)) self self'.
Proof.
  unfold _check_rule_7_single_return.
  loop_with (scan_wf self).
  - split; [apply grows_with_refl | discriminate].
  - intros [i line] [s loc] Hin [HP Hfs]. cbn [fst snd] in *.
    apply enumerate_lines_range in Hin.
    destruct (Re.is_some (Re.rmatch Pat.function_start line)).
    { eexists; split; [reflexivity|]. split; cbn [fst snd in_function
                                                   function_start]; auto. }
    set (loc' := if in_function loc && Py.contains "return" line
                    && negb (is_comment line)
                 then _ else loc).
    assert (Hin' : in_function loc' = in_function loc)
      by (unfold loc'; match goal with |- context [if ?c then _ else _] =>
                         destruct c end; reflexivity).
    assert (Hfs' : function_start loc' = function_start loc)
      by (unfold loc'; match goal with |- context [if ?c then _ else _] =>
                         destruct c end; reflexivity).
    destruct (is_closing_brace line && in_function loc') eqn:C.
    + apply andb_true_iff in C. destruct C as [_ C]. rewrite Hin' in C.
      destruct (1 <? counter loc').
      * destruct HP as [HL HO]. rewrite HL, Hfs'.
        destruct (index_pred_ok (code_lines self) (function_start loc)
                    (Hfs C)) as [first E1].
        rewrite E1. cbn [bind]. eexists; split; [reflexivity|].
        split; cbn [fst snd in_function]; [|discriminate].
        eapply grows_with_trans; [split; eauto|]. apply grows_with_append.
        apply returns_violation_wf; [apply (Hfs C)|].
        apply index_pred_nth; [apply (Hfs C)|exact E1].
      * cbn [bind]. eexists; split; [reflexivity|].
        split; cbn [fst snd in_function]; [auto|discriminate].
    + eexists; split; [reflexivity|]. split; cbn [fst snd]; [auto|].
      rewrite Hin', Hfs'. exact Hfs.
  - destruct G as [G _]. eauto.
Qed.

Lemma function_length_wf (self : NASAComplianceChecker) :
  exists self', _check_function_length self = Ok self'
                /\ grows_with (well_formed (code_lines self)) self self'.
Proof.
  unfold _check_function_length.
  loop_with (scan_wf self).
  - split; [apply grows_with_refl | discriminate].
  - intros [i line] [s loc] Hin [HP Hfs]. cbn [fst snd] in *.
    apply enumerate_lines_range in Hin.
    destruct (Re.is_some (Re.rmatch Pat.function_start line)).
    { eexists; split; [reflexivity|]. split; cbn [fst snd in_function
                                                   function_start]; auto. }
    set (loc' := if in_function loc then _ else loc).
    assert (Hin' : in_function loc' = in_function loc)
      by (unfold loc'; destruct (in_function loc) eqn:F; simpl; auto).
    assert (Hfs' : function_start loc' = function_start loc)
      by (unfold loc'; destruct (in_function loc); reflexivity).
    destruct (is_closing_brace line && in_function loc') eqn:C.
    + apply andb_true_iff in C. destruct C as [_ C]. rewrite Hin' in C.
      destruct (50 <? counter loc').
      * destruct HP as [HL HO]. rewrite HL, Hfs'.
        destruct (index_pred_ok (code_lines self) (function_start loc)
                    (Hfs C)) as [first E1].
        rewrite E1. cbn [bind]. eexists; split; [reflexivity|].
        split; cbn [fst snd in_function]; [|discriminate].
        eapply grows_with_trans; [split; eauto|]. apply grows_with_append.
        apply length_violation_wf; [apply (Hfs C)|].
        apply index_pred_nth; [apply (Hfs C)|exact E1].
      * cbn [bind]. eexists; split; [reflexivity|].
        split; cbn [fst snd in_function]; [auto|discriminate].
    + eexists; split; [reflexivity|]. split; cbn [fst snd]; [auto|].
      rewrite Hin', Hfs'. exact Hfs.
  - destruct G as [G _]. eauto.
Qed.

Ltac wf_rule L :=
  match goal with
  | Gacc : grows_with (well_formed ?lines) ?self ?s
    |- context [bind (?R ?s) _] =>
      let s' := fresh "s" in
      let E := fresh "E" in
      let G := fresh "G" in
      destruct (L s) as [s' [E G]]; rewrite E; cbn [bind];
      try rewrite (proj1 Gacc) in G;
      pose proof (grows_with_trans _ _ _ _ Gacc G);
      clear Gacc G E
  end.

Lemma run_rules_wf (self : NASAComplianceChecker) :
  exists self', run_rules self = Ok self'
                /\ grows_with (well_formed (code_lines self)) self self'.
Proof.
  unfold run_rules.
  pose proof (grows_with_refl (well_formed (code_lines self)) self) as G0.
  wf_rule rule_1_wf. wf_rule rule_2_wf. wf_rule rule_3_wf. wf_rule rule_4_wf.
  wf_rule rule_5_wf. wf_rule rule_6_wf. wf_rule rule_7_wf. wf_rule rule_8_wf.
  wf_rule rule_9_wf. wf_rule rule_10_wf. wf_rule naming_wf.
  wf_rule function_length_wf. wf_rule comment_coverage_wf.
  wf_rule error_handling_wf.
  match goal with
  | Gacc : grows_with _ _ ?s |- context [_check_type_safety ?s] =>
      destruct (type_safety_wf s) as [sT [ET GT]];
      rewrite (proj1 Gacc) in GT;
      exists sT; split; [exact ET|];
      exact (grows_with_trans _ _ _ _ Gacc GT)
  end.
Qed.

Lemma check_code_wf (code : string) :
  exists vs self,
    check_code code = Ok (vs, self)
    /\ Forall (well_formed (Py.split newline code)) vs.
Proof.
  unfold check_code, check_all_rules.
  destruct (run_rules_wf (reset (load_code code init)))
    as [s [E [HL [out [HV HF]]]]].
  rewrite E. cbn [bind]. eexists. eexists. split; [reflexivity|].
  cbn [violations reset app] in HV. rewrite HV. exact HF.
Qed.

(** X6. Every violation [check_all_rules] reports cites a line of the
    source: its line number is between 1 and the number of lines, and its
    code snippet is that line with the white space stripped at both ends. *)
Theorem every_violation_cites_a_line (code : string) :
  exists vs self,
    check_code code = Ok (vs, self)
    /\ Forall (fun v =>
                 1 <= line_number v <= List.length (Py.split newline code)
                 /\ exists l,
                      nth_error (Py.split newline code) (line_number v - 1)
                      = Some l
                      /\ code_snippet v = Py.strip l) vs.
Proof.
  destruct (check_code_wf code) as [vs [self [E H]]].
  exists vs, self. split; [exact E|].
  eapply Forall_impl; [|exact H].
  intros v [[H1 [l [Hn Hs]]] _]. split; [|eauto].
  assert (line_number v - 1 < List.length (Py.split newline code))
    by (apply nth_error_Some; congruence). lia.
Qed.

(** X7. The rule id of a reported violation decides its rule name and
    its severity, by the table of the fifteen rules: rules 1 and 3 are
    critical, rules 2, 4 and 5 major, rules 7 and 9 and the function
    length rule moderate, and the others minor. *)
Theorem rule_id_decides_name_and_severity (code : string) :
  exists vs self,
    check_code code = Ok (vs, self)
    /\ Forall (fun v =>
                 Dict.get rule_table (rule_id v)
                 = Some (rule_name v, severity v)) vs.
Proof.
  destruct (check_code_wf code) as [vs [self [E H]]].
  exists vs, self. split; [exact E|].
  eapply Forall_impl; [|exact H]. intros v [_ Ht]. exact Ht.
Qed.

(** ** The line-by-line rules 3, 5 and 8 *)

(** X8. Rule 3 reports a line exactly when the line contains [malloc],
    [calloc], [realloc] or [free] anywhere (inside a longer word too) and
    does not start, after white space, with [//]; it then reports the
    line once, as critical, however many of the names the line holds. *)
Theorem rule_3_reports_memory_lines (code : string) (n : nat) (line : string) :
  nth_error (Py.split newline code) n = Some line ->
  exists vs self,
    check_code code = Ok (vs, self)
    /\ with_rule "rule_3" (on_line (S n) vs)
       = (if Py.any_in memory_names line && negb (is_comment line)
          then [memory_violation (S n) line] else [])
    /\ severity (memory_violation (S n) line) = CRITICAL.
Proof.
  intros Hn.
  destruct (check_code_spec code) as [vs [self [segs [E [_ [_ [_ [_ H]]]]]]]].
  exists vs, self. split; [exact E|]. split; [|reflexivity].
  exact (H n line "rule_3" rule_3_line Hn eq_refl).
Qed.

Lemma rule_3_reports_memory_lines_witness :
  exists vs self,
    check_code commented_free_sample = Ok (vs, self)
    /\ with_rule "rule_3" (on_line 1 vs) = []
    /\ severity (memory_violation 1 commented_free_sample) = CRITICAL.
Proof.
  apply (rule_3_reports_memory_lines commented_free_sample 0
           commented_free_sample).
  reflexivity.
Defined.

(** X9. Rule 5 reports a line exactly when the line contains three stars
    in a row, once per line whatever the number of stars, as major. *)
Theorem rule_5_reports_triple_stars (code : string) (n : nat) (line : string) :
  nth_error (Py.split newline code) n = Some line ->
  exists vs self,
    check_code code = Ok (vs, self)
    /\ with_rule "rule_5" (on_line (S n) vs)
       = (if Py.contains "***" line
          then [pointer_violation (S n) line] else [])
    /\ severity (pointer_violation (S n) line) = MAJOR.
Proof.
  intros Hn.
  destruct (check_code_spec code) as [vs [self [segs [E [_ [_ [_ [_ H]]]]]]]].
  exists vs, self. split; [exact E|]. split; [|reflexivity].
  exact (H n line "rule_5" rule_5_line Hn eq_refl).
Qed.

Lemma rule_5_reports_triple_stars_witness :
  exists vs self,
    check_code many_stars_sample = Ok (vs, self)
    /\ with_rule "rule_5" (on_line 1 vs)
       = [pointer_violation 1 many_stars_sample]
    /\ severity (pointer_violation 1 many_stars_sample) = MAJOR.
Proof.
  apply (rule_5_reports_triple_stars many_stars_sample 0 many_stars_sample).
  reflexivity.
Defined.

(** X10. Rule 8 reports a line exactly when the stripped line starts
    with [#] and does not start with [#include]: once, as minor.  So an
    [#include] line is never reported, and [# include] with a space after
    the [#] is. *)
Theorem rule_8_reports_directives (code : string) (n : nat) (line : string) :
  nth_error (Py.split newline code) n = Some line ->
  exists vs self,
    check_code code = Ok (vs, self)
    /\ with_rule "rule_8" (on_line (S n) vs)
       = (if Py.startswith (Py.strip line) "#"
             && negb (Py.startswith (Py.strip line) "#include")
          then [preprocessor_violation (S n) line] else [])
    /\ severity (preprocessor_violation (S n) line) = MINOR.
Proof.
  intros Hn.
  destruct (check_code_spec code) as [vs [self [segs [E [_ [_ [_ [_ H]]]]]]]].
  exists vs, self. split; [exact E|]. split; [|reflexivity].
  exact (H n line "rule_8" rule_8_line Hn eq_refl).
Qed.

Lemma rule_8_reports_directives_witness :
  exists vs self,
    check_code spaced_include_sample = Ok (vs, self)
    /\ with_rule "rule_8" (on_line 1 vs)
       = [preprocessor_violation 1 spaced_include_sample]
    /\ severity (preprocessor_violation 1 spaced_include_sample) = MINOR.
Proof.
  apply (rule_8_reports_directives spaced_include_sample 0
           spaced_include_sample).
  reflexivity.
Defined.

(** ** One rule inside the engine *)

(** A loop whose body appends [f a], for an [f] that may read the lines
    of the checker, appends the concatenation. *)
Lemma for_each_extend_in {A : Type} (f : A -> list Violation)
      (body : A -> NASAComplianceChecker -> exc (NASAComplianceChecker * flow))
      (lines : list string) (l : list A) :
  (forall a s, In a l -> code_lines s = lines ->
               body a s = Ok (extend (f a) s, Next)) ->
  forall self, code_lines self = lines ->
               for_each body l self = Ok (extend (flat_map f l) self).
Proof.
  induction l as [|a l IH]; intros Hb self HL; simpl.
  - now rewrite extend_nil.
  - rewrite (Hb a self (or_introl eq_refl) HL). simpl.
    rewrite IH; [|intros b s Hin; apply Hb; now right|exact HL].
    now rewrite extend_extend.
Qed.

Lemma with_rule_concat_pick (segs : list (list Violation)) (k : nat)
      (id : string) :
  Forall2 (fun id seg => Forall (fun v => rule_id v = id) seg) rule_order segs ->
  nth_error rule_order k = Some id ->
  with_rule id (List.concat segs) = nth k segs [].
Proof.
  unfold rule_order. intros H Hk. split_segments.
  do 15 (destruct k as [|k]; [inversion Hk; subst id; pick_segment|]).
  destruct k; discriminate.
Qed.

Lemma Forall2_nth_rule {A B : Type} (R : A -> B -> Prop) (la : list A)
      (lb : list B) (k : nat) (a : A) (d : B) :
  Forall2 R la lb -> nth_error la k = Some a -> R a (nth k lb d).
Proof.
  intros H. revert k. induction H as [|x y la lb Hxy _ IH]; intros k Hk.
  - destruct k; discriminate.
  - destruct k as [|k]; simpl in *; [now inversion Hk; subst|now apply IH].
Qed.

(** The violations of one rule in the output of the engine are what the
    rule reports alone. *)
Lemma engine_rule (k : nat) (id : string)
      (rule : NASAComplianceChecker -> exc NASAComplianceChecker)
      (code : string) :
  nth_error rules k = Some rule -> nth_error rule_order k = Some id ->
  exists vs self seg,
    check_code code = Ok (vs, self)
    /\ rule_alone rule (Py.split newline code) = Ok seg
    /\ with_rule id vs = seg.
Proof.
  intros Hr Hid.
  destruct (run_rules_alone (Py.split newline code)) as [segs [E [HA HI]]].
  exists (List.concat segs). eexists. exists (nth k segs []).
  split; [|split].
  - unfold check_code, check_all_rules.
    change (reset (load_code code init)) with (fresh (Py.split newline code)).
    rewrite E. cbn [bind violations prepend fresh]. now rewrite app_nil_r.
  - exact (Forall2_nth_rule _ _ _ k rule [] HA Hr).
  - exact (with_rule_concat_pick segs k id HI Hid).
Qed.

Lemma on_line_with_rule (id : string) (n : nat) (vs : list Violation) :
  with_rule id (on_line n vs) = on_line n (with_rule id vs).
Proof. unfold with_rule, on_line. apply filters_commute. Qed.

(** ** Rule 1 *)

Lemma recursion_loop_exact (v : Violation) (func_name : string)
      (l : list string) :
  forall (start : nat) (s : NASAComplianceChecker),
    for_each
      (fun (jl : nat * string) self =>
         let check_line := snd jl in
         if Py.contains (func_name ++ "(") check_line
            && negb (is_comment check_line)
         then Ok (append v self, Break)
         else Ok (self, Next))
      (Py.enumerate start l) s
    = Ok (extend (if existsb (calls_name func_name) l then [v] else []) s).
Proof.
  induction l as [|c l IH]; intros start s; simpl.
  - now rewrite extend_nil.
  - unfold calls_name at 1.
    destruct (Py.contains (func_name ++ "(") c && negb (is_comment c)); simpl.
    + reflexivity.
    + apply IH.
Qed.

Lemma rule_1_exact (self : NASAComplianceChecker) :
  _check_rule_1_flow_control self
  = Ok (extend (flat_map (rule_1_line (code_lines self))
                         (Py.enumerate 1 (code_lines self))) self).
Proof.
  unfold _check_rule_1_flow_control, lines_loop.
  apply (for_each_extend_in _ _ (code_lines self)); [|reflexivity].
  intros [i line] s _ HL. cbn [fst snd].
  unfold rule_1_line, rule_1_recursion. cbn [fst snd].
  rewrite !when_extend, extend_extend.
  destruct (Re.search Pat.call_block line).
  2:{ cbn [bind]. now rewrite app_nil_r. }
  destruct (Re.search Pat.call_block_name line).
  2:{ cbn [bind]. now rewrite app_nil_r. }
  unfold recursion_scan. cbn [code_lines extend].
  rewrite recursion_loop_exact. cbn [bind]. rewrite HL, extend_extend.
  now rewrite app_assoc.
Qed.

Lemma rule_1_recursion_cases (lines : list string) (il : nat * string) :
  rule_1_recursion lines il = []
  \/ rule_1_recursion lines il = [recursion_violation (fst il) (snd il)].
Proof.
  unfold rule_1_recursion.
  destruct (Re.search Pat.call_block (snd il)); [|now left].
  destruct (Re.search Pat.call_block_name (snd il)); [|now left].
  destruct (existsb _ (skipn (fst il) lines)); [now right|now left].
Qed.

Lemma rule_1_line_numbers (lines : list string) (il : nat * string) :
  Forall (fun v => line_number v = fst il) (rule_1_line lines il).
Proof.
  unfold rule_1_line. apply Forall_app. split.
  { destruct (Py.contains "goto" (snd il) && negb (is_comment (snd il)));
      repeat constructor. }
  apply Forall_app. split.
  { destruct ((Py.contains "setjmp" (snd il) || Py.contains "longjmp" (snd il))
              && negb (is_comment (snd il))); repeat constructor. }
  destruct (rule_1_recursion_cases lines il) as [-> | ->]; repeat constructor.
Qed.

(** X11. Rule 1 on a line: a [goto], then a [setjmp] or [longjmp], each
    reported once as critical unless the stripped line starts with [//],
    then at most one report from the recursion check. *)
Theorem rule_1_reports_jumps (code : string) (n : nat) (line : string) :
  nth_error (Py.split newline code) n = Some line ->
  exists vs self rest,
    check_code code = Ok (vs, self)
    /\ with_rule "rule_1" (on_line (S n) vs)
       = (if Py.contains "goto" line && negb (is_comment line)
          then [goto_violation (S n) line] else [])
         ++ (if (Py.contains "setjmp" line || Py.contains "longjmp" line)
                && negb (is_comment line)
             then [setjmp_violation (S n) line] else [])
         ++ rest
    /\ (rest = [] \/ rest = [recursion_violation (S n) line])
    /\ severity (goto_violation (S n) line) = CRITICAL
    /\ severity (setjmp_violation (S n) line) = CRITICAL.
Proof.
  intros Hn.
  destruct (engine_rule 0 "rule_1" _check_rule_1_flow_control code
              eq_refl eq_refl) as [vs [self [seg [E [HA HW]]]]].
  exists vs, self, (rule_1_recursion (Py.split newline code) (S n, line)).
  split; [exact E|]. split; [|split; [|split; reflexivity]].
  - rewrite on_line_with_rule, HW.
    unfold rule_alone in HA. rewrite rule_1_exact in HA.
    cbn [map_exc violations extend fresh app code_lines] in HA.
    inversion HA; subst seg.
    apply (on_line_flat_map (rule_1_line (Py.split newline code)) _ 1 n line
             (rule_1_line_numbers _) Hn).
  - apply (rule_1_recursion_cases (Py.split newline code) (S n, line)).
Qed.

Lemma rule_1_reports_jumps_witness :
  exists vs self rest,
    check_code goto_and_longjmp_sample = Ok (vs, self)
    /\ with_rule "rule_1" (on_line 1 vs)
       = [goto_violation 1 goto_and_longjmp_sample]
         ++ [setjmp_violation 1 goto_and_longjmp_sample] ++ rest
    /\ (rest = [] \/ rest = [recursion_violation 1 goto_and_longjmp_sample])
    /\ severity (goto_violation 1 goto_and_longjmp_sample) = CRITICAL
    /\ severity (setjmp_violation 1 goto_and_longjmp_sample) = CRITICAL.
Proof.
  apply (rule_1_reports_jumps goto_and_longjmp_sample 0
           goto_and_longjmp_sample).
  reflexivity.
Defined.

(** ** The type-safety rule *)

Lemma type_safety_exact (self : NASAComplianceChecker) :
  _check_type_safety self
  = Ok (extend (flat_map (type_safety_line (code_lines self))
                         (Py.enumerate 1 (code_lines self))) self).
Proof.
  unfold _check_type_safety, lines_loop.
  apply (for_each_extend_in _ _ (code_lines self)); [|reflexivity].
  intros [i line] s _ HL. cbn [fst snd]. unfold type_safety_line.
  cbn [fst snd]. now rewrite when_extend, HL.
Qed.

Lemma type_safety_line_numbers (lines : list string) (il : nat * string) :
  Forall (fun v => line_number v = fst il) (type_safety_line lines il).
Proof.
  unfold type_safety_line.
  match goal with |- context [if ?c then _ else _] => destruct c end;
    repeat constructor.
Qed.

Lemma startswith_app (a b sub : string) :
  Py.startswith a sub = true -> Py.startswith (a ++ b) sub = true.
Proof.
  revert a. induction sub as [|c sub IH]; intros a H; [reflexivity|].
  destruct a as [|d a]; [discriminate|]. simpl in *.
  apply andb_true_iff in H. destruct H as [H1 H2].
  now rewrite H1, (IH a H2).
Qed.

Lemma contains_app_l (a b sub : string) :
  Py.contains sub a = true -> Py.contains sub (a ++ b) = true.
Proof.
  induction a as [|c a IH]; intros H.
  - simpl in H. rewrite orb_false_r in H.
    destruct sub; [destruct b; reflexivity|discriminate].
  - cbn [Py.contains] in H. apply orb_true_iff in H.
    change ((String c a ++ b)%string) with (String c (a ++ b)).
    cbn [Py.contains]. apply orb_true_iff. destruct H as [H|H].
    + left. apply (startswith_app (String c a) b sub H).
    + right. now apply IH.
Qed.

Lemma contains_app_r (a b sub : string) :
  Py.contains sub b = true -> Py.contains sub (a ++ b) = true.
Proof.
  intros H. induction a as [|c a IH]; [exact H|].
  change ((String c a ++ b)%string) with (String c (a ++ b)).
  cbn [Py.contains]. rewrite IH. apply orb_true_r.
Qed.

Lemma contains_join (sep sub l : string) (ls : list string) :
  In l ls -> Py.contains sub l = true ->
  Py.contains sub (Py.join sep ls) = true.
Proof.
  intros Hin Hc. induction ls as [|x rest IH]; [contradiction|].
  destruct Hin as [->|Hin].
  - destruct rest; [exact Hc|]. cbn [Py.join]. now apply contains_app_l.
  - specialize (IH Hin). destruct rest as [|y rest]; [contradiction|].
    cbn [Py.join]. apply contains_app_r. now apply contains_app_r.
Qed.

Lemma firstn_In_nth {A : Type} (l : list A) (k n : nat) (a : A) :
  k < n -> nth_error l k = Some a -> In a (firstn n l).
Proof.
  revert k n. induction l as [|b l IH]; intros k n Hk Hn.
  - destruct k; discriminate.
  - destruct n as [|n]; [lia|]. destruct k as [|k]; simpl in *.
    + left. now inversion Hn.
    + right. apply (IH k n); [lia|exact Hn].
Qed.

Lemma nth_error_Some_length {A : Type} (l : list A) (k : nat) (a : A) :
  nth_error l k = Some a -> k < List.length l.
Proof. intros H. apply nth_error_Some. congruence. Qed.

Lemma on_line_late (f : nat * string -> list Violation) (l : list string)
      (start m : nat) :
  (forall il, Forall (fun v => line_number v = fst il) (f il)) ->
  start + List.length l <= m ->
  on_line m (flat_map f (Py.enumerate start l)) = [].
Proof.
  intros Hf. revert start. induction l as [|a l IH]; intros start Hm.
  - reflexivity.
  - cbn [Py.enumerate flat_map]. rewrite on_line_app.
    cbn [List.length] in Hm.
    rewrite (on_line_other f start m a Hf) by lia.
    rewrite IH by lia. reflexivity.
Qed.

(** X12. Once a line of the source contains [stdint.h], the type-safety
    rule reports neither that line nor any line after it, whatever [int]
    declarations they hold. *)
Theorem stdint_silences_type_safety (code : string) (k n : nat)
        (header : string) :
  k <= n ->
  nth_error (Py.split newline code) k = Some header ->
  Py.contains "stdint.h" header = true ->
  exists vs self,
    check_code code = Ok (vs, self)
    /\ with_rule "style_type_safety" (on_line (S n) vs) = [].
Proof.
  intros Hk Hh Hc.
  destruct (engine_rule 14 "style_type_safety" _check_type_safety code
              eq_refl eq_refl) as [vs [self [seg [E [HA HW]]]]].
  exists vs, self. split; [exact E|].
  rewrite on_line_with_rule, HW.
  unfold rule_alone in HA. rewrite type_safety_exact in HA.
  cbn [map_exc violations extend fresh app code_lines] in HA.
  inversion HA; subst seg.
  destruct (nth_error (Py.split newline code) n) as [line|] eqn:Hn.
  - pose proof (on_line_flat_map (type_safety_line (Py.split newline code))
                  _ 1 n line (type_safety_line_numbers _) Hn) as Q.
    cbn [Nat.add] in Q. rewrite Q.
    unfold type_safety_line. cbn [fst snd].
    rewrite (contains_join newline_str "stdint.h" header
               (firstn (S n) (Py.split newline code))); [|
      apply (firstn_In_nth _ k (S n)); [lia|exact Hh] | exact Hc].
    now rewrite andb_false_r.
  - apply nth_error_None in Hn.
    apply (on_line_late _ _ 1 (S n) (type_safety_line_numbers _)). lia.
Qed.

Lemma stdint_silences_type_safety_witness :
  exists vs self,
    check_code stdint_sample = Ok (vs, self)
    /\ with_rule "style_type_safety" (on_line 3 vs) = [].
Proof.
  apply (stdint_silences_type_safety stdint_sample 1 2 "#include <stdint.h>").
  - lia.
  - reflexivity.
  - reflexivity.
Defined.

(** ** Rule 9 *)

(** A greedy repetition ends in a match when the rest of the pattern
    matches after some run of characters of the class. *)
Lemma star_some {R : Type} (p : ascii -> bool) (k : Re.cont R)
      (w rest : string) (cs : Re.captures) :
  all_chars p w = true ->
  (forall prev, Re.is_some (k prev rest cs) = true) ->
  forall prev, Re.is_some (Re.star p k prev (w ++ rest) cs) = true.
Proof.
  intros Hw Hk. induction w as [|c w IH]; intros prev.
  - cbn [String.append]. destruct rest as [|c r]; cbn [Re.star]; [apply Hk|].
    destruct (p c); [|apply Hk].
    destruct (Re.star p k (Some c) r cs); [reflexivity|apply Hk].
  - cbn [all_chars] in Hw. apply andb_true_iff in Hw. destruct Hw as [Hc Hw].
    change ((String c w ++ rest)%string) with (String c (w ++ rest)).
    cbn [Re.star]. rewrite Hc. specialize (IH Hw (Some c)).
    destruct (Re.star p k (Some c) (w ++ rest) cs); [reflexivity|discriminate].
Qed.

(** A search finds a match when the pattern matches at some position. *)
Lemma search_some (r : Re.regex) (pre s : string) :
  (forall prev pos, Re.is_some (Re.match_at r prev s pos) = true) ->
  Re.is_some (Re.search r (pre ++ s)) = true.
Proof.
  intros H. unfold Re.search. generalize (@None ascii) as prev.
  generalize 0 as pos.
  induction pre as [|c pre IH]; intros pos prev.
  - cbn [String.append]. specialize (H prev pos).
    destruct s; cbn [Re.search_from];
      destruct (Re.match_at r prev _ pos); try reflexivity; discriminate.
  - change ((String c pre ++ s)%string) with (String c (pre ++ s)).
    cbn [Re.search_from].
    destruct (Re.match_at r prev (String c (pre ++ s)) pos); [reflexivity|].
    apply IH.
Qed.

Lemma is_some_or_else {A : Type} (x y : option A) :
  Re.is_some x = true ->
  Re.is_some (match x with Some m => Some m | None => y end) = true.
Proof. destruct x; [reflexivity|discriminate]. Qed.

Lemma condition_tail_matches (sp a b post : string)
      (k : Re.cont Re.match_obj) :
  all_chars Py.isspace sp = true ->
  all_chars (Re.not_chr ")") a = true ->
  all_chars (Re.not_chr ")") b = true ->
  (forall p s' cs', Re.is_some (k p s' cs') = true) ->
  forall p0 cs,
    Re.is_some
      (Re.star Py.isspace
         (fun p1 s1 cs1 =>
            Re.run
              (Re.seqs [Re.chr "("; Pat.not_rparen; Re.chr "="; Pat.ws;
                        Pat.not_rparen; Re.chr ")"])
              p1 s1 cs1 k)
         p0 (sp ++ "(" ++ a ++ "=" ++ b ++ ")" ++ post) cs) = true.
Proof.
  intros Hsp Ha Hb Hk p0 cs.
  apply (star_some Py.isspace _ sp); [exact Hsp|]. intros p1.
  change (Re.is_some
            (Re.star (Re.not_chr ")")
               (fun p2 s2 cs2 =>
                  Re.run
                    (Re.seqs [Re.chr "="; Pat.ws; Pat.not_rparen; Re.chr ")"])
                    p2 s2 cs2 k)
               (Some "("%char) (a ++ "=" ++ b ++ ")" ++ post) cs) = true).
  apply (star_some (Re.not_chr ")") _ a); [exact Ha|]. intros p2.
  change (Re.is_some
            (Re.star Py.isspace
               (fun p3 s3 cs3 =>
                  Re.run (Re.seqs [Pat.not_rparen; Re.chr ")"]) p3 s3 cs3 k)
               (Some "="%char) ("" ++ b ++ ")" ++ post) cs) = true).
  apply (star_some Py.isspace _ EmptyString); [reflexivity|]. intros p3.
  change (Re.is_some
            (Re.star (Re.not_chr ")")
               (fun p4 s4 cs4 => Re.run (Re.chr ")") p4 s4 cs4 k)
               p3 (b ++ ")" ++ post) cs) = true).
  apply (star_some (Re.not_chr ")") _ b); [exact Hb|]. intros p4.
  apply Hk.
Qed.

Lemma condition_assignment_matches (kw sp a b post : string) :
  kw = "if" \/ kw = "while" ->
  all_chars Py.isspace sp = true ->
  all_chars (Re.not_chr ")") a = true ->
  all_chars (Re.not_chr ")") b = true ->
  forall prev pos,
    Re.is_some
      (Re.match_at Pat.condition_assignment prev
         (kw ++ sp ++ "(" ++ a ++ "=" ++ b ++ ")" ++ post) pos) = true.
Proof.
  intros Hkw Hsp Ha Hb prev pos. unfold Re.match_at.
  set (rest := (sp ++ "(" ++ a ++ "=" ++ b ++ ")" ++ post)%string).
  destruct Hkw as [-> | ->].
  - set (k := fun (_ : option ascii) (s' : string) (cs : Re.captures) =>
                Some {| Re.m_start := pos;
                        Re.m_end := pos + (String.length ("if" ++ rest)
                                           - String.length s');
                        Re.m_groups := cs |}).
    change (Re.is_some
              (Re.star Py.isspace
                 (fun p1 s1 cs1 =>
                    Re.run
                      (Re.seqs [Re.chr "("; Pat.not_rparen; Re.chr "=";
                                Pat.ws; Pat.not_rparen; Re.chr ")"])
                      p1 s1 cs1 k)
                 (Some "f"%char) rest
                 [(1, Re.consumed ("if" ++ rest) rest)]) = true).
    apply condition_tail_matches; try assumption. reflexivity.
  - set (k := fun (_ : option ascii) (s' : string) (cs : Re.captures) =>
                Some {| Re.m_start := pos;
                        Re.m_end := pos + (String.length ("while" ++ rest)
                                           - String.length s');
                        Re.m_groups := cs |}).
    change (Re.is_some
              match
                Re.star Py.isspace
                  (fun p1 s1 cs1 =>
                     Re.run
                       (Re.seqs [Re.chr "("; Pat.not_rparen; Re.chr "=";
                                 Pat.ws; Pat.not_rparen; Re.chr ")"])
                       p1 s1 cs1 k)
                  (Some "e"%char) rest
                  [(1, Re.consumed ("while" ++ rest) rest)]
              with
              | Some m => Some m
              | None => None
              end = true).
    apply is_some_or_else.
    apply condition_tail_matches; try assumption. reflexivity.
Qed.

(** X13. Rule 9 reports every line that holds [if] or [while], optional
    white space, and a parenthesis whose content has an [=] anywhere
    before the first closing parenthesis: the [=] of [==], [<=], [>=] and
    [!=] counts like the [=] of an assignment.  The line is reported
    exactly once by rule 9. *)
Theorem rule_9_reports_any_equals_sign
        (code : string) (n : nat) (pre kw sp a b post : string) :
  nth_error (Py.split newline code) n
  = Some (pre ++ kw ++ sp ++ "(" ++ a ++ "=" ++ b ++ ")" ++ post)%string ->
  kw = "if" \/ kw = "while" ->
  all_chars Py.isspace sp = true ->
  all_chars (Re.not_chr ")") a = true ->
  all_chars (Re.not_chr ")") b = true ->
  exists vs self,
    check_code code = Ok (vs, self)
    /\ with_rule "rule_9" (on_line (S n) vs)
       = [assignment_violation (S n)
            (pre ++ kw ++ sp ++ "(" ++ a ++ "=" ++ b ++ ")" ++ post)].
Proof.
  intros Hn Hkw Hsp Ha Hb.
  destruct (check_code_spec code) as [vs [self [segs [E [_ [_ [_ [_ H]]]]]]]].
  exists vs, self. split; [exact E|].
  rewrite (H n _ "rule_9" rule_9_line Hn eq_refl).
  unfold rule_9_line. cbn [fst snd].
  rewrite (search_some Pat.condition_assignment pre _
             (condition_assignment_matches kw sp a b post Hkw Hsp Ha Hb)).
  reflexivity.
Qed.

Lemma rule_9_reports_any_equals_sign_witness :
  exists vs self,
    check_code equality_test_sample = Ok (vs, self)
    /\ with_rule "rule_9" (on_line 1 vs)
       = [assignment_violation 1 equality_test_sample].
Proof.
  apply (rule_9_reports_any_equals_sign equality_test_sample 0
           "  " "if" " " "a " "= b" " {").
  - reflexivity.
  - now left.
  - reflexivity.
  - reflexivity.
  - reflexivity.
Defined.

(** ** The comment rule and the error-handling rule *)

Lemma skipn_nth_cons {A : Type} (l : list A) (n : nat) (a : A) :
  nth_error l n = Some a -> skipn n l = a :: skipn (S n) l.
Proof.
  revert n. induction l as [|b l IH]; intros n H.
  - destruct n; discriminate.
  - destruct n as [|n]; simpl in *; [now inversion H|now apply IH].
Qed.

Lemma index_nth {A : Type} (l : list A) (j : nat) (a : A) :
  nth_error l j = Some a -> Py.index l (Z.of_nat j) = Ok a.
Proof.
  intros H. unfold Py.index.
  assert (E : (Z.of_nat j <? 0)%Z = false) by (apply Z.ltb_ge; lia).
  now rewrite E, E, Nat2Z.id, H.
Qed.

(** A loop that looks for a line with [P] among the lines of the indices
    [lo], ..., [lo + len - 1] and stops at the first. *)
Lemma any_loop_exact (P : string -> bool) (lines : list string) (len : nat) :
  forall (lo : nat) (b : bool),
    lo + len <= List.length lines ->
    for_each
      (fun (j : nat) (acc : bool) =>
         l <- Py.index lines (Z.of_nat j) ;;
         if P l then Ok (true, Break) else Ok (acc, Next))
      (seq lo len) b
    = Ok (existsb P (firstn len (skipn lo lines)) || b).
Proof.
  induction len as [|len IH]; intros lo b H.
  - reflexivity.
  - destruct (nth_error lines lo) as [x|] eqn:N;
      [|apply nth_error_None in N; lia].
    cbn [seq for_each]. rewrite (index_nth _ _ _ N). cbn [bind].
    rewrite (skipn_nth_cons _ _ _ N). cbn [firstn existsb].
    destruct (P x); cbn [snd fst orb]; [reflexivity|].
    apply IH. lia.
Qed.

Lemma isword_not_space (c : ascii) :
  Py.isword c = true -> Py.isspace c = false.
Proof.
  destruct c as [[] [] [] [] [] [] [] []]; vm_compute; congruence.
Qed.

Lemma isword_not_slash (c : ascii) :
  Py.isword c = true -> Ascii.eqb "/" c = false.
Proof.
  destruct c as [[] [] [] [] [] [] [] []]; vm_compute; congruence.
Qed.

(** A line that starts with a word character is not a comment line. *)
Lemma word_start_no_comment (c : ascii) (s : string) :
  Py.isword c = true -> comment_start (String c s) = false.
Proof.
  intros H. unfold comment_start, Py.strip. cbn [Py.lstrip].
  rewrite (isword_not_space c H). cbn [Py.rstrip].
  rewrite (isword_not_space c H).
  destruct (Py.rstrip s); cbn [Py.startswith];
    now rewrite (isword_not_slash c H).
Qed.

Lemma signature_starts_with_word (line : string) :
  Re.is_some (Re.rmatch Pat.signature line) = true ->
  exists c s, line = String c s /\ Py.isword c = true.
Proof.
  destruct line as [|c s]; [discriminate|].
  intros H. exists c, s. split; [reflexivity|].
  unfold Re.rmatch, Re.match_at, Pat.signature, Pat.word, Re.plus in H.
  cbn [Re.seqs Re.run] in H.
  destruct (Py.isword c); [reflexivity|discriminate].
Qed.

(** The lines [range(max(0, i-3), i)] visits, for the line [i] of a
    signature: the two above it and the line itself, which is no comment. *)
Lemma comment_above_exact (lines : list string) (n : nat) (line : string) :
  nth_error lines n = Some line ->
  Re.is_some (Re.rmatch Pat.signature line) = true ->
  comment_above lines (S n) = Ok (existsb comment_start (two_above lines n)).
Proof.
  intros Hn Hs. unfold comment_above, Py.range.
  assert (Hl : n < List.length lines) by (apply nth_error_Some; congruence).
  change (fun (j : nat) (has_comment : bool) =>
            l <- Py.index lines (Z.of_nat j) ;;
            if Py.startswith (Py.strip l) "//"
               || Py.startswith (Py.strip l) "/*"
            then Ok (true, Break) else Ok (has_comment, Next))
    with (fun (j : nat) (acc : bool) =>
            l <- Py.index lines (Z.of_nat j) ;;
            if comment_start l then Ok (true, Break) else Ok (acc, Next)).
  rewrite any_loop_exact by lia.
  rewrite orb_false_r. f_equal.
  rewrite Nat.max_0_l.
  rewrite firstn_skipn_comm.
  replace (S n - 3 + (S n - (S n - 3))) with (S n) by lia.
  replace (S n - 3) with (n - 2) by lia.
  unfold two_above.
  assert (F : firstn (S n) lines = firstn n lines ++ [line]).
  { clear Hs Hl. revert n Hn. induction lines as [|a l IH]; intros n Hn.
    - destruct n; discriminate.
    - destruct n as [|n]; simpl in Hn.
      + now inversion Hn.
      + cbn [firstn app]. f_equal. now apply IH. }
  rewrite F, skipn_app, existsb_app.
  assert (L : List.length (firstn n lines) = n)
    by (rewrite length_firstn; lia).
  rewrite L. replace (n - 2 - n) with 0 by lia.
  cbn [skipn existsb].
  destruct (signature_starts_with_word line Hs) as [c [s [-> Hc]]].
  rewrite (word_start_no_comment c s Hc). now rewrite !orb_false_r.
Qed.

Lemma comment_coverage_exact (self : NASAComplianceChecker) :
  _check_comment_coverage self
  = Ok (extend (flat_map (comment_coverage_line (code_lines self))
                         (Py.enumerate 1 (code_lines self))) self).
Proof.
  unfold _check_comment_coverage, lines_loop.
  apply (for_each_extend_in _ _ (code_lines self)); [|reflexivity].
  intros [i line] s Hin HL. cbn [fst snd]. unfold comment_coverage_line.
  cbn [fst snd].
  destruct (Re.is_some (Re.rmatch Pat.signature line)) eqn:Hs.
  - apply enumerate_lines_nth in Hin. destruct Hin as [Hi Hn].
    rewrite HL.
    replace i with (S (i - 1)) at 1 by lia.
    rewrite (comment_above_exact _ _ _ Hn Hs). cbn [bind andb].
    now rewrite when_extend.
  - cbn [andb]. now rewrite extend_nil.
Qed.

Lemma comment_coverage_line_numbers (lines : list string) (il : nat * string) :
  Forall (fun v => line_number v = fst il) (comment_coverage_line lines il).
Proof.
  unfold comment_coverage_line.
  match goal with |- context [if ?c then _ else _] => destruct c end;
    repeat constructor.
Qed.

(** X14. The comment rule sees two lines: a line that matches the
    signature pattern is reported unless one of the two lines right above
    it starts, after white space, with [//] or [/*].  The third line the
    loop visits is the signature line itself, which never starts a
    comment; so a header comment three lines up does not count, and a
    signature on the first line of the file is always reported. *)
Theorem comment_rule_sees_two_lines (code : string) (n : nat) (line : string) :
  nth_error (Py.split newline code) n = Some line ->
  exists vs self,
    check_code code = Ok (vs, self)
    /\ with_rule "style_comments" (on_line (S n) vs)
       = if Re.is_some (Re.rmatch Pat.signature line)
            && negb (existsb comment_start
                       (two_above (Py.split newline code) n))
         then [comment_violation (S n) line] else [].
Proof.
  intros Hn.
  destruct (engine_rule 12 "style_comments" _check_comment_coverage code
              eq_refl eq_refl) as [vs [self [seg [E [HA HW]]]]].
  exists vs, self. split; [exact E|].
  rewrite on_line_with_rule, HW.
  unfold rule_alone in HA. rewrite comment_coverage_exact in HA.
  cbn [map_exc violations extend fresh app code_lines] in HA.
  inversion HA; subst seg.
  pose proof (on_line_flat_map (comment_coverage_line (Py.split newline code))
                _ 1 n line (comment_coverage_line_numbers _) Hn) as Q.
  cbn [Nat.add] in Q. rewrite Q.
  unfold comment_coverage_line. cbn [fst snd].
  now replace (S n - 1) with n by lia.
Qed.

Lemma comment_rule_sees_two_lines_witness :
  exists vs self,
    check_code far_comment_sample = Ok (vs, self)
    /\ with_rule "style_comments" (on_line 4 vs)
       = [comment_violation 4 "int inc(int v) {"].
Proof.
  apply (comment_rule_sees_two_lines far_comment_sample 3 "int inc(int v) {").
  reflexivity.
Defined.

Lemma error_handling_below_exact (lines : list string) (i : nat) :
  error_handling_below lines i
  = Ok (existsb mentions_error (firstn 20 (skipn i lines))).
Proof.
  unfold error_handling_below, Py.range.
  change (fun (j : nat) (has_error_handling : bool) =>
            l <- Py.index lines (Z.of_nat j) ;;
            if Py.contains "error" (Py.lower l) || Py.contains "return" l
            then Ok (true, Break) else Ok (has_error_handling, Next))
    with (fun (j : nat) (acc : bool) =>
            l <- Py.index lines (Z.of_nat j) ;;
            if mentions_error l then Ok (true, Break) else Ok (acc, Next)).
  destruct (Nat.le_gt_cases i (List.length lines)) as [Hi|Hi].
  - rewrite any_loop_exact by lia. rewrite orb_false_r. f_equal. f_equal.
    destruct (Nat.le_gt_cases (i + 20) (List.length lines)) as [H|H].
    + f_equal. lia.
    + rewrite Nat.min_r by lia.
      rewrite !firstn_all2; [reflexivity| |]; rewrite length_skipn; lia.
  - replace (Nat.min (i + 20) (List.length lines) - i) with 0 by lia.
    rewrite skipn_all2 by lia. rewrite firstn_nil. reflexivity.
Qed.

Lemma error_handling_exact (self : NASAComplianceChecker) :
  _check_error_handling self
  = Ok (extend (flat_map (error_handling_line (code_lines self))
                         (Py.enumerate 1 (code_lines self))) self).
Proof.
  unfold _check_error_handling, lines_loop.
  apply (for_each_extend_in _ _ (code_lines self)); [|reflexivity].
  intros [i line] s _ HL. cbn [fst snd]. unfold error_handling_line.
  cbn [fst snd].
  destruct (Re.is_some (Re.rmatch Pat.void_signature line)).
  - rewrite HL, error_handling_below_exact. cbn [bind andb].
    now rewrite when_extend.
  - cbn [andb]. now rewrite extend_nil.
Qed.

Lemma error_handling_line_numbers (lines : list string) (il : nat * string) :
  Forall (fun v => line_number v = fst il) (error_handling_line lines il).
Proof.
  unfold error_handling_line.
  match goal with |- context [if ?c then _ else _] => destruct c end;
    repeat constructor.
Qed.

(** X15. The error-handling rule looks below the signature: a line that
    matches the [void] signature pattern is reported unless one of the
    twenty lines after it (fewer at the end of the file) holds [error] in
    any case or [return].  The signature line itself is not looked at,
    and the lines looked at need not belong to the function. *)
Theorem error_rule_looks_below (code : string) (n : nat) (line : string) :
  nth_error (Py.split newline code) n = Some line ->
  exists vs self,
    check_code code = Ok (vs, self)
    /\ with_rule "style_error_handling" (on_line (S n) vs)
       = if Re.is_some (Re.rmatch Pat.void_signature line)
            && negb (existsb mentions_error
                       (firstn 20 (skipn (S n) (Py.split newline code))))
         then [error_handling_violation (S n) line] else [].
Proof.
  intros Hn.
  destruct (engine_rule 13 "style_error_handling" _check_error_handling code
              eq_refl eq_refl) as [vs [self [seg [E [HA HW]]]]].
  exists vs, self. split; [exact E|].
  rewrite on_line_with_rule, HW.
  unfold rule_alone in HA. rewrite error_handling_exact in HA.
  cbn [map_exc violations extend fresh app code_lines] in HA.
  inversion HA; subst seg.
  pose proof (on_line_flat_map (error_handling_line (Py.split newline code))
                _ 1 n line (error_handling_line_numbers _) Hn) as Q.
  cbn [Nat.add] in Q. rewrite Q. reflexivity.
Qed.

Lemma error_rule_looks_below_witness :
  exists vs self,
    check_code one_line_void_sample = Ok (vs, self)
    /\ with_rule "style_error_handling" (on_line 1 vs)
       = [error_handling_violation 1 one_line_void_sample].
Proof.
  apply (error_rule_looks_below one_line_void_sample 0 one_line_void_sample).
  reflexivity.
Defined.

(** ** The constructor and the adapters of the integrator *)

Lemma probe_value_ok
      (subprocess_run : list string -> nat -> exc CompletedProcess)
      (binary : string) :
  (exists b, probe_value subprocess_run binary = Ok b)
  <-> (forall e, subprocess_run [binary; "--version"] 5 = Raise e ->
                 e = TimeoutExpired \/ e = FileNotFoundError).
Proof.
  unfold probe_value.
  destruct (subprocess_run [binary; "--version"] 5) as [r|e].
  - split; [discriminate|eauto].
  - split.
    + intros [b H] e' He'. inversion He'; subst e'.
      destruct e; try discriminate; auto.
    + intros H. destruct (H e eq_refl) as [-> | ->]; eauto.
Qed.

(** X16. The constructor returns an integrator exactly when no version
    check raises anything but [TimeoutExpired] and [FileNotFoundError]:
    these two make a tool unavailable, and every other exception of
    [subprocess.run] (the [PermissionError] of a binary that may not be
    executed, for one) leaves [__init__]. *)
Theorem constructor_succeeds_iff_probes_do
        (subprocess_run : list string -> nat -> exc CompletedProcess)
        (cfg : pyval) (tr : trace) :
  (exists self tr', __init__ subprocess_run cfg tr = (Ok self, tr'))
  <-> (forall binary e,
          In binary the_binaries ->
          subprocess_run [binary; "--version"] 5 = Raise e ->
          e = TimeoutExpired \/ e = FileNotFoundError).
Proof.
  split.
  - intros [self [tr' H]].
    destruct (init_spec _ _ _ _ _ H) as [a [b [c [d [Ha [Hb [Hc [Hd _]]]]]]]].
    intros binary e Hin. simpl in Hin.
    destruct Hin as [<-|[<-|[<-|[<-|[]]]]];
      apply (proj1 (probe_value_ok subprocess_run _)); eauto.
  - intros H.
    assert (P : forall binary, In binary the_binaries ->
                               exists b, probe_value subprocess_run binary = Ok b).
    { intros binary Hin. apply (proj2 (probe_value_ok subprocess_run binary)).
      intros e. now apply H. }
    destruct (P "cppcheck") as [a Ha]; [simpl; auto|].
    destruct (P "clang-tidy") as [b Hb]; [simpl; auto|].
    destruct (P "splint") as [c Hc]; [simpl; auto|].
    destruct (P "flawfinder") as [d Hd]; [simpl; auto 6|].
    unfold __init__, _check_cppcheck_available, _check_clang_tidy_available,
      _check_splint_available, _check_flawfinder_available.
    io_unfold.
    rewrite version_check_spec, Ha. cbv beta iota.
    rewrite version_check_spec, Hb. cbv beta iota.
    rewrite version_check_spec, Hc. cbv beta iota.
    rewrite version_check_spec, Hd. cbv beta iota.
    eexists. eexists. reflexivity.
Qed.

(** X17. A return code the adapter does not accept gives no findings and
    no log record: the adapter of an available tool launches the tool
    once and, when the tool ends with a code other than 0 or 1 (other
    than 0 for flawfinder), returns the empty list without entering its
    parser.  A tool that crashed reads like a tool that found nothing. *)
Theorem unaccepted_exit_code_is_silent
        (subprocess_run : list string -> nat -> exc CompletedProcess)
        (json_loads : string -> exc pyval)
        (self : StaticAnalysisIntegrator) (path key : string)
        (result : CompletedProcess) (tr : trace) :
  In key the_keys ->
  Dict.get (tools self) key = Some true ->
  subprocess_run (tool_command key path) 60 = Ok result ->
  accepted_code key (returncode result) = false ->
  run_of_key subprocess_run json_loads key self path tr
  = (Ok [], tr ++ [Call (run_method key); Launch (tool_command key path) 60]).
Proof.
  intros Hk Ha Hr Hc. simpl in Hk.
  destruct Hk as [<-|[<-|[<-|[<-|[]]]]];
    cbn [run_of_key tool_command accepted_code run_method String.eqb
         Ascii.eqb Bool.eqb] in *;
    [ unfold run_cppcheck | unfold run_clang_tidy | unfold run_splint
    | unfold run_flawfinder ];
    io_unfold; rewrite Ha; cbn [negb];
    try (unfold clang_tidy_cmd in Hr); rewrite Hr; rewrite Hc; trace_eq.
Qed.

Lemma unaccepted_exit_code_is_silent_witness :
  run_of_key flawfinder_fails sample_loads "flawfinder" flawfinder_only_integrator "a.c" []
  = (Ok [],
     [] ++ [Call (run_method "flawfinder");
            Launch (tool_command "flawfinder" "a.c") 60]).
Proof.
  apply (unaccepted_exit_code_is_silent
           flawfinder_fails sample_loads flawfinder_only_integrator "a.c" "flawfinder"
           {| returncode := 1; stdout := "Risk level 4: strcpy" |} []).
  - simpl. auto 6.
  - reflexivity.
  - reflexivity.
  - reflexivity.
Defined.

(** The dictionary [run_all_tools] builds, entry by entry. *)
Lemma run_all_tools_shape
      (subprocess_run : list string -> nat -> exc CompletedProcess)
        (json_loads : string -> exc pyval)
      (self : StaticAnalysisIntegrator) (path : string) (a b c d : bool) :
  tools self = [("cppcheck", a); ("clang_tidy", b); ("splint", c);
                ("flawfinder", d)] ->
  exists evs,
    forall tr,
      run_all_tools subprocess_run json_loads self path tr
      = (Ok (map (fun key => (key, adapter_value subprocess_run json_loads key self path))
                 (filter (available self) the_keys)),
         tr ++ evs).
Proof.
  intros Ht.
  assert (Ha : Dict.get (tools self) "cppcheck" = Some a) by now rewrite Ht.
  assert (Hb : Dict.get (tools self) "clang_tidy" = Some b) by now rewrite Ht.
  assert (Hc : Dict.get (tools self) "splint" = Some c) by now rewrite Ht.
  assert (Hd : Dict.get (tools self) "flawfinder" = Some d) by now rewrite Ht.
  assert (K1 : In "cppcheck" the_keys) by (simpl; auto).
  assert (K2 : In "clang_tidy" the_keys) by (simpl; auto).
  assert (K3 : In "splint" the_keys) by (simpl; auto 6).
  assert (K4 : In "flawfinder" the_keys) by (simpl; auto 6).
  destruct (run_if_available_spec subprocess_run json_loads self path _ _ [] K1 Ha)
    as [e1 [E1 _]].
  set (r1 := if a then Dict.set [] "cppcheck"
                         (adapter_value subprocess_run json_loads "cppcheck" self path)
             else []) in *.
  destruct (run_if_available_spec subprocess_run json_loads self path _ _ r1 K2 Hb)
    as [e2 [E2 _]].
  set (r2 := if b then Dict.set r1 "clang_tidy"
                         (adapter_value subprocess_run json_loads "clang_tidy" self path)
             else r1) in *.
  destruct (run_if_available_spec subprocess_run json_loads self path _ _ r2 K3 Hc)
    as [e3 [E3 _]].
  set (r3 := if c then Dict.set r2 "splint"
                         (adapter_value subprocess_run json_loads "splint" self path)
             else r2) in *.
  destruct (run_if_available_spec subprocess_run json_loads self path _ _ r3 K4 Hd)
    as [e4 [E4 _]].
  set (r4 := if d then Dict.set r3 "flawfinder"
                         (adapter_value subprocess_run json_loads "flawfinder" self path)
             else r3) in *.
  exists ([Call "run_all_tools"] ++ e1 ++ e2 ++ e3 ++ e4).
  intros tr. unfold run_all_tools. cbv beta iota delta [iobind emit].
  change (run_cppcheck subprocess_run)
    with (run_of_key subprocess_run json_loads "cppcheck").
  change (run_clang_tidy subprocess_run json_loads)
    with (run_of_key subprocess_run json_loads "clang_tidy").
  change (run_splint subprocess_run)
    with (run_of_key subprocess_run json_loads "splint").
  change (run_flawfinder subprocess_run)
    with (run_of_key subprocess_run json_loads "flawfinder").
  rewrite E1. cbv beta iota. fold r1. rewrite E2. cbv beta iota. fold r2.
  rewrite E3. cbv beta iota. fold r3. rewrite E4. fold r4.
  f_equal; [|trace_eq]. f_equal.
  unfold the_keys. cbn [filter]. unfold available.
  rewrite Ha, Hb, Hc, Hd. unfold r4, r3, r2, r1.
  destruct a, b, c, d; reflexivity.
Qed.

(** X18. The dictionary [run_all_tools] returns for an integrator the
    constructor built holds the available tools and no other key, in the
    fixed order cppcheck, clang_tidy, splint, flawfinder, each with the
    list its adapter returns. *)
Theorem run_all_tools_keeps_tool_order
        (subprocess_run : list string -> nat -> exc CompletedProcess)
        (json_loads : string -> exc pyval)
        (cfg : pyval) (path : string) (tr0 tr1 : trace)
        (self : StaticAnalysisIntegrator) :
  __init__ subprocess_run cfg tr0 = (Ok self, tr1) ->
  exists evs,
    run_all_tools subprocess_run json_loads self path tr1
    = (Ok (map (fun key => (key, adapter_value subprocess_run json_loads key self path))
               (filter (available self) the_keys)),
       tr1 ++ evs).
Proof.
  intros H.
  destruct (init_spec _ _ _ _ _ H) as [a [b [c [d [_ [_ [_ [_ Ht]]]]]]]].
  destruct (run_all_tools_shape subprocess_run json_loads self path a b c d Ht)
    as [evs E].
  exists evs. apply E.
Qed.

Lemma run_all_tools_keeps_tool_order_witness :
  exists evs,
    run_all_tools splint_only sample_loads splint_only_integrator "a.c"
                  (snd (__init__ splint_only (PDict []) []))
    = (Ok (map (fun key => (key, adapter_value splint_only sample_loads key
                                   splint_only_integrator "a.c"))
               (filter (available splint_only_integrator) the_keys)),
       snd (__init__ splint_only (PDict []) []) ++ evs).
Proof.
  apply (run_all_tools_keeps_tool_order splint_only sample_loads (PDict []) "a.c" []
           (snd (__init__ splint_only (PDict []) [])) splint_only_integrator).
  reflexivity.
Defined.

(** ** The JSON export *)

Lemma first_file_path_cases
      (results : list (string * list StaticAnalysisResult)) :
  match results with
  | (_, []) :: rest =>
      first_file_path results
      = if existsb truthy (map snd rest) then Raise IndexError
        else Ok EmptyString
  | (_, result :: _) :: _ => first_file_path results = Ok (file_path result)
  | [] => first_file_path results = Ok EmptyString
  end.
Proof.
  destruct results as [|[k [|result l]] rest]; unfold first_file_path;
    cbn [map snd existsb truthy orb]; reflexivity.
Qed.



(** ** The clang-tidy parser on well-shaped output *)

Lemma get_method_dict (d : list (text * pyval)) (key : text)
      (default : pyval) :
  get_method (PDict d) key default
  = Ok (match dict_lookup d key with Some x => x | None => default end).
Proof. unfold get_method. now destruct (dict_lookup d key). Qed.

Lemma table_get_hashable (mapping : list (string * string)) (key : pyval)
      (default : string) :
  hashable key = true -> exists c, table_get mapping key default = Ok c.
Proof.
  destruct key; try discriminate; intros _; cbn [table_get]; eauto.
  destruct (find _ mapping); eauto.
Qed.

Lemma shaped_diagnostic_result (path : string) (diag : pyval) :
  shaped_diagnostic diag = true ->
  exists r, clang_tidy_result path diag = Ok r.
Proof.
  destruct diag as [| | | | |l|fields]; try discriminate.
  unfold shaped_diagnostic, clang_tidy_result, _map_clang_tidy_to_nasa.
  intros H. rewrite !get_method_dict. cbn [bind].
  destruct (table_get_hashable clang_tidy_mapping
              (match dict_lookup fields (codes "check_name") with
               | Some x => x
               | None => pstr EmptyString
               end) "style_general") as [c E].
  { destruct (dict_lookup fields (codes "check_name")); [exact H|reflexivity]. }
  rewrite E. cbn [bind]. eexists. reflexivity.
Qed.

Lemma diag_loop_shaped (path : string) (diags : list pyval) :
  forallb shaped_diagnostic diags = true ->
  forall acc, exists rs,
      diag_loop path diags acc = (acc ++ rs, None)
      /\ Forall2 (fun diag r => clang_tidy_result path diag = Ok r) diags rs.
Proof.
  induction diags as [|diag diags IH]; intros H acc.
  - exists []. split; [now rewrite app_nil_r|constructor].
  - cbn [forallb] in H. apply andb_true_iff in H. destruct H as [Hd Hr].
    destruct (shaped_diagnostic_result path diag Hd) as [r E].
    destruct (IH Hr (acc ++ [r])) as [rs [L F]].
    exists (r :: rs). split.
    + cbn [diag_loop]. rewrite E, L. now rewrite <- app_assoc.
    + now constructor.
Qed.

Lemma diagnostic_step_shaped (path : string) (item : pyval) :
  shaped_record item = true ->
  forall acc, exists rs,
      diagnostic_step path item acc = (acc ++ rs, None)
      /\ Forall2 (fun diag r => clang_tidy_result path diag = Ok r)
                 (record_diagnostics item) rs.
Proof.
  destruct item as [| | | | |l|d]; try discriminate.
  unfold shaped_record, record_diagnostics, diagnostic_step, contains_key,
    subscript.
  destruct (dict_lookup d (codes "diagnostics")) as [v|]; intros H acc.
  - destruct v; try discriminate. cbn [iterate].
    apply (diag_loop_shaped path l H acc).
  - exists []. split; [now rewrite app_nil_r|constructor].
Qed.

Lemma diagnostic_loop_shaped (path : string) (items : list pyval) :
  forallb shaped_record items = true ->
  forall acc, exists rs,
      diagnostic_loop path items acc = (acc ++ rs, None)
      /\ Forall2 (fun diag r => clang_tidy_result path diag = Ok r)
                 (flat_map record_diagnostics items) rs.
Proof.
  induction items as [|item items IH]; intros H acc.
  - exists []. split; [now rewrite app_nil_r|constructor].
  - cbn [forallb] in H. apply andb_true_iff in H. destruct H as [Hi Hr].
    destruct (diagnostic_step_shaped path item Hi acc) as [r1 [E1 F1]].
    destruct (IH Hr (acc ++ r1)) as [r2 [E2 F2]].
    exists (r1 ++ r2). split.
    + cbn [diagnostic_loop]. rewrite E1, E2. now rewrite <- app_assoc.
    + cbn [flat_map]. now apply Forall2_app.
Qed.

(** X20. On output that [json.loads] decodes to a list of objects, each
    with no [diagnostics] or with a list of objects under it, the clang-tidy
    parser returns one result per diagnostic, in the order of the
    document, each being what the parser makes of that diagnostic; it
    raises nothing and logs nothing.  (A [check_name] that is a list or
    an object is excluded: it cannot be looked up in the category
    table.) *)
Theorem clang_tidy_one_result_per_diagnostic (json_loads : string -> exc pyval)
        (json_output path : string) (items : list pyval) (tr : trace) :
  json_loads json_output = Ok (PList items) ->
  forallb shaped_record items = true ->
  exists results,
    _parse_clang_tidy_json json_loads json_output path tr
    = (Ok results, tr ++ [Call "_parse_clang_tidy_json"])
    /\ Forall2 (fun diag r => clang_tidy_result path diag = Ok r)
               (flat_map record_diagnostics items) results
    /\ Forall (fun r => tool_name r = "clang-tidy" /\ file_path r = path
                        /\ confidence r = 85) results.
Proof.
  intros HL HS.
  destruct (diagnostic_loop_shaped path items HS []) as [rs [E F]].
  exists rs. split; [|split; [exact F|]].
  - unfold _parse_clang_tidy_json, clang_tidy_try. io_unfold.
    rewrite HL. cbn [iterate]. rewrite E. reflexivity.
  - clear E. induction F as [|diag r ds rs' Hr _ IH]; constructor; [|exact IH].
    clear IH. unfold clang_tidy_result in Hr.
    repeat match type of Hr with
           | (bind ?m _) = _ =>
               destruct m; cbn [bind] in Hr; [|discriminate]
           end.
    inversion Hr; subst r. repeat split; reflexivity.
Qed.

Lemma clang_tidy_one_result_per_diagnostic_witness :
  exists results,
    _parse_clang_tidy_json sample_loads two_records_output "a.c" []
    = (Ok results, [] ++ [Call "_parse_clang_tidy_json"])
    /\ Forall2 (fun diag r => clang_tidy_result "a.c" diag = Ok r)
               (flat_map record_diagnostics two_records) results
    /\ Forall (fun r => tool_name r = "clang-tidy" /\ file_path r = "a.c"
                        /\ confidence r = 85) results.
Proof.
  apply (clang_tidy_one_result_per_diagnostic
           sample_loads two_records_output "a.c" two_records []).
  - vm_compute. reflexivity.
  - reflexivity.
Defined.

(** ** The rules that follow function boundaries *)

Lemma for_each_idle {A S : Type} (body : A -> S -> exc (S * flow))
      (l : list A) (st : S) :
  (forall a, In a l -> body a st = Ok (st, Next)) ->
  for_each body l st = Ok st.
Proof.
  induction l as [|a l IH]; intros H; [reflexivity|].
  cbn [for_each]. rewrite (H a (or_introl eq_refl)). cbn [bind snd fst].
  apply IH. intros b Hb. apply H. now right.
Qed.

Lemma enumerate_Forall {A : Type} (P : A -> Prop) (l : list A) (start i : nat)
      (a : A) :
  Forall P l -> In (i, a) (Py.enumerate start l) -> P a.
Proof.
  intros F H. apply enumerate_In in H. destruct H as [_ H].
  apply nth_error_In in H. rewrite Forall_forall in F. now apply F.
Qed.

(** X21. The three rules that follow function boundaries (rule 6, rule 7
    and the function-length rule) only see a function whose first line
    holds the return type, the name, the parameter list and the opening
    brace.  On a source without such a line (every function with its
    brace on the next line, for one) none of the three reports
    anything. *)
Theorem brace_on_next_line_hides_functions (code : string) :
  Forall (fun line => Re.is_some (Re.rmatch Pat.function_start line) = false)
         (Py.split newline code) ->
  exists vs self,
    check_code code = Ok (vs, self)
    /\ with_rule "rule_6" vs = []
    /\ with_rule "rule_7" vs = []
    /\ with_rule "style_function_length" vs = [].
Proof.
  intros H.
  destruct (engine_rule 5 "rule_6" _check_rule_6_variable_declarations code
              eq_refl eq_refl) as [vs [self [s6 [E [A6 W6]]]]].
  destruct (engine_rule 6 "rule_7" _check_rule_7_single_return code
              eq_refl eq_refl) as [vs7 [self7 [s7 [E7 [A7 W7]]]]].
  destruct (engine_rule 11 "style_function_length" _check_function_length code
              eq_refl eq_refl) as [vsL [selfL [sL [EL [AL WL]]]]].
  rewrite E in E7, EL. inversion E7; subst vs7 self7.
  inversion EL; subst vsL selfL. clear E7 EL.
  exists vs, self. split; [exact E|].
  rewrite W6, W7, WL. clear W6 W7 WL E.
  unfold rule_alone in *.
  assert (I6 : _check_rule_6_variable_declarations
                 (fresh (Py.split newline code))
               = Ok (fresh (Py.split newline code))).
  { unfold _check_rule_6_variable_declarations.
    rewrite for_each_idle; [reflexivity|].
    intros [i line] Hin. cbn [fst snd fresh code_lines] in *.
    rewrite (enumerate_Forall _ _ _ _ _ H Hin).
    cbn [scan0 in_function andb]. now rewrite andb_false_r. }
  assert (I7 : _check_rule_7_single_return (fresh (Py.split newline code))
               = Ok (fresh (Py.split newline code))).
  { unfold _check_rule_7_single_return.
    rewrite for_each_idle; [reflexivity|].
    intros [i line] Hin. cbn [fst snd fresh code_lines] in *.
    rewrite (enumerate_Forall _ _ _ _ _ H Hin).
    cbn [scan0 in_function andb]. now rewrite andb_false_r. }
  assert (IL : _check_function_length (fresh (Py.split newline code))
               = Ok (fresh (Py.split newline code))).
  { unfold _check_function_length.
    rewrite for_each_idle; [reflexivity|].
    intros [i line] Hin. cbn [fst snd fresh code_lines] in *.
    rewrite (enumerate_Forall _ _ _ _ _ H Hin).
    cbn [scan0 in_function andb]. now rewrite andb_false_r. }
  rewrite I6 in A6. rewrite I7 in A7. rewrite IL in AL.
  cbn [map_exc violations fresh] in *.
  inversion A6. inversion A7. inversion AL. auto.
Qed.

Lemma brace_on_next_line_hides_functions_witness :
  exists vs self,
    check_code brace_below_sample = Ok (vs, self)
    /\ with_rule "rule_6" vs = []
    /\ with_rule "rule_7" vs = []
    /\ with_rule "style_function_length" vs = [].
Proof.
  apply (brace_on_next_line_hides_functions brace_below_sample).
  repeat constructor.
Defined.

(** ** What the text parsers put into a finding *)

Lemma collect_Forall {A B : Type} (f : A -> exc B) (P : B -> Prop)
      (l : list A) :
  (forall a b, f a = Ok b -> P b) ->
  forall bs, collect f l = Ok bs -> Forall P bs.
Proof.
  intros Hf. induction l as [|a l IH]; intros bs H; simpl in H.
  - inversion H. constructor.
  - destruct (f a) as [b|e] eqn:E; [|discriminate]. cbn [bind] in H.
    destruct (collect f l) as [bs'|e]; [|discriminate]. cbn [bind] in H.
    inversion H; subst bs. constructor; [now apply (Hf a)|now apply IH].
Qed.

(** X22. A finding is attributed to the analysed file, not to the file
    the tool names: whatever cppcheck, splint or flawfinder wrote, every
    result of their parsers carries the path the parser was called with,
    the name of the tool and its fixed confidence (0.90, 0.80, 0.75); the
    file name splint prints in front of a message is matched and
    dropped.  A result of the flawfinder parser has line 0. *)
Theorem findings_are_attributed_to_the_analysed_file
        (output path : string) (results : list StaticAnalysisResult) :
  (cppcheck_findings output path = Ok results ->
   Forall (attributed "cppcheck" path 90) results)
  /\ (splint_findings output path = Ok results ->
      Forall (attributed "splint" path 80) results)
  /\ (flawfinder_findings output path = Ok results ->
      Forall (fun r => attributed "flawfinder" path 75 r
                       /\ sa_line_number r = PInt 0) results).
Proof.
  split; [|split]; apply collect_Forall; intros m r Hr.
  - destruct (match Re.search ToolPat.location_pattern
                            (Py.drop (Re.m_start m) output) with
              | Some location_match => group_int 1 location_match
              | None => Ok 0%Z
              end); [|discriminate].
    cbn [bind] in Hr.
    destruct (_map_cppcheck_to_nasa (group_value 1 m)); [|discriminate].
    cbn [bind] in Hr. inversion Hr. repeat split.
  - destruct (group_int 2 m); [|discriminate]. cbn [bind] in Hr.
    destruct (group_text 3 m); [|discriminate]. cbn [bind] in Hr.
    inversion Hr. repeat split.
  - destruct (group_int 1 m); [|discriminate]. cbn [bind] in Hr.
    destruct (group_text 2 m); [|discriminate]. cbn [bind] in Hr.
    inversion Hr. repeat split.
Qed.

Lemma findings_are_attributed_to_the_analysed_file_witness :
  exists r,
    splint_findings header_report "a.c" = Ok [r]
    /\ Forall (attributed "splint" "a.c" 80) [r].
Proof.
  eexists. split; [vm_compute; reflexivity|].
  apply (proj1 (proj2 (findings_are_attributed_to_the_analysed_file
                         header_report "a.c" _))).
  vm_compute. reflexivity.
Defined.

(** ** The naming rule *)

Lemma take_length (n : nat) (s : string) : String.length (Re.take n s) <= n.
Proof.
  revert s. induction n as [|n IH]; intros s; [reflexivity|].
  destruct s as [|c s]; simpl; [lia|]. specialize (IH s). lia.
Qed.

Lemma star_reaches_suffix {R : Type} (p : ascii -> bool) (k : Re.cont R)
      (prev : option ascii) (s : string) (cs : Re.captures) (x : R) :
  Re.star p k prev s cs = Some x ->
  exists prev' s', k prev' s' cs = Some x
                   /\ String.length s' <= String.length s.
Proof.
  revert prev. induction s as [|c s IH]; intros prev H; simpl in H.
  - eauto.
  - destruct (p c).
    + destruct (Re.star p k (Some c) s cs) as [y|] eqn:E.
      * inversion H; subst. apply IH in E.
        destruct E as [prev' [s' [Hk Hl]]]. exists prev', s'.
        split; [exact Hk|simpl; lia].
      * eauto.
    + eauto.
Qed.

(** A successful run reaches its continuation with no more text than it
    had, having matched no more than the width of the pattern, and with
    groups within their bounds. *)
Lemma run_within {R : Type} (bound : nat -> nat) (r : Re.regex) :
  groups_within bound r = true ->
  forall (prev : option ascii) (s : string) (cs : Re.captures)
         (k : Re.cont R) (x : R),
    Re.run r prev s cs k = Some x ->
    short_groups bound cs ->
    exists prev' s' cs',
      k prev' s' cs' = Some x
      /\ short_groups bound cs'
      /\ String.length s' <= String.length s
      /\ (forall w, width r = Some w ->
                    String.length s <= String.length s' + w).
Proof.
  induction r as [|p|p|r1 IH1|r1 IH1 r2 IH2|r1 IH1 r2 IH2|m r1 IH1|];
    intros G prev s cs k x H Hs; simpl in H, G.
  - exists prev, s, cs. repeat split; auto. intros w _. lia.
  - destruct s as [|c s]; [discriminate|]. destruct (p c); [|discriminate].
    exists (Some c), s, cs. repeat split; auto; simpl; [lia|].
    intros w Hw. inversion Hw. lia.
  - apply star_reaches_suffix in H. destruct H as [prev' [s' [H Hl]]].
    exists prev', s', cs. repeat split; auto. discriminate.
  - destruct (Re.run r1 prev s cs k) as [y|] eqn:E.
    + inversion H; subst. apply (IH1 G) in E; [|exact Hs]. exact E.
    + exists prev, s, cs. repeat split; auto. intros w _. lia.
  - apply andb_true_iff in G. destruct G as [G1 G2].
    apply (IH1 G1) in H; [|exact Hs].
    destruct H as [p1 [s1 [cs1 [H [Hs1 [Hl1 Hw1]]]]]].
    apply (IH2 G2) in H; [|exact Hs1].
    destruct H as [p2 [s2 [cs2 [H [Hs2 [Hl2 Hw2]]]]]].
    exists p2, s2, cs2. repeat split; auto; [lia|].
    intros w Hw. simpl in Hw.
    destruct (width r1) as [w1|]; [|discriminate].
    destruct (width r2) as [w2|]; [|discriminate].
    inversion Hw. specialize (Hw1 w1 eq_refl). specialize (Hw2 w2 eq_refl).
    lia.
  - apply andb_true_iff in G. destruct G as [G1 G2].
    assert (W : forall w s', width (Re.Alt r1 r2) = Some w ->
                (forall w1, width r1 = Some w1 ->
                            String.length s <= String.length s' + w1)
                \/ (forall w2, width r2 = Some w2 ->
                               String.length s <= String.length s' + w2) ->
                String.length s <= String.length s' + w).
    { intros w s' Hw Hc. simpl in Hw.
      destruct (width r1) as [w1|]; [|discriminate].
      destruct (width r2) as [w2|]; [|discriminate].
      inversion Hw.
      destruct Hc as [Hc|Hc]; specialize (Hc _ eq_refl); lia. }
    destruct (Re.run r1 prev s cs k) as [y|] eqn:E.
    + inversion H; subst. apply (IH1 G1) in E; [|exact Hs].
      destruct E as [p1 [s1 [cs1 [Hk [Hs1 [Hl1 Hw1]]]]]].
      exists p1, s1, cs1. repeat split; auto.
    + apply (IH2 G2) in H; [|exact Hs].
      destruct H as [p2 [s2 [cs2 [Hk [Hs2 [Hl2 Hw2]]]]]].
      exists p2, s2, cs2. repeat split; auto.
  - apply andb_true_iff in G. destruct G as [G0 G1].
    apply (IH1 G1) in H; [|exact Hs].
    destruct H as [p1 [s1 [cs1 [Hk [Hs1 [Hl1 Hw1]]]]]].
    exists p1, s1, ((m, Re.consumed s s1) :: cs1). repeat split; auto.
    constructor; [|exact Hs1]. cbn [fst snd].
    destruct (width r1) as [w1|]; [|discriminate].
    apply Nat.leb_le in G0. specialize (Hw1 w1 eq_refl).
    unfold Re.consumed.
    pose proof (take_length (String.length s - String.length s1) s). lia.
  - destruct (Re.at_boundary prev s); [|discriminate].
    exists prev, s, cs. repeat split; auto. intros w _. lia.
Qed.

Lemma group_In (n : nat) (cs : Re.captures) (v : string) :
  Re.group n cs = Some v -> In (n, v) cs.
Proof.
  induction cs as [|[m u] cs IH]; [discriminate|].
  rewrite group_cons. destruct (m =? n) eqn:E; intros H.
  - apply Nat.eqb_eq in E. inversion H; subst. now left.
  - right. now apply IH.
Qed.

Lemma search_within (bound : nat -> nat) (r : Re.regex) (s : string)
      (n : nat) (m : Re.match_obj) (v : string) :
  groups_within bound r = true ->
  Re.search r s = Some m -> Re.group n (Re.m_groups m) = Some v ->
  String.length v <= bound n.
Proof.
  intros G. unfold Re.search. generalize (@None ascii) as prev.
  generalize 0 as pos.
  assert (M : forall prev s pos, Re.match_at r prev s pos = Some m ->
                                 Re.group n (Re.m_groups m) = Some v ->
                                 String.length v <= bound n).
  { intros prev s0 pos H Hv. unfold Re.match_at in H.
    apply (run_within bound r G) in H; [|constructor].
    destruct H as [p' [s' [cs' [Hk [Hs _]]]]]. inversion Hk; subst m.
    cbn [Re.m_groups] in Hv. apply group_In in Hv.
    unfold short_groups in Hs. rewrite Forall_forall in Hs.
    apply (Hs (n, v) Hv). }
  induction s as [|c s IH]; intros pos prev H Hv; simpl in H.
  - destruct (Re.match_at r prev EmptyString pos) as [y|] eqn:E;
      [|discriminate].
    inversion H; subst. eapply M; eauto.
  - destruct (Re.match_at r prev (String c s) pos) as [y|] eqn:E.
    + inversion H; subst. eapply M; eauto.
    + eapply IH; eauto.
Qed.

Lemma naming_exact (self : NASAComplianceChecker) :
  _check_naming_conventions self
  = Ok (extend (flat_map naming_line (Py.enumerate 1 (code_lines self))) self).
Proof.
  unfold _check_naming_conventions, lines_loop.
  apply for_each_extend. intros [i line] s. cbn [fst snd].
  unfold naming_line. cbn [fst snd].
  destruct (Re.search Pat.short_name line) as [m|] eqn:E;
    [|now rewrite extend_nil].
  pose proof (search_binds _ _ 2 _ E eq_refl) as Hg.
  destruct (Re.group 2 (Re.m_groups m)) as [v|] eqn:Ev; [|contradiction].
  pose proof (search_within short_name_bound Pat.short_name line 2 m v eq_refl
                E Ev) as Hl.
  change (short_name_bound 2) with 2 in Hl.
  assert (L : (String.length v <? 3) = true) by (apply Nat.ltb_lt; lia).
  rewrite L. now rewrite when_extend.
Qed.

Lemma naming_line_numbers (il : nat * string) :
  Forall (fun v => line_number v = fst il) (naming_line il).
Proof.
  unfold naming_line.
  destruct (Re.search Pat.short_name (snd il)) as [m|]; [|constructor].
  destruct (Re.group 2 (Re.m_groups m)); repeat constructor.
Qed.

(** X23. The naming rule reports every line in which its pattern is
    found (a word [int], [char], [float] or [double], white space, and a
    whole word of one or two lowercase letters), once, for the leftmost
    such place: the name the pattern captures never has three characters
    or more, so the length test that follows the search never fails.
    Loop counters such as [i] are reported like any other short name. *)
Theorem naming_rule_reports_every_match (code : string) (n : nat)
        (line : string) (var_match : Re.match_obj) :
  nth_error (Py.split newline code) n = Some line ->
  Re.search Pat.short_name line = Some var_match ->
  exists vs self var_name,
    check_code code = Ok (vs, self)
    /\ Re.group 2 (Re.m_groups var_match) = Some var_name
    /\ String.length var_name <= 2
    /\ with_rule "style_naming" (on_line (S n) vs)
       = [naming_violation (S n) line var_name].
Proof.
  intros Hn Hm.
  destruct (engine_rule 10 "style_naming" _check_naming_conventions code
              eq_refl eq_refl) as [vs [self [seg [E [HA HW]]]]].
  pose proof (search_binds _ _ 2 _ Hm eq_refl) as Hg.
  destruct (Re.group 2 (Re.m_groups var_match)) as [v|] eqn:Ev;
    [|contradiction].
  exists vs, self, v. split; [exact E|]. split; [reflexivity|].
  split.
  - exact (search_within short_name_bound Pat.short_name line 2 var_match v
             eq_refl Hm Ev).
  - rewrite on_line_with_rule, HW.
    unfold rule_alone in HA. rewrite naming_exact in HA.
    cbn [map_exc violations extend fresh app code_lines] in HA.
    inversion HA; subst seg.
    pose proof (on_line_flat_map naming_line _ 1 n line
                  naming_line_numbers Hn) as Q.
    cbn [Nat.add] in Q. rewrite Q.
    unfold naming_line. cbn [fst snd]. now rewrite Hm, Ev.
Qed.

Lemma naming_rule_reports_every_match_witness :
  exists vs self var_name,
    check_code loop_counter_sample = Ok (vs, self)
    /\ Re.group 2 (Re.m_groups {| Re.m_start := 7; Re.m_end := 12;
                                  Re.m_groups := [(2, "i"); (1, "int")] |})
       = Some var_name
    /\ String.length var_name <= 2
    /\ with_rule "style_naming" (on_line 1 vs)
       = [naming_violation 1 loop_counter_sample var_name].
Proof.
  apply (naming_rule_reports_every_match loop_counter_sample 0
           loop_counter_sample).
  - reflexivity.
  - vm_compute. reflexivity.
Defined.

(** ** Totality of the engine, and what a line can contribute *)

Lemma rule_4_exact (self : NASAComplianceChecker) :
  _check_rule_4_function_parameters self
  = Ok (extend (flat_map rule_4_line (Py.enumerate 1 (code_lines self))) self).
Proof.
  unfold _check_rule_4_function_parameters, lines_loop.
  apply for_each_extend. intros [i line] s. cbn [fst snd].
  unfold rule_4_line. cbn [fst snd].
  destruct (Re.search Pat.signature_params line) as [m|] eqn:E;
    [|now rewrite extend_nil].
  pose proof (search_binds _ _ 1 _ E eq_refl) as Hg.
  destruct (Re.group 1 (Re.m_groups m)) as [params|]; [|contradiction].
  now rewrite when_extend.
Qed.

(** A loop over the lines that appends, for each line, violations of
    that line which the pattern of the rule allows, appends violations
    that match. *)
Lemma flat_map_matched (id : string) (f : nat * string -> list Violation)
      (lines : list string) :
  (forall il, Forall (of_line id il) (f il)) ->
  Forall (matched lines) (flat_map f (Py.enumerate 1 lines)).
Proof.
  intros Hf. apply Forall_forall. intros v Hv.
  apply in_flat_map in Hv. destruct Hv as [[i line] [Hin Hv]].
  apply enumerate_lines_nth in Hin. destruct Hin as [Hi Hn].
  specialize (Hf (i, line)). rewrite Forall_forall in Hf.
  destruct (Hf v Hv) as [Hl [Hr Hp]]. cbn [fst snd] in *.
  unfold matched. rewrite Hl, Hr. split; [exact Hi|].
  exists line. split; [exact Hn|exact Hp].
Qed.

Ltac by_cases :=
  repeat match goal with
         | |- Forall _ (_ ++ _) => apply Forall_app; split
         | |- Forall _ (if ?c then _ else _) =>
             let E := fresh "E" in destruct c eqn:E
         | |- Forall _ [] => constructor
         | |- Forall _ [_] => constructor; [|constructor]
         end.

Ltac of_this_line :=
  split; [reflexivity|]; split; [reflexivity|];
  unfold rule_pattern; cbn [String.eqb Ascii.eqb Bool.eqb fst snd].

Lemma rule_1_of_line (lines : list string) (il : nat * string) :
  Forall (of_line "rule_1" il) (rule_1_line lines il).
Proof.
  unfold rule_1_line. apply Forall_app; split; [|apply Forall_app; split].
  - destruct (Py.contains "goto" (snd il) && negb (is_comment (snd il)))
      eqn:E; [|constructor].
    constructor; [|constructor]. of_this_line.
    apply andb_true_iff in E. destruct E as [E _]. now rewrite E.
  - destruct ((Py.contains "setjmp" (snd il)
               || Py.contains "longjmp" (snd il))
              && negb (is_comment (snd il))) eqn:E; [|constructor].
    constructor; [|constructor]. of_this_line.
    apply andb_true_iff in E. destruct E as [E _].
    apply orb_true_iff in E. destruct E as [E|E]; rewrite E;
      rewrite ?orb_true_r; reflexivity.
  - unfold rule_1_recursion.
    destruct (Re.search Pat.call_block (snd il)) as [m|] eqn:S1;
      [|constructor].
    destruct (Re.search Pat.call_block_name (snd il)); [|constructor].
    match goal with |- context [if ?c then _ else _] => destruct c end;
      [|constructor].
    constructor; [|constructor]. of_this_line. rewrite S1.
    apply orb_true_r.
Qed.

Lemma rule_2_of_line (il : nat * string) :
  Forall (of_line "rule_2" il) (rule_2_line il).
Proof.
  unfold rule_2_line, while_unbounded, while_infinite. by_cases;
    of_this_line; apply andb_true_iff in E; destruct E as [E _]; rewrite E;
    rewrite ?orb_true_r; reflexivity.
Qed.

Lemma rule_3_of_line (il : nat * string) :
  Forall (of_line "rule_3" il) (rule_3_line il).
Proof.
  unfold rule_3_line. by_cases. of_this_line.
  apply andb_true_iff in E. now destruct E.
Qed.

Lemma rule_4_of_line (il : nat * string) :
  Forall (of_line "rule_4" il) (rule_4_line il).
Proof.
  unfold rule_4_line.
  destruct (Re.search Pat.signature_params (snd il)) as [m|] eqn:S;
    [|constructor].
  destruct (Re.group 1 (Re.m_groups m)); by_cases.
  of_this_line. now rewrite S.
Qed.

Lemma rule_5_of_line (il : nat * string) :
  Forall (of_line "rule_5" il) (rule_5_line il).
Proof. unfold rule_5_line. by_cases. of_this_line. exact E. Qed.

Lemma rule_8_of_line (il : nat * string) :
  Forall (of_line "rule_8" il) (rule_8_line il).
Proof.
  unfold rule_8_line. by_cases. of_this_line.
  apply andb_true_iff in E. now destruct E.
Qed.

Lemma rule_9_of_line (il : nat * string) :
  Forall (of_line "rule_9" il) (rule_9_line il).
Proof. unfold rule_9_line. by_cases. of_this_line. exact E. Qed.

Lemma rule_10_of_line (il : nat * string) :
  Forall (of_line "rule_10" il) (rule_10_line il).
Proof.
  unfold rule_10_line, multiple_equals. by_cases. of_this_line.
  apply andb_true_iff in E. now destruct E.
Qed.

Lemma naming_of_line (il : nat * string) :
  Forall (of_line "style_naming" il) (naming_line il).
Proof.
  unfold naming_line.
  destruct (Re.search Pat.short_name (snd il)) as [m|] eqn:S; [|constructor].
  destruct (Re.group 2 (Re.m_groups m)); by_cases.
  of_this_line. now rewrite S.
Qed.

Lemma comment_coverage_of_line (lines : list string) (il : nat * string) :
  Forall (of_line "style_comments" il) (comment_coverage_line lines il).
Proof.
  unfold comment_coverage_line. by_cases. of_this_line.
  apply andb_true_iff in E. now destruct E.
Qed.

Lemma error_handling_of_line (lines : list string) (il : nat * string) :
  Forall (of_line "style_error_handling" il) (error_handling_line lines il).
Proof.
  unfold error_handling_line. by_cases. of_this_line.
  apply andb_true_iff in E. now destruct E.
Qed.

Lemma type_safety_of_line (lines : list string) (il : nat * string) :
  Forall (of_line "style_type_safety" il) (type_safety_line lines il).
Proof.
  unfold type_safety_line. by_cases. of_this_line.
  apply andb_true_iff in E. now destruct E.
Qed.

(** The rules that decide line by line, run alone. *)
Lemma exact_matched (id : string) (f : nat * string -> list Violation)
      (rule : NASAComplianceChecker -> exc NASAComplianceChecker)
      (lines : list string) (seg : list Violation) :
  rule (fresh lines)
  = Ok (extend (flat_map f (Py.enumerate 1 lines)) (fresh lines)) ->
  (forall il, Forall (of_line id il) (f il)) ->
  rule_alone rule lines = Ok seg -> Forall (matched lines) seg.
Proof.
  intros E Hf H. unfold rule_alone in H. rewrite E in H.
  cbn [map_exc violations extend fresh app] in H. inversion H; subst seg.
  now apply (flat_map_matched id).
Qed.

Lemma matched_when (lines : list string) (c : bool) (v : Violation)
      (s : NASAComplianceChecker) :
  Forall (matched lines) (violations s) ->
  (c = true -> matched lines v) ->
  Forall (matched lines) (violations (when c v s)).
Proof.
  intros H Hv. unfold when. destruct c; [|exact H].
  unfold append. cbn [violations]. apply Forall_app. split; [exact H|].
  constructor; [now apply Hv|constructor].
Qed.

Lemma rule_6_matched (lines : list string) (seg : list Violation) :
  rule_alone _check_rule_6_variable_declarations lines = Ok seg ->
  Forall (matched lines) seg.
Proof.
  unfold rule_alone, _check_rule_6_variable_declarations.
  match goal with
  | |- context [for_each ?body ?l ?st0] =>
      destruct (for_each_inv
                  (fun st : NASAComplianceChecker * scan =>
                     Forall (matched lines) (violations (fst st)))
                  body l st0) as [st [E P]]
  end.
  - constructor.
  - intros [i line] [s loc] Hin HP. cbn [fst snd fresh code_lines] in *.
    apply enumerate_lines_nth in Hin. destruct Hin as [Hi Hn].
    destruct (Re.is_some (Re.rmatch Pat.function_start line)).
    + eexists. split; [reflexivity|exact HP].
    + eexists. split; [reflexivity|]. cbn [fst].
      destruct (in_function loc
                && Re.is_some (Re.rmatch Pat.declaration line)) eqn:C;
        [|exact HP].
      apply matched_when; [exact HP|]. intros _.
      apply andb_true_iff in C. destruct C as [_ C].
      split; [exact Hi|]. exists line. split; [exact Hn|exact C].
  - rewrite E. cbn [bind map_exc]. intros H. inversion H; subst seg. exact P.
Qed.

Lemma start_violation_matched (lines : list string) (id : string)
      (v : Violation) (l : string) :
  1 <= line_number v ->
  nth_error lines (line_number v - 1) = Some l ->
  Re.is_some (Re.rmatch Pat.function_start l) = true ->
  rule_id v = "rule_7" \/ rule_id v = "style_function_length" ->
  matched lines v.
Proof.
  intros H1 Hn Hm Hid. split; [exact H1|]. exists l. split; [exact Hn|].
  destruct Hid as [-> | ->]; exact Hm.
Qed.

Lemma index_start (lines : list string) (fs : nat) (l : string) :
  1 <= fs -> nth_error lines (fs - 1) = Some l ->
  Py.index lines (Z.of_nat fs - 1) = Ok l.
Proof.
  intros H Hn.
  replace (Z.of_nat fs - 1)%Z with (Z.of_nat (fs - 1)) by lia.
  now apply index_nth.
Qed.

Lemma rule_7_matched (lines : list string) (seg : list Violation) :
  rule_alone _check_rule_7_single_return lines = Ok seg ->
  Forall (matched lines) seg.
Proof.
  unfold rule_alone, _check_rule_7_single_return.
  match goal with
  | |- context [for_each ?body ?l ?st0] =>
      destruct (for_each_inv (scan_matched lines) body l st0) as [st [E P]]
  end.
  - split; [constructor|]. split; [reflexivity|discriminate].
  - intros [i line] [s loc] Hin [HV [HL HS]].
    cbn [fst snd fresh code_lines] in *.
    apply enumerate_lines_nth in Hin. destruct Hin as [Hi Hn].
    destruct (Re.is_some (Re.rmatch Pat.function_start line)) eqn:M.
    { eexists. split; [reflexivity|].
      split; [exact HV|]. split; [exact HL|].
      intros _. cbn [snd function_start]. split; [exact Hi|].
      exists line. split; [exact Hn|exact M]. }
    set (loc' := if in_function loc && Py.contains "return" line
                    && negb (is_comment line)
                 then _ else loc).
    assert (Hin' : in_function loc' = in_function loc)
      by (unfold loc'; match goal with |- context [if ?c then _ else _] =>
                         destruct c end; reflexivity).
    assert (Hfs' : function_start loc' = function_start loc)
      by (unfold loc'; match goal with |- context [if ?c then _ else _] =>
                         destruct c end; reflexivity).
    destruct (is_closing_brace line && in_function loc') eqn:C.
    + apply andb_true_iff in C. destruct C as [_ C].
      destruct (HS (eq_trans (eq_sym Hin') C)) as [H1 [l [Hl Hm]]].
      destruct (1 <? counter loc').
      * rewrite HL, Hfs', (index_start _ _ _ H1 Hl). cbn [bind].
        eexists. split; [reflexivity|].
        split; [|split; [exact HL|discriminate]].
        cbn [fst append violations]. apply Forall_app. split; [exact HV|].
        constructor; [|constructor].
        apply (start_violation_matched lines "rule_7" _ l);
          [exact H1|exact Hl|exact Hm|now left].
      * cbn [bind]. eexists. split; [reflexivity|].
        split; [exact HV|]. split; [exact HL|discriminate].
    + eexists. split; [reflexivity|]. split; [exact HV|].
      split; [exact HL|]. cbn [fst snd]. rewrite Hin', Hfs'. exact HS.
  - rewrite E. cbn [bind map_exc]. intros H. inversion H; subst seg.
    exact (proj1 P).
Qed.

Lemma function_length_matched (lines : list string) (seg : list Violation) :
  rule_alone _check_function_length lines = Ok seg ->
  Forall (matched lines) seg.
Proof.
  unfold rule_alone, _check_function_length.
  match goal with
  | |- context [for_each ?body ?l ?st0] =>
      destruct (for_each_inv (scan_matched lines) body l st0) as [st [E P]]
  end.
  - split; [constructor|]. split; [reflexivity|discriminate].
  - intros [i line] [s loc] Hin [HV [HL HS]].
    cbn [fst snd fresh code_lines] in *.
    apply enumerate_lines_nth in Hin. destruct Hin as [Hi Hn].
    destruct (Re.is_some (Re.rmatch Pat.function_start line)) eqn:M.
    { eexists. split; [reflexivity|].
      split; [exact HV|]. split; [exact HL|].
      intros _. cbn [snd function_start]. split; [exact Hi|].
      exists line. split; [exact Hn|exact M]. }
    set (loc' := if in_function loc then _ else loc).
    assert (Hin' : in_function loc' = in_function loc)
      by (unfold loc'; destruct (in_function loc) eqn:F; simpl; auto).
    assert (Hfs' : function_start loc' = function_start loc)
      by (unfold loc'; destruct (in_function loc); reflexivity).
    destruct (is_closing_brace line && in_function loc') eqn:C.
    + apply andb_true_iff in C. destruct C as [_ C].
      destruct (HS (eq_trans (eq_sym Hin') C)) as [H1 [l [Hl Hm]]].
      destruct (50 <? counter loc').
      * rewrite HL, Hfs', (index_start _ _ _ H1 Hl). cbn [bind].
        eexists. split; [reflexivity|].
        split; [|split; [exact HL|discriminate]].
        cbn [fst append violations]. apply Forall_app. split; [exact HV|].
        constructor; [|constructor].
        apply (start_violation_matched lines "style_function_length" _ l);
          [exact H1|exact Hl|exact Hm|now right].
      * cbn [bind]. eexists. split; [reflexivity|].
        split; [exact HV|]. split; [exact HL|discriminate].
    + eexists. split; [reflexivity|]. split; [exact HV|].
      split; [exact HL|]. cbn [fst snd]. rewrite Hin', Hfs'. exact HS.
  - rewrite E. cbn [bind map_exc]. intros H. inversion H; subst seg.
    exact (proj1 P).
Qed.

(** Every violation of the engine cites a line that matches the pattern
    of its rule. *)
Lemma check_code_matched (code : string) :
  exists vs self,
    check_code code = Ok (vs, self)
    /\ Forall (matched (Py.split newline code)) vs.
Proof.
  destruct (run_rules_alone (Py.split newline code)) as [segs [E [HA _]]].
  exists (List.concat segs). eexists. split.
  { unfold check_code, check_all_rules.
    change (reset (load_code code init)) with (fresh (Py.split newline code)).
    rewrite E. cbn [bind violations prepend fresh]. now rewrite app_nil_r. }
  unfold rules in HA. split_segments. cbn [List.concat].
  repeat (apply Forall_app; split); try constructor.
  - eapply (exact_matched "rule_1"); eauto using rule_1_of_line.
    apply rule_1_exact.
  - eapply (exact_matched "rule_2"); eauto using rule_2_of_line.
    apply rule_2_exact.
  - eapply (exact_matched "rule_3"); eauto using rule_3_of_line.
    apply rule_3_exact.
  - eapply (exact_matched "rule_4"); eauto using rule_4_of_line.
    apply rule_4_exact.
  - eapply (exact_matched "rule_5"); eauto using rule_5_of_line.
    apply rule_5_exact.
  - now apply rule_6_matched.
  - now apply rule_7_matched.
  - eapply (exact_matched "rule_8"); eauto using rule_8_of_line.
    apply rule_8_exact.
  - eapply (exact_matched "rule_9"); eauto using rule_9_of_line.
    apply rule_9_exact.
  - eapply (exact_matched "rule_10"); eauto using rule_10_of_line.
    apply rule_10_exact.
  - eapply (exact_matched "style_naming"); eauto using naming_of_line.
    apply naming_exact.
  - now apply function_length_matched.
  - eapply (exact_matched "style_comments");
      eauto using comment_coverage_of_line.
    apply comment_coverage_exact.
  - eapply (exact_matched "style_error_handling");
      eauto using error_handling_of_line.
    apply error_handling_exact.
  - eapply (exact_matched "style_type_safety");
      eauto using type_safety_of_line.
    apply type_safety_exact.
Qed.

Lemma filter_nothing {A : Type} (p : A -> bool) (l : list A) :
  Forall (fun a => p a = false) l -> filter p l = [].
Proof.
  induction 1 as [|a l Ha _ IH]; [reflexivity|]. simpl. now rewrite Ha.
Qed.

(** In the output of the engine, the violations of a line-by-line rule
    for a line are what the loop body of the rule gives for that line. *)
Lemma engine_line (k : nat) (id : string)
      (rule : NASAComplianceChecker -> exc NASAComplianceChecker)
      (f : nat * string -> list Violation) (code : string) (n : nat)
      (line : string) (vs : list Violation) (self : NASAComplianceChecker) :
  nth_error rules k = Some rule -> nth_error rule_order k = Some id ->
  rule (fresh (Py.split newline code))
  = Ok (extend (flat_map f (Py.enumerate 1 (Py.split newline code)))
               (fresh (Py.split newline code))) ->
  (forall il, Forall (of_line id il) (f il)) ->
  check_code code = Ok (vs, self) ->
  nth_error (Py.split newline code) n = Some line ->
  with_rule id (on_line (S n) vs) = f (S n, line).
Proof.
  intros Hr Hid Hex Hof E Hn.
  destruct (engine_rule k id rule code Hr Hid)
    as [vs' [self' [seg [E' [HA HW]]]]].
  rewrite E in E'. inversion E'; subst vs' self'.
  rewrite on_line_with_rule, HW.
  unfold rule_alone in HA. rewrite Hex in HA.
  cbn [map_exc violations extend fresh app] in HA. inversion HA; subst seg.
  apply (on_line_flat_map f _ 1 n line); [|exact Hn].
  intros il. eapply Forall_impl; [|apply Hof]. now intros v [H _].
Qed.

(** C6. On every source text, of any content, [check_all_rules] returns
    a violation list and raises nothing.  The list is made of one segment
    per rule, in the fixed order of the rules, each segment holding the
    violations of that rule only.  For each of the fifteen rules, a line
    that does not match the pattern of the rule contributes no violation
    of that rule, and every violation cites a line of the source that
    matches the pattern of its rule.  For each of the twelve rules that
    decide line by line, the violations of a line are what the loop body
    of the rule gives for that line. *)
Theorem check_all_rules_is_total (code : string) :
  exists vs self segs,
    check_code code = Ok (vs, self)
    /\ violations self = vs
    /\ vs = List.concat segs
    /\ Forall2 (fun id seg => Forall (fun v => rule_id v = id) seg)
               rule_order segs
    /\ Forall (matched (Py.split newline code)) vs
    /\ (forall n line id,
          nth_error (Py.split newline code) n = Some line ->
          rule_pattern id line = false ->
          with_rule id (on_line (S n) vs) = [])
    /\ (forall n line id f,
          nth_error (Py.split newline code) n = Some line ->
          line_rule (Py.split newline code) id = Some f ->
          with_rule id (on_line (S n) vs) = f (S n, line)).
Proof.
  destruct (check_code_spec code) as [vs [self [segs [E [HV [_ [HC [HF _]]]]]]]].
  destruct (check_code_matched code) as [vs' [self' [E' HM]]].
  rewrite E in E'. inversion E'; subst vs' self'. clear E'.
  exists vs, self, segs.
  split; [exact E|]. split; [exact HV|]. split; [exact HC|].
  split; [exact HF|]. split; [exact HM|]. split.
  - intros n line id Hn Hp. unfold with_rule, on_line.
    rewrite filters_commute.
    assert (F : Forall (fun v => (line_number v =? S n)
                                 && String.eqb (rule_id v) id = false) vs).
    { eapply Forall_impl; [|exact HM]. intros v [H1 [l [Hl Hm]]].
      destruct (line_number v =? S n) eqn:L; [|reflexivity].
      destruct (String.eqb (rule_id v) id) eqn:R; [|reflexivity].
      apply Nat.eqb_eq in L. apply String.eqb_eq in R.
      rewrite L in Hl. replace (S n - 1) with n in Hl by lia.
      rewrite Hn in Hl. inversion Hl; subst l. rewrite R in Hm.
      congruence. }
    clear - F. induction F as [|v vs Hv _ IH]; [reflexivity|].
    cbn [filter]. apply andb_false_iff in Hv.
    destruct (String.eqb (rule_id v) id) eqn:R.
    + cbn [filter]. destruct Hv as [Hv|Hv]; [|discriminate].
      rewrite Hv. exact IH.
    + exact IH.
  - intros n line id f Hn Hf. unfold line_rule in Hf.
    repeat match type of Hf with
           | (if String.eqb ?a ?b then _ else _) = _ =>
               let Q := fresh "Q" in
               destruct (String.eqb a b) eqn:Q;
               [apply String.eqb_eq in Q; subst id; inversion Hf; subst f;
                clear Hf|]
           end; try discriminate.
    + exact (engine_line 0 _ _ _ code n line vs self eq_refl eq_refl
               (rule_1_exact _) (rule_1_of_line _) E Hn).
    + exact (engine_line 1 _ _ _ code n line vs self eq_refl eq_refl
               (rule_2_exact _) rule_2_of_line E Hn).
    + exact (engine_line 2 _ _ _ code n line vs self eq_refl eq_refl
               (rule_3_exact _) rule_3_of_line E Hn).
    + exact (engine_line 3 _ _ _ code n line vs self eq_refl eq_refl
               (rule_4_exact _) rule_4_of_line E Hn).
    + exact (engine_line 4 _ _ _ code n line vs self eq_refl eq_refl
               (rule_5_exact _) rule_5_of_line E Hn).
    + exact (engine_line 7 _ _ _ code n line vs self eq_refl eq_refl
               (rule_8_exact _) rule_8_of_line E Hn).
    + exact (engine_line 8 _ _ _ code n line vs self eq_refl eq_refl
               (rule_9_exact _) rule_9_of_line E Hn).
    + exact (engine_line 9 _ _ _ code n line vs self eq_refl eq_refl
               (rule_10_exact _) rule_10_of_line E Hn).
    + exact (engine_line 10 _ _ _ code n line vs self eq_refl eq_refl
               (naming_exact _) naming_of_line E Hn).
    + exact (engine_line 12 _ _ _ code n line vs self eq_refl eq_refl
               (comment_coverage_exact _) (comment_coverage_of_line _) E Hn).
    + exact (engine_line 13 _ _ _ code n line vs self eq_refl eq_refl
               (error_handling_exact _) (error_handling_of_line _) E Hn).
    + exact (engine_line 14 _ _ _ code n line vs self eq_refl eq_refl
               (type_safety_exact _) (type_safety_of_line _) E Hn).
Qed.
